(** * VSON WP6810 monitor: frame decoders, notification handler, handshake
      and reconnection loop of [monitor.py], embedded and verified.

    Bytes are [Byte.byte]; Python integers are [Z]; Python floats are the
    binary64 primitive floats; [time.time()] readings are rationals (seconds).
    Python exceptions are carried by the result type [py]. *)

From Stdlib Require Import ZArith List Bool Lia.
From Stdlib.Strings Require Import String Ascii Byte.
From Stdlib Require Import QArith Lqa PrimFloat Uint63.
Import ListNotations.

Set Warnings "-inexact-float".
Local Open Scope Z_scope.

(** ** Python values and exceptions *)

Definition bytes := list byte.

Definition Z_of_byte (b : byte) : Z := Z.of_N (Byte.to_N b).

(** [bytes([z])] for an integer already reduced into [range(256)]. *)
Definition byte_of_Z (z : Z) : byte :=
  match Byte.of_N (Z.to_N z) with
  | Some b => b
  | None => x00
  end.

Inductive exn :=
| IndexError
| CancelledError
| KeyboardInterrupt
| TimeoutError
| BleakError (msg : string)
| OSError
| RuntimeError
| ValueError
| SystemExit (code : Z)
| OtherError.

Inductive py (A : Type) :=
| Ret (a : A)
| Raise (e : exn).
Arguments Ret {A} a.
Arguments Raise {A} e.

Definition bind {A B : Type} (m : py A) (k : A -> py B) : py B :=
  match m with
  | Ret a => k a
  | Raise e => Raise e
  end.

Notation "x <- m ;; k" := (bind m (fun x => k))
  (at level 61, m at next level, right associativity).

(** [buf[i]] for a constant, non-negative index. *)
Definition getitem (buf : bytes) (i : nat) : py Z :=
  match nth_error buf i with
  | Some b => Ret (Z_of_byte b)
  | None => Raise IndexError
  end.

(** [buf[lo:hi]] for constant, non-negative bounds: never raises. *)
Definition slice (buf : bytes) (lo hi : nat) : bytes :=
  firstn (hi - lo) (skipn lo buf).

Definition len (buf : bytes) : Z := Z.of_nat (List.length buf).

(** Exact conversion of a (small) Python int to float, as done by the
    mixed int/float arithmetic operators. *)
Definition float_of_int (z : Z) : float := PrimFloat.of_uint63 (Uint63.of_Z z).

(** ** Protocol constants *)

Definition UUID_STATUS : string := "0000fff4-0000-1000-8000-00805f9b34fb".
Definition UUID_SHORT : string := "0000ffe3-0000-1000-8000-00805f9b34fb".
Definition UUID_META : string := "0000ffe4-0000-1000-8000-00805f9b34fb".
Definition UUID_DATA : string := "0000ffe1-0000-1000-8000-00805f9b34fb".
Definition UUID_KEY : string := "0000fff1-0000-1000-8000-00805f9b34fb".
Definition UUID_CMD : string := "0000fff3-0000-1000-8000-00805f9b34fb".

Definition META_FLAG_TIME_CONFIRMATION : Z := 1.
Definition META_FLAG_SHORT_RESPONSE : Z := 2.
Definition PACKET_SIZE_META_SHORT : Z := 2.
Definition PACKET_SIZE_META_LONG : Z := 8.

Definition CMD_START : bytes := [x03].

Definition PACKET_SIZE_DATA : Z := 20.
Definition PACKET_SIZE_META : Z := 8.
Definition PARTICLE_MULTIPLIER_BASE : Z := 256.
Definition PARTICLE_MULTIPLIER_LSB : Z := 6250.
Definition PARTICLE_MULTIPLIER_CORRECTION : float := 3.53%float.
Definition PARTICLE_DIVISOR : float := 1000.0%float.

(** ** Protocol utilities and decoders *)

Definition u16_le (buf : bytes) (off : nat) : py Z :=
  lo <- getitem buf off ;;
  hi <- getitem buf (off + 1) ;;
  Ret (Z.lor lo (Z.shiftl hi 8)).

Record Header := mkHeader {
  year_offset : Z;
  year_2000 : Z;
  h_month : Z;
  h_day : Z;
  h_hour : Z;
  h_minute : Z;
  h_second : Z
}.

Definition decode_header_datetime (header : bytes) : py (option Header) :=
  if negb (len header =? 6) then Ret None else
  yo <- getitem header 0 ;;
  mo <- getitem header 1 ;;
  d <- getitem header 2 ;;
  h <- getitem header 3 ;;
  mi <- getitem header 4 ;;
  s <- getitem header 5 ;;
  Ret (Some (mkHeader yo (2000 + yo) mo d h mi s)).

Inductive FlagMeaning := current | history.

Record DataFrame := mkDataFrame {
  header : option Header;
  pm25 : Z;
  pm1 : Z;
  pm10 : Z;
  unknown1 : Z;
  unused4 : bytes;
  counter : Z;
  flag : Z;
  flag_meaning : FlagMeaning;
  particles : float;
  particles_msb : Z;
  particles_lsb : Z
}.

Definition decode_data_frame (payload : bytes) : py (option DataFrame) :=
  if negb (len payload =? PACKET_SIZE_DATA) then Ret None else
  header_decoded <- decode_header_datetime (slice payload 0 6) ;;
  pm25 <- u16_le payload 6 ;;
  pm1 <- u16_le payload 8 ;;
  pm10 <- u16_le payload 10 ;;
  unknown1 <- u16_le payload 12 ;;
  let unused4 := slice payload 14 18 in
  counter <- getitem payload 18 ;;
  flag <- getitem payload 19 ;;
  let msb := Z.land (Z.shiftr pm25 8) 255 in
  let lsb := Z.land pm25 255 in
  let particles :=
    (float_of_int (msb * PARTICLE_MULTIPLIER_BASE)
     + (float_of_int (lsb * PARTICLE_MULTIPLIER_LSB)
        * PARTICLE_MULTIPLIER_CORRECTION)
       / PARTICLE_DIVISOR)%float in
  Ret (Some (mkDataFrame header_decoded pm25 pm1 pm10 unknown1 unused4
               counter flag
               (if flag =? 1 then current else history)
               particles msb lsb)).

Record StatusFrame := mkStatusFrame {
  battery_raw : Z;
  battery_percent : Z
}.

Definition decode_status_battery (payload : bytes) : py (option StatusFrame) :=
  if len payload <? 1 then Ret None else
  level <- getitem payload 0 ;;
  Ret (Some (mkStatusFrame level level)).

Record MetaFrame := mkMetaFrame {
  m_flag : Z;
  m_year : Z;
  m_month : Z;
  m_day : Z;
  m_hour : Z;
  m_minute : Z;
  m_second : Z;
  m_mode : Z
}.

Definition decode_meta_time_mode (payload : bytes) : py (option MetaFrame) :=
  if negb (len payload =? PACKET_SIZE_META) then Ret None else
  flag <- getitem payload 0 ;;
  y <- getitem payload 1 ;;
  month <- getitem payload 2 ;;
  day <- getitem payload 3 ;;
  hour <- getitem payload 4 ;;
  minute <- getitem payload 5 ;;
  second <- getitem payload 6 ;;
  mode <- getitem payload 7 ;;
  Ret (Some (mkMetaFrame flag (2000 + y) month day hour minute second mode)).

(** ** Configuration and runtime state (module-level globals) *)

Inductive OutputFormat := text | json.

Record Config := mkConfig {
  device_address : string;
  output_format : OutputFormat;
  include_history : bool;
  mqtt_enabled : bool;
  mqtt_topic : string;
  mqtt_auto_discovery : bool;
  mqtt_client : bool;   (* [config.mqtt_client] is set *)
  mqtt_connection_failed_count : Z;
  mqtt_max_connection_attempts : Z;
  mqtt_fatal_error : bool;
  response_timeout : Z
}.

Record SensorState := mkSensorState {
  latest_battery : Z;
  last_data_time : option Q
}.

(** [config = Config()] and [sensor_state = SensorState()] at import time. *)
Definition config0 : Config :=
  mkConfig "" text false false "homeassistant/sensor/vson" false false
           0 5 false 300.

Definition sensor_state0 : SensorState := mkSensorState 0 None.

Definition set_latest_battery (st : SensorState) (v : Z) : SensorState :=
  mkSensorState v (last_data_time st).

Definition set_last_data_time (st : SensorState) (t : option Q) : SensorState :=
  mkSensorState (latest_battery st) t.

Definition set_mqtt_failures (cfg : Config) (n : Z) (fatal : bool) : Config :=
  mkConfig (device_address cfg) (output_format cfg) (include_history cfg)
           (mqtt_enabled cfg) (mqtt_topic cfg) (mqtt_auto_discovery cfg)
           (mqtt_client cfg) n (mqtt_max_connection_attempts cfg) fatal
           (response_timeout cfg).

(** [datetime.now()]: the fields the program reads. *)
Record datetime := mkDatetime {
  dt_year : Z;
  dt_month : Z;
  dt_day : Z;
  dt_hour : Z;
  dt_minute : Z;
  dt_second : Z
}.

(** ** Observable effects

    Logging, printing, the MQTT client and the BLE transport are external
    collaborators: a call to one of them is recorded and returns to the
    caller. Text formatting of a message is not modelled: a message keeps the
    values it is formatted from. *)

Inductive level := DEBUG | INFO | WARNING | ERROR.

(** [round(x, 2)], kept symbolic. *)
Inductive rounded := round2 (x : float).

Inductive logmsg :=
| MsgNotification (handle : Z) (uuid : string) (b : bytes)
| MsgInvalidData (expected got : Z)
| MsgSkipHistorical (counter : Z)
| MsgData (pm1 pm25 pm10 : Z) (particles : float) (meaning : FlagMeaning)
| MsgInvalidStatus
| MsgBatteryLevel (percent : Z)
| MsgEmptyMeta
| MsgInvalidMetaLong (expected got : Z)
| MsgMetaDecodeFailed
| MsgTimeConfirmed (year month day hour minute second mode : Z)
| MsgInvalidMetaShort (expected got : Z)
| MsgMetaShort (b : bytes)
| MsgUnknownMetaFlag (flag : Z) (b : bytes)
| MsgShort (b : bytes)
| MsgMqttPublished (topic : string)
| MsgMqttConnected
| MsgMqttConnectFailed (code : Z)
| MsgMqttGiveUp (attempts : Z)
| MsgMqttDisconnected (code : Z)
| MsgMqttLost (attempts : Z)
| MsgInitStarting
| MsgEnabling
| MsgEnabled (uuid : string)
| MsgSendingKey (code : string) (key : bytes)
| MsgKeyAccepted
| MsgSendingStart (cmd : bytes)
| MsgStartAccepted
| MsgSyncTime (now : datetime)
| MsgSendingSync (pkt : bytes)
| MsgSyncAccepted
| MsgInitCompleted
| MsgMqttAbort
| MsgConnecting (address : string)
| MsgConnectFailed
| MsgConnected
| MsgDiscovery (started : bool)
| MsgListening (timeout : Z)
| MsgMqttStop
| MsgNoResponse (elapsed : Q) (timeout : Z)
| MsgCancelled
| MsgKeyboardInterrupt
| MsgBleTimeout
| MsgBleError (msg : string)
| MsgReconnect (delay : Z)
| MsgInterrupted
| MsgConnectionTimeout
| MsgConnectionLost (e : exn)
| MsgUnexpected (e : exn).

Record JsonData := mkJsonData {
  j_timestamp : option Header;
  j_pm1 : Z;
  j_pm25 : Z;
  j_pm10 : Z;
  j_particles : rounded;
  j_battery : Z
}.

Record MqttData := mkMqttData {
  q_timestamp : datetime;   (* [datetime.now().isoformat()] *)
  q_pm1 : Z;
  q_pm25 : Z;
  q_pm10 : Z;
  q_particles : rounded;
  q_battery : Z;
  q_flag_meaning : FlagMeaning
}.

Inductive effect :=
| Log (lvl : level) (m : logmsg)
| Print (j : JsonData)
| MqttPublish (topic : string) (payload : MqttData)
| HaDiscovery (device_mac : string)   (* the five retained config messages *)
| MqttClientDisconnect
| Connect (address : string)
| StartNotify (uuid : string)
| WriteGattChar (uuid : string) (data : bytes) (response : bool)
| Disconnect
| Sleep (seconds : Z).

(** ** String helpers: [str.lower] and [str.replace(":", "")] *)

Definition lower_ascii (c : ascii) : ascii :=
  let n := nat_of_ascii c in
  if (Nat.leb 65 n && Nat.leb n 90)%bool then ascii_of_nat (n + 32) else c.

Fixpoint lower (s : string) : string :=
  match s with
  | EmptyString => EmptyString
  | String c r => String (lower_ascii c) (lower r)
  end.

Fixpoint remove_colons (s : string) : string :=
  match s with
  | EmptyString => EmptyString
  | String c r =>
      if Ascii.eqb c ":"%char then remove_colons r
      else String c (remove_colons r)
  end.

(** ** Output formatting and MQTT publishing *)

Definition output_text_data (decoded : DataFrame) : list effect :=
  [Log INFO (MsgData (pm1 decoded) (pm25 decoded) (pm10 decoded)
               (particles decoded) (flag_meaning decoded))].

Definition output_json_data (st : SensorState) (decoded : DataFrame)
  : list effect :=
  [Print (mkJsonData (header decoded) (pm1 decoded) (pm25 decoded)
            (pm10 decoded) (round2 (particles decoded)) (latest_battery st))].

Definition publish_mqtt (cfg : Config) (data : MqttData) (device_mac : string)
  : list effect :=
  if negb (mqtt_client cfg) then [] else
  let device_id := lower (remove_colons device_mac) in
  let state_topic :=
    (mqtt_topic cfg ++ "/" ++ device_id ++ "/state")%string in
  [MqttPublish state_topic data; Log DEBUG (MsgMqttPublished state_topic)].

(** ** Notification handler *)

Record Channel := mkChannel {
  handle : Z;
  uuid : string
}.

Definition notification_handler (cfg : Config) (now : Q) (wall : datetime)
    (ch : Channel) (data : bytes) (st : SensorState)
  : py (SensorState * list effect) :=
  let b := data in
  let uuid_lower := lower (uuid ch) in
  let e0 := [Log DEBUG (MsgNotification (handle ch) (uuid ch) b)] in
  (* Update last data time for any notification *)
  let st := set_last_data_time st (Some now) in
  if (uuid_lower =? lower UUID_DATA)%string then
    decoded <- decode_data_frame b ;;
    match decoded with
    | None =>
        Ret (st, e0 ++ [Log WARNING (MsgInvalidData PACKET_SIZE_DATA (len b))])
    | Some decoded =>
        if (flag decoded =? 0) && negb (include_history cfg) then
          Ret (st, e0 ++ [Log DEBUG (MsgSkipHistorical (counter decoded))])
        else
          let out :=
            match output_format cfg with
            | json => output_json_data st decoded
            | text => output_text_data decoded
            end in
          let pub :=
            if mqtt_enabled cfg then
              publish_mqtt cfg
                (mkMqttData wall (pm1 decoded) (pm25 decoded) (pm10 decoded)
                   (round2 (particles decoded)) (latest_battery st)
                   (flag_meaning decoded))
                (device_address cfg)
            else [] in
          Ret (st, e0 ++ out ++ pub)
    end
  else if (uuid_lower =? lower UUID_STATUS)%string then
    decoded <- decode_status_battery b ;;
    match decoded with
    | None => Ret (st, e0 ++ [Log WARNING MsgInvalidStatus])
    | Some decoded =>
        let st := set_latest_battery st (battery_percent decoded) in
        Ret (st, e0 ++ [Log INFO (MsgBatteryLevel (battery_percent decoded))])
    end
  else if (uuid_lower =? lower UUID_META)%string then
    if len b =? 0 then Ret (st, e0 ++ [Log WARNING MsgEmptyMeta]) else
    flag <- getitem b 0 ;;
    if flag =? META_FLAG_TIME_CONFIRMATION then
      if negb (len b =? PACKET_SIZE_META_LONG) then
        Ret (st, e0 ++ [Log WARNING
                          (MsgInvalidMetaLong PACKET_SIZE_META_LONG (len b))])
      else
        decoded <- decode_meta_time_mode b ;;
        match decoded with
        | None => Ret (st, e0 ++ [Log WARNING MsgMetaDecodeFailed])
        | Some d =>
            Ret (st, e0 ++ [Log INFO
                              (MsgTimeConfirmed (m_year d) (m_month d)
                                 (m_day d) (m_hour d) (m_minute d)
                                 (m_second d) (m_mode d))])
        end
    else if flag =? META_FLAG_SHORT_RESPONSE then
      if negb (len b =? PACKET_SIZE_META_SHORT) then
        Ret (st, e0 ++ [Log WARNING
                          (MsgInvalidMetaShort PACKET_SIZE_META_SHORT (len b))])
      else Ret (st, e0 ++ [Log DEBUG (MsgMetaShort b)])
    else Ret (st, e0 ++ [Log WARNING (MsgUnknownMetaFlag flag b)])
  else if (uuid_lower =? lower UUID_SHORT)%string then
    Ret (st, e0 ++ [Log DEBUG (MsgShort b)])
  else Ret (st, e0).

(** ** MQTT connection callbacks *)

Definition mqtt_on_connect (cfg : Config) (reason_code : Z)
  : Config * list effect :=
  if reason_code =? 0 then
    (set_mqtt_failures cfg 0 (mqtt_fatal_error cfg), [Log INFO MsgMqttConnected])
  else
    let n := mqtt_connection_failed_count cfg + 1 in
    if n >=? mqtt_max_connection_attempts cfg then
      (set_mqtt_failures cfg n true,
       [Log ERROR (MsgMqttConnectFailed reason_code);
        Log ERROR (MsgMqttGiveUp (mqtt_max_connection_attempts cfg));
        MqttClientDisconnect])
    else
      (set_mqtt_failures cfg n (mqtt_fatal_error cfg),
       [Log ERROR (MsgMqttConnectFailed reason_code)]).

Definition mqtt_on_disconnect (cfg : Config) (reason_code : Z)
  : Config * list effect :=
  if negb (reason_code =? 0) then
    let n := mqtt_connection_failed_count cfg + 1 in
    if n >=? mqtt_max_connection_attempts cfg then
      (set_mqtt_failures cfg n true,
       [Log WARNING (MsgMqttDisconnected reason_code);
        Log ERROR (MsgMqttLost (mqtt_max_connection_attempts cfg));
        MqttClientDisconnect])
    else
      (set_mqtt_failures cfg n (mqtt_fatal_error cfg),
       [Log WARNING (MsgMqttDisconnected reason_code)])
  else (cfg, []).

(** ** Device initialization *)

(** Decimal digits of a non-negative integer, most significant first. *)
Fixpoint dec_digits (fuel : nat) (n : Z) : list Z :=
  match fuel with
  | O => []
  | S f => if n <? 10 then [n] else dec_digits f (n / 10) ++ [n mod 10]
  end.

Definition digit_char (d : Z) : ascii := ascii_of_nat (48 + Z.to_nat d).

(** [f"{n:06d}"] for [n >= 0]: decimal, zero-padded to width 6. *)
Definition format_06d (n : Z) : string :=
  let ds := dec_digits (S (Z.to_nat (Z.log2 n))) n in
  string_of_list_ascii
    (map digit_char (repeat 0 (6 - List.length ds) ++ ds)).

(** [rand_num] is the value of [random.randint(0, 999999)]. *)
Definition build_auth_key (rand_num : Z) : bytes * string :=
  let num_str := format_06d rand_num in
  let ascii_digits := list_byte_of_string num_str in
  let prefix := [x00; x01] in
  let tail := repeat x00 10 in
  (prefix ++ ascii_digits ++ tail, num_str).

(** [now] is the value of [datetime.now()]. *)
Definition build_time_sync (now : datetime) : bytes * datetime :=
  let year_offset := dt_year now - 2000 in
  let year_offset :=
    if negb ((0 <=? year_offset) && (year_offset <=? 255)) then 0
    else year_offset in
  let time_bytes :=
    [byte_of_Z (Z.land year_offset 255);
     byte_of_Z (Z.land (dt_month now) 255);
     byte_of_Z (Z.land (dt_day now) 255);
     byte_of_Z (Z.land (dt_hour now) 255);
     byte_of_Z (Z.land (dt_minute now) 255);
     byte_of_Z (Z.land (dt_second now) 255)] in
  let tail := [x00; x06; x40; x00; x1e] in
  (time_bytes ++ tail, now).

(** ** The program as a machine over its await points

    [monitor_device] and the coroutines it runs are sequential code that
    gives up control only at an [await]. The machine state holds the two
    globals and the await the program is suspended at; one step resumes the
    program with what the environment supplies (the callbacks that ran in the
    meantime, the outcome of the awaited call, the clock and random values
    read before the next await) and runs it to the next await. *)

Inductive async_event :=
| Notify (now : Q) (wall : datetime) (ch : Channel) (data : bytes)
| MqttOnConnect (reason_code : Z)
| MqttOnDisconnect (reason_code : Z).

Record input := mkInput {
  in_events : list async_event;  (* callbacks run while the await is pending *)
  in_result : option exn;        (* [None]: the awaited call returns *)
  in_connected : bool;           (* [client.is_connected] *)
  in_rand : Z;                   (* [random.randint(0, 999999)] *)
  in_wall : datetime;            (* [datetime.now()] *)
  in_time : Q;                   (* [time.time()], first reading *)
  in_time2 : Q                   (* [time.time()], second reading *)
}.

(** How the body of [async with BleakClient(...)] was left. *)
Inductive leaving :=
| Returned
| Raised (e : exn).

Inductive pc :=
| Connecting                       (* [BleakClient.__aenter__] *)
| Initializing (k : nat)           (* the k-th call of [initialize_device] *)
| Listening                        (* [asyncio.sleep(1)] *)
| Closing (how : leaving)          (* [BleakClient.__aexit__] *)
| RetrySleep (in_try : bool)       (* [asyncio.sleep(retry_delay)] *)
| Done (e : exn).                  (* [monitor_device] raised [e] *)

Record machine := mkMachine {
  m_cfg : Config;
  m_st : SensorState;
  m_pc : pc
}.

Definition retry_delay : Z := 5.

(** A callback runs to completion on the event loop; an exception escaping
    it is reported by the loop and does not reach the suspended task. *)
Definition run_event (cfg : Config) (st : SensorState) (ev : async_event)
  : Config * SensorState * list effect :=
  match ev with
  | Notify now wall ch data =>
      match notification_handler cfg now wall ch data st with
      | Ret (st', effs) => (cfg, st', effs)
      | Raise _ => (cfg, set_last_data_time st (Some now), [])
      end
  | MqttOnConnect rc =>
      let '(cfg', effs) := mqtt_on_connect cfg rc in (cfg', st, effs)
  | MqttOnDisconnect rc =>
      let '(cfg', effs) := mqtt_on_disconnect cfg rc in (cfg', st, effs)
  end.

Fixpoint run_events (cfg : Config) (st : SensorState) (evs : list async_event)
  : Config * SensorState * list effect :=
  match evs with
  | [] => (cfg, st, [])
  | ev :: rest =>
      let '(cfg1, st1, e1) := run_event cfg st ev in
      let '(cfg2, st2, e2) := run_events cfg1 st1 rest in
      (cfg2, st2, e1 ++ e2)
  end.

(** The calls of [initialize_device], in program order, each preceded by
    the log lines written since the previous call returned. *)
Definition init_call (k : nat) (i : input) : option (list effect) :=
  match k with
  | 0%nat => Some [Log INFO MsgInitStarting; Log DEBUG MsgEnabling;
                   StartNotify UUID_STATUS]
  | 1%nat => Some [Log DEBUG (MsgEnabled UUID_STATUS); StartNotify UUID_SHORT]
  | 2%nat => Some [Log DEBUG (MsgEnabled UUID_SHORT); StartNotify UUID_META]
  | 3%nat => Some [Log DEBUG (MsgEnabled UUID_META); StartNotify UUID_DATA]
  | 4%nat =>
      let '(auth_key, auth_code) := build_auth_key (in_rand i) in
      Some [Log DEBUG (MsgEnabled UUID_DATA);
            Log DEBUG (MsgSendingKey auth_code auth_key);
            WriteGattChar UUID_KEY auth_key true]
  | 5%nat => Some [Log DEBUG MsgKeyAccepted;
                   Log DEBUG (MsgSendingStart CMD_START);
                   WriteGattChar UUID_CMD CMD_START true]
  | 6%nat =>
      let '(time_sync, now) := build_time_sync (in_wall i) in
      Some [Log DEBUG MsgStartAccepted;
            Log INFO (MsgSyncTime now);
            Log DEBUG (MsgSendingSync time_sync);
            WriteGattChar UUID_KEY time_sync true]
  | _ => None
  end.

(** The [except] clauses of [monitor_device]. An exception raised by the
    sleep inside a handler ([in_try = false]) leaves the function. *)
Definition supervisor_except (cfg : Config) (st : SensorState) (e : exn)
    (in_try : bool) : machine * list effect :=
  if negb in_try then (mkMachine cfg st (Done e), []) else
  let retry (first : effect) :=
    (mkMachine cfg st (RetrySleep false),
     [first; Log INFO (MsgReconnect retry_delay); Sleep retry_delay]) in
  match e with
  | KeyboardInterrupt =>
      (mkMachine cfg st (Done e), [Log INFO MsgInterrupted])
  | CancelledError =>
      (mkMachine cfg st (Done e), [Log DEBUG MsgCancelled])
  | TimeoutError => retry (Log WARNING MsgConnectionTimeout)
  | BleakError _ => retry (Log WARNING (MsgConnectionLost e))
  | OSError | RuntimeError | ValueError => retry (Log ERROR (MsgUnexpected e))
  | _ => (mkMachine cfg st (Done e), [])
  end.

(** The [except] clauses of [monitor_device_connection]: each one logs and
    re-raises (the four [BleakError] branches differ in the text only). *)
Definition connection_except (cfg : Config) (st : SensorState) (e : exn)
  : machine * list effect :=
  let logged :=
    match e with
    | CancelledError => [Log DEBUG MsgCancelled]
    | KeyboardInterrupt => [Log DEBUG MsgKeyboardInterrupt]
    | TimeoutError => [Log ERROR MsgBleTimeout]
    | BleakError msg => [Log ERROR (MsgBleError msg)]
    | _ => []
    end in
  let '(m, effs) := supervisor_except cfg st e true in
  (m, logged ++ effs).

(** [monitor_device_connection] from its entry to the first await. *)
Definition start_connection (cfg : Config) (st : SensorState)
  : machine * list effect :=
  if mqtt_fatal_error cfg then
    let '(m, effs) := supervisor_except cfg st (SystemExit 1) true in
    (m, Log ERROR MsgMqttAbort :: effs)
  else
    (mkMachine cfg st Connecting,
     [Log INFO (MsgConnecting (device_address cfg));
      Connect (device_address cfg)]).

(** [monitor_device_connection] returned: [monitor_device] announces the
    reconnection and sleeps. *)
Definition connection_returned (cfg : Config) (st : SensorState)
  : machine * list effect :=
  (mkMachine cfg st (RetrySleep true),
   [Log INFO (MsgReconnect retry_delay); Sleep retry_delay]).

(** One pass through the head of the [while True] loop of
    [monitor_device_connection]; [t] is the value of [time.time()]. *)
Definition listen_loop (cfg : Config) (st : SensorState) (t : Q)
  : machine * list effect :=
  if mqtt_fatal_error cfg then
    (mkMachine cfg st (Closing Returned), [Log ERROR MsgMqttStop; Disconnect])
  else
    let sleep := (mkMachine cfg st Listening, [Sleep 1]) in
    match last_data_time st with
    | Some last =>
        let time_since_last_data := (t - last)%Q in
        if negb (Qle_bool time_since_last_data
                   (inject_Z (response_timeout cfg))) then
          (mkMachine cfg st (Closing Returned),
           [Log WARNING (MsgNoResponse time_since_last_data
                           (response_timeout cfg));
            Disconnect])
        else sleep
    | None => sleep
    end.

(** The program resumed at the await [p], up to its next await. *)
Definition resume (p : pc) (cfg : Config) (st : SensorState) (i : input)
  : machine * list effect :=
  match p, in_result i with
  | Connecting, Some e => connection_except cfg st e
  | Connecting, None =>
      if negb (in_connected i) then
        (mkMachine cfg st (Closing Returned),
         [Log ERROR MsgConnectFailed; Disconnect])
      else
        (mkMachine cfg st (Initializing 0),
         [Log INFO MsgConnected; Log DEBUG (MsgDiscovery true);
          Log DEBUG (MsgDiscovery false)]
         ++ match init_call 0 i with Some c => c | None => [] end)
  | Initializing k, Some e =>
      (mkMachine cfg st (Closing (Raised e)), [Disconnect])
  | Initializing k, None =>
      match init_call (S k) i with
      | Some c => (mkMachine cfg st (Initializing (S k)), c)
      | None =>
          let st1 := set_last_data_time st (Some (in_time i)) in
          let '(m1, e2) := listen_loop cfg st1 (in_time2 i) in
          (m1,
           [Log DEBUG MsgSyncAccepted; Log INFO MsgInitCompleted]
           ++ (if mqtt_auto_discovery cfg then
                 if mqtt_client cfg
                 then [HaDiscovery (device_address cfg)] else []
               else [])
           ++ [Log INFO (MsgListening (response_timeout cfg))]
           ++ e2)
      end
  | Listening, Some e =>
      (mkMachine cfg st (Closing (Raised e)), [Disconnect])
  | Listening, None => listen_loop cfg st (in_time i)
  | Closing _, Some e => connection_except cfg st e
  | Closing Returned, None => connection_returned cfg st
  | Closing (Raised e), None => connection_except cfg st e
  | RetrySleep in_try, Some e => supervisor_except cfg st e in_try
  | RetrySleep _, None => start_connection cfg st
  | Done _, _ => (mkMachine cfg st p, [])
  end.

(** One step: the callbacks that ran while the program was suspended, then
    the program itself. A program that has ended takes no step. *)
Definition step (m : machine) (i : input) : machine * list effect :=
  match m_pc m with
  | Done _ => (m, [])
  | p =>
      let '(cfg, st, e0) := run_events (m_cfg m) (m_st m) (in_events i) in
      let '(m', e1) := resume p cfg st i in
      (m', e0 ++ e1)
  end.

Fixpoint run (m : machine) (ins : list input) : machine * list effect :=
  match ins with
  | [] => (m, [])
  | i :: rest =>
      let '(m1, e1) := step m i in
      let '(m2, e2) := run m1 rest in
      (m2, e1 ++ e2)
  end.

(** [monitor_device()] called with the globals [cfg] and [st]. *)
Definition monitor_device (cfg : Config) (st : SensorState)
  : machine * list effect :=
  start_connection cfg st.

(** ** Reference definitions, following the wording of the specification *)

(** The little-endian unsigned 16-bit value at offsets [off], [off + 1]. *)
Definition little_endian_u16 (buf : bytes) (off : nat) : Z :=
  Z_of_byte (nth off buf x00) + 256 * Z_of_byte (nth (off + 1) buf x00).

(** [msb*256 + (lsb*6250*3.53)/1000.0], every operation in binary64,
    the division last. *)
Definition particle_formula (msb lsb : Z) : float :=
  (float_of_int msb * 256
   + (float_of_int lsb * 6250 * 3.53) / 1000.0)%float.

(** A DATA frame as sent by the device: 2025-06-15 10:30:45, pm2.5 = 0x0105,
    pm1 = 3, pm10 = 7, record counter 9, liveness flag [fl]. *)
Definition sample_data (fl : byte) : bytes :=
  [x19; x06; x0f; x0a; x1e; x2d; x05; x01; x03; x00; x07; x00;
   x00; x00; x00; x00; x00; x00; x09; fl].

(** Channel objects as the transport passes them for the four
    characteristics, and one for a characteristic the program does not know. *)
Definition ch_data : Channel := mkChannel 54 UUID_DATA.
Definition ch_status : Channel := mkChannel 46 UUID_STATUS.
Definition ch_meta : Channel := mkChannel 65 UUID_META.
Definition ch_short : Channel := mkChannel 61 UUID_SHORT.
Definition ch_other : Channel :=
  mkChannel 3 "00002A00-0000-1000-8000-00805F9B34FB".

Definition wall0 : datetime := mkDatetime 2025 6 15 10 30 45.

(** ** Vocabulary for effects and events *)

Definition is_log (e : effect) : bool :=
  match e with
  | Log _ _ => true
  | _ => false
  end.

Definition is_warning (e : effect) : bool :=
  match e with
  | Log WARNING _ => true
  | _ => false
  end.

(** A frame the handler's channel cannot decode. On DATA and STATUS the
    channel's decoder yields no record. On META the frame is empty, or its
    flag byte names the time confirmation and [decode_meta_time_mode] yields
    no record, or it names the short response and the length is not that of
    a short response, or it names no known packet. SHORT frames and frames
    of unknown channels are not decoded at all. *)
Definition decode_failure (ch : Channel) (data : bytes) : bool :=
  let uuid_lower := lower (uuid ch) in
  if (uuid_lower =? lower UUID_DATA)%string then
    match decode_data_frame data with
    | Ret (Some _) => false
    | _ => true
    end
  else if (uuid_lower =? lower UUID_STATUS)%string then
    match decode_status_battery data with
    | Ret (Some _) => false
    | _ => true
    end
  else if (uuid_lower =? lower UUID_META)%string then
    match data with
    | [] => true
    | b :: _ =>
        if Z_of_byte b =? META_FLAG_TIME_CONFIRMATION then
          match decode_meta_time_mode data with
          | Ret (Some _) => false
          | _ => true
          end
        else if Z_of_byte b =? META_FLAG_SHORT_RESPONSE then
          negb (len data =? PACKET_SIZE_META_SHORT)
        else true
    end
  else false.




(** JSON output, no MQTT. *)
Definition cfg_json : Config :=
  mkConfig "20:C3:8F:DA:96:DE" json false false "homeassistant/sensor/vson"
           false false 0 5 false 300.

(** A reading leaves the program as a JSON line or an MQTT state message. *)
Definition is_reading (e : effect) : bool :=
  match e with
  | Print _ | MqttPublish _ _ => true
  | _ => false
  end.




(** ** A run with a reconnection

    [session1]: the connection is made, the handshake goes through, a STATUS
    frame [42] arrives, then nothing for 399 s: the timeout closes the
    session and, after the retry delay, a new connection is started.
    [session2]: the second connection and handshake, then a current DATA
    frame, with no STATUS frame since the reconnection. *)

Definition resumed (evs : list async_event) (t : Q) : input :=
  mkInput evs None true 123456 wall0 t t.




(** The reading printed for [sample_data] while the stored battery is 42. *)
Definition reading42 : JsonData :=
  mkJsonData (Some (mkHeader 25 2025 6 15 10 30 45)) 3 261 7
             (round2 366.3125%float) 42.

(** ** Vocabulary for the handshake *)

(** Calls on the BLE transport. *)
Definition is_transport (e : effect) : bool :=
  match e with
  | Connect _ | StartNotify _ | WriteGattChar _ _ _ | Disconnect => true
  | _ => false
  end.

(** Subscriptions and writes, the calls the handshake consists of. *)
Definition is_handshake_op (e : effect) : bool :=
  match e with
  | StartNotify _ | WriteGattChar _ _ _ => true
  | _ => false
  end.

(** What [datetime.now()] can return. *)
Definition valid_datetime (d : datetime) : Prop :=
  1 <= dt_year d <= 9999 /\ 1 <= dt_month d <= 12 /\ 1 <= dt_day d <= 31 /\
  0 <= dt_hour d <= 23 /\ 0 <= dt_minute d <= 59 /\ 0 <= dt_second d <= 59.

(** Years since 2000, with 0 substituted outside [0, 255]. *)
Definition years_since_2000 (d : datetime) : Z :=
  let y := dt_year d - 2000 in
  if (0 <=? y) && (y <=? 255) then y else 0.

(** The ASCII code of the decimal digit [d]. *)
Definition ascii_digit (d : Z) : byte := byte_of_Z (48 + d).

(** ** A run in which the MQTT broker is lost while listening

    The program runs with MQTT enabled and a client set up. The session
    reaches the listening loop; during the next one-second sleep the client
    reports its fifth failed reconnection, then the disconnect and the
    supervisor's sleep return. *)

Definition cfg_mqtt : Config :=
  mkConfig "20:C3:8F:DA:96:DE" text false true "homeassistant/sensor/vson"
           false true 0 5 false 300.

Definition to_listening : list input := repeat (resumed [] 0) 8.

Definition broker_lost : list input :=
  [resumed (repeat (MqttOnDisconnect 7) 5) 1;
   resumed [] 1;
   resumed [] 6].

(** Sleeps and calls on the transport: what the supervisor does, without
    the log. *)
Definition is_action (e : effect) : bool :=
  match e with
  | Sleep _ => true
  | _ => is_transport e
  end.


(** ** Further vocabulary *)

(** The time of the last notification among [evs], or [t] if there is none. *)
Definition last_notify_time (evs : list async_event) (t : option Q)
  : option Q :=
  fold_left
    (fun acc ev =>
       match ev with
       | Notify now _ _ _ => Some now
       | _ => acc
       end)
    evs t.

(** A callback that reports a failed or lost broker connection. *)
Definition is_mqtt_failure (ev : async_event) : bool :=
  match ev with
  | MqttOnConnect rc | MqttOnDisconnect rc => negb (rc =? 0)
  | Notify _ _ _ _ => false
  end.

Definition is_connect (e : effect) : bool :=
  match e with
  | Connect _ => true
  | _ => false
  end.

Definition is_disconnect (e : effect) : bool :=
  match e with
  | Disconnect => true
  | _ => false
  end.

Definition is_sleep (e : effect) : bool :=
  match e with
  | Sleep _ => true
  | _ => false
  end.

(** The exception classes [monitor_device] answers with a new attempt. *)
Definition retryable (e : exn) : bool :=
  match e with
  | TimeoutError | BleakError _ | OSError | RuntimeError | ValueError => true
  | _ => false
  end.

(** The program is inside [async with BleakClient(...)], past the connect. *)
Definition in_session (p : pc) : bool :=
  match p with
  | Initializing _ | Listening => true
  | _ => false
  end.

(** The record [decode_data_frame] returns for [sample_data x01]. *)
Definition sample_frame : DataFrame :=
  mkDataFrame (Some (mkHeader 25 2025 6 15 10 30 45)) 261 3 7 0
              [x00; x00; x00; x00] 9 1 current 366.3125%float 1 5.

(** The expression of [decode_data_frame] for [particles], as a function of
    the two bytes of pm2.5. *)
Definition particle_count (msb lsb : Z) : float :=
  (float_of_int (msb * PARTICLE_MULTIPLIER_BASE)
   + (float_of_int (lsb * PARTICLE_MULTIPLIER_LSB)
      * PARTICLE_MULTIPLIER_CORRECTION)
     / PARTICLE_DIVISOR)%float.

(** The values a byte can take. *)
Definition byte_values : list Z := map Z.of_nat (seq 0 256).

(** The record a buffer decodes to ([sample_frame] if it does not decode). *)
Definition decoded (payload : bytes) : DataFrame :=
  match decode_data_frame payload with
  | Ret (Some d) => d
  | _ => sample_frame
  end.

(** [sample_data x01] with the two bytes of pm2.5 replaced. *)
Definition data_with_pm25 (lo hi : byte) : bytes :=
  [x19; x06; x0f; x0a; x1e; x2d; lo; hi; x03; x00; x07; x00;
   x00; x00; x00; x00; x00; x00; x09; x01].

Definition is_print (e : effect) : bool :=
  match e with
  | Print _ => true
  | _ => false
  end.

Definition is_publish (e : effect) : bool :=
  match e with
  | MqttPublish _ _ => true
  | _ => false
  end.

(** The DATA characteristic as a transport that reports UUIDs in upper case
    would pass it. *)
Definition ch_data_upper : Channel :=
  mkChannel 7 "0000FFE1-0000-1000-8000-00805F9B34FB".

(** Number of failure callbacks among [evs]. *)
Definition failures (evs : list async_event) : Z :=
  Z.of_nat (List.length (filter is_mqtt_failure evs)).

(** The callback [mqtt_on_connect] with reason code 0. *)
Definition is_mqtt_success (ev : async_event) : bool :=
  match ev with
  | MqttOnConnect rc => rc =? 0
  | _ => false
  end.

(** What a callback can leave behind: log entries, readings, and the MQTT
    client's own disconnect. *)
Definition is_callback_effect (e : effect) : bool :=
  match e with
  | Log _ _ | Print _ | MqttPublish _ _ | MqttClientDisconnect => true
  | _ => false
  end.

(** A program that has just learnt that the broker connection is fatal,
    and what the environment does next: every awaited call returns. *)
Definition fatal_machine : machine :=
  mkMachine (set_mqtt_failures cfg_mqtt 5 true) sensor_state0 Listening.

Definition calls_return : list input :=
  [resumed [] 1; resumed [] 1; resumed [MqttOnConnect 0] 6; resumed [] 7].

(** An awaited call that raises [e]. *)
Definition raises (e : exn) : input :=
  mkInput [] (Some e) true 123456 wall0 5 5.

(** An upper bound on the awaits left before the program ends, once the
    broker connection is fatal and every awaited call returns. *)
Definition remaining (p : pc) : nat :=
  match p with
  | Connecting => 10
  | Initializing k => 3 + (6 - k)
  | Listening => 3
  | Closing _ => 2
  | RetrySleep _ => 1
  | Done _ => 0
  end.

(** ** Hex dump *)

(** One lower-case hexadecimal digit, for [0 <= n < 16]. *)
Definition hex_digit (n : Z) : ascii :=
  ascii_of_nat (Z.to_nat (if n <? 10 then 48 + n else 87 + n)).

(** The value of a hexadecimal digit character. *)
Definition hex_value (c : ascii) : Z :=
  let k := Z.of_nat (nat_of_ascii c) in
  if k <? 58 then k - 48 else k - 87.

(** [f"{x:02x}"] for a byte value. *)
Definition format_02x (x : Z) : string :=
  String (hex_digit (x / 16)) (String (hex_digit (x mod 16)) EmptyString).

(** [sep.join(l)]. *)
Fixpoint join (sep : string) (l : list string) : string :=
  match l with
  | [] => EmptyString
  | [s] => s
  | s :: rest => (s ++ sep ++ join sep rest)%string
  end.

Definition hex_str (b : bytes) : string :=
  join " " (map (fun x => format_02x (Z_of_byte x)) b).

(** ** Home Assistant discovery

    [publish_home_assistant_discovery] publishes one retained configuration
    message per sensor; the function below returns these messages (topic,
    payload, retain flag) in order. Its log entries are left out. *)

Record DeviceInfo := mkDeviceInfo {
  d_identifiers : list string;
  d_name : string;
  d_manufacturer : string;
  d_model : string
}.

Record Sensor := mkSensor {
  s_name : string;
  s_key : string;
  s_unit : string;
  s_icon : string;
  s_device_class : option string;
  s_state_class : option string
}.

Record DiscoveryConfig := mkDiscoveryConfig {
  c_name : string;
  c_unique_id : string;
  c_state_topic : string;
  c_value_template : string;
  c_unit_of_measurement : string;
  c_icon : string;
  c_device : DeviceInfo;
  c_device_class : option string;
  c_state_class : option string
}.

Definition sensors : list Sensor :=
  [mkSensor "PM2.5" "pm25" "µg/m³" "mdi:air-filter"
            (Some "pm25") (Some "measurement");
   mkSensor "PM1" "pm1" "µg/m³" "mdi:air-filter"
            (Some "pm1") (Some "measurement");
   mkSensor "PM10" "pm10" "µg/m³" "mdi:air-filter"
            (Some "pm10") (Some "measurement");
   mkSensor "Particles" "particles" "particles" "mdi:molecule"
            None (Some "measurement");
   mkSensor "Battery" "battery" "%" "mdi:battery"
            (Some "battery") (Some "measurement")]%string.

(** [s[-n:]]. *)
Definition last_chars (n : nat) (s : string) : string :=
  substring (String.length s - n) n s.

Definition publish_home_assistant_discovery (cfg : Config)
    (device_mac : string) : list (string * DiscoveryConfig * bool) :=
  if negb (mqtt_client cfg) || negb (mqtt_auto_discovery cfg) then [] else
  let device_id := lower (remove_colons device_mac) in
  let device_info :=
    mkDeviceInfo [("vson_" ++ device_id)%string]
                 ("VSON Air Quality " ++ last_chars 6 device_id)%string
                 "VSON" "WP6810" in
  map (fun sensor =>
         let entity_id :=
           ("vson_" ++ device_id ++ "_" ++ s_key sensor)%string in
         let discovery_topic :=
           ("homeassistant/sensor/" ++ entity_id ++ "/config")%string in
         let config_payload :=
           mkDiscoveryConfig
             (s_name sensor) entity_id
             (mqtt_topic cfg ++ "/" ++ device_id ++ "/state")%string
             ("{{ value_json." ++ s_key sensor ++ " }}")%string
             (s_unit sensor) (s_icon sensor) device_info
             (s_device_class sensor) (s_state_class sensor) in
         (discovery_topic, config_payload, true))
      sensors.

(** The keys of the state payload built by [publish_mqtt]. *)
Definition state_payload_keys : list string :=
  ["timestamp"; "pm25"; "pm1"; "pm10"; "particles"; "battery"; "flag"]%string.

(** ** Command-line validation and configuration

    Of [parse_arguments] the checks made after [parser.parse_args()], over
    the options the program's core reads. [parser.error] ends the process
    with status 2. *)

Record Args := mkArgs {
  a_device : string;
  a_output : OutputFormat;
  a_include_history : bool;
  a_mqtt : bool;
  a_mqtt_topic : option string;
  a_mqtt_auto_home_assistant : bool;
  a_timeout : Z
}.

(** The character classes of [mac_pattern]. *)
Definition is_hex_char (c : ascii) : bool :=
  let n := nat_of_ascii c in
  (Nat.leb 48 n && Nat.leb n 57) || (Nat.leb 65 n && Nat.leb n 70)
  || (Nat.leb 97 n && Nat.leb n 102).

Definition is_mac_separator (c : ascii) : bool :=
  Ascii.eqb c ":" || Ascii.eqb c "-".

(** [([0-9A-Fa-f]{2}[:-]){n}] at the head of [l]: what is left of [l]. *)
Fixpoint match_groups (n : nat) (l : list ascii) : option (list ascii) :=
  match n with
  | O => Some l
  | S n' =>
      match l with
      | a :: b :: c :: rest =>
          if is_hex_char a && is_hex_char b && is_mac_separator c
          then match_groups n' rest else None
      | _ => None
      end
  end.

(** [mac_pattern.match(s)] for
    [^([0-9A-Fa-f]{2}[:-]){5}[0-9A-Fa-f]{2}$]; [$] matches at the end of
    the string and also just before a final newline. *)
Definition mac_pattern_match (s : string) : bool :=
  match match_groups 5 (list_ascii_of_string s) with
  | Some [a; b] => is_hex_char a && is_hex_char b
  | Some [a; b; nl] =>
      is_hex_char a && is_hex_char b && Ascii.eqb nl "010"
  | _ => false
  end.

Definition parse_arguments (args : Args) : py Args :=
  if a_mqtt_auto_home_assistant args && negb (a_mqtt args)
  then Raise (SystemExit 2)
  else if a_timeout args <? 1 then Raise (SystemExit 2)
  else if negb (mac_pattern_match (a_device args)) then Raise (SystemExit 2)
  else Ret args.

(** The same command line with another [--device] value. *)
Definition set_device (args : Args) (device : string) : Args :=
  mkArgs device (a_output args) (a_include_history args) (a_mqtt args)
         (a_mqtt_topic args) (a_mqtt_auto_home_assistant args)
         (a_timeout args).

(** A line feed, as the shell passes it inside a quoted argument. *)
Definition newline : string := String "010" EmptyString.

(** A MAC address written with colons, and one with a dash. *)
Definition args_colons : Args :=
  mkArgs "20:C3:8F:DA:96:DE" json false true None true 300.

Definition args_dashed : Args :=
  mkArgs "20:C3:8F-DA:96:DE" json false true None true 300.

(** A lower-case hexadecimal digit. *)
Definition is_lower_hex (c : ascii) : bool :=
  let n := nat_of_ascii c in
  (Nat.leb 48 n && Nat.leb n 57) || (Nat.leb 97 n && Nat.leb n 102).

Fixpoint string_forallb (f : ascii -> bool) (s : string) : bool :=
  match s with
  | EmptyString => true
  | String c r => f c && string_forallb f r
  end.

Fixpoint string_existsb (f : ascii -> bool) (s : string) : bool :=
  match s with
  | EmptyString => false
  | String c r => f c || string_existsb f r
  end.

(** * Properties *)

Arguments Z_of_byte : simpl never.
Arguments float_of_int : simpl never.

Lemma Z_of_byte_range (b : byte) : 0 <= Z_of_byte b < 256.
Proof. destruct b; vm_compute; split; congruence. Qed.

Lemma lor_shiftl_8 (lo hi : Z) :
  0 <= lo < 256 -> 0 <= hi -> Z.lor lo (Z.shiftl hi 8) = lo + 256 * hi.
Proof.
  intros Hlo Hhi.
  rewrite Z.shiftl_mul_pow2 by lia.
  rewrite <- Z.lxor_lor, <- Z.add_nocarry_lxor; try lia.
  all: apply Z.bits_inj'; intros n Hn; rewrite Z.land_spec, Z.bits_0.
  all: destruct (Z.ltb_spec n 8).
  all: try (rewrite (Z.mul_pow2_bits_low hi 8 n) by lia; apply andb_false_r).
  all: replace lo with (lo mod 2 ^ 8) by (apply Z.mod_small; lia).
  all: rewrite Z.mod_pow2_bits_high by lia; reflexivity.
Qed.

Lemma u16_bytes (lo hi : byte) :
  Z.lor (Z_of_byte lo) (Z.shiftl (Z_of_byte hi) 8)
  = Z_of_byte lo + 256 * Z_of_byte hi.
Proof.
  apply lor_shiftl_8; [apply Z_of_byte_range | apply Z_of_byte_range].
Qed.

Lemma u16_split (lo hi : Z) :
  0 <= lo < 256 -> 0 <= hi < 256 ->
  Z.shiftr (lo + 256 * hi) 8 = hi /\ Z.land (lo + 256 * hi) 255 = lo.
Proof.
  intros Hlo Hhi. split.
  - rewrite Z.shiftr_div_pow2 by lia. change (2 ^ 8) with 256.
    symmetry. apply (Z.div_unique _ 256 hi lo); lia.
  - change 255 with (Z.ones 8). rewrite Z.land_ones by lia.
    change (2 ^ 8) with 256.
    symmetry. apply (Z.mod_unique _ 256 hi lo); lia.
Qed.

Lemma land_255_byte (b : byte) : Z.land (Z_of_byte b) 255 = Z_of_byte b.
Proof. destruct b; reflexivity. Qed.

(** Shape of [decode_data_frame] on twenty bytes. *)
Lemma decode_data_frame_20
    (b0 b1 b2 b3 b4 b5 b6 b7 b8 b9 : byte)
    (b10 b11 b12 b13 b14 b15 b16 b17 b18 b19 : byte) :
  let pm25 := Z.lor (Z_of_byte b6) (Z.shiftl (Z_of_byte b7) 8) in
  let msb := Z.land (Z.shiftr pm25 8) 255 in
  let lsb := Z.land pm25 255 in
  decode_data_frame
    [b0; b1; b2; b3; b4; b5; b6; b7; b8; b9;
     b10; b11; b12; b13; b14; b15; b16; b17; b18; b19]
  = Ret (Some (mkDataFrame
      (Some (mkHeader (Z_of_byte b0) (2000 + Z_of_byte b0) (Z_of_byte b1)
               (Z_of_byte b2) (Z_of_byte b3) (Z_of_byte b4) (Z_of_byte b5)))
      pm25
      (Z.lor (Z_of_byte b8) (Z.shiftl (Z_of_byte b9) 8))
      (Z.lor (Z_of_byte b10) (Z.shiftl (Z_of_byte b11) 8))
      (Z.lor (Z_of_byte b12) (Z.shiftl (Z_of_byte b13) 8))
      [b14; b15; b16; b17]
      (Z_of_byte b18)
      (Z_of_byte b19)
      (if Z_of_byte b19 =? 1 then current else history)
      (float_of_int (msb * 256)
       + (float_of_int (lsb * 6250) * 3.53) / 1000.0)%float
      msb lsb)).
Proof. reflexivity. Qed.

Lemma decode_data_frame_wrong_length (payload : bytes) :
  List.length payload <> 20%nat -> decode_data_frame payload = Ret None.
Proof.
  intros H. unfold decode_data_frame, len, PACKET_SIZE_DATA.
  destruct (Z.eqb_spec (Z.of_nat (List.length payload)) 20) as [E | E].
  - exfalso. apply H. lia.
  - reflexivity.
Qed.

Ltac explode_bytes payload H :=
  repeat (destruct payload as [ | ? payload ]; [ discriminate H | ]);
  destruct payload; [ | discriminate H ].

(** C3. The DATA decoder yields no reading for a buffer whose length is not
    20; for a 20-byte buffer it yields a reading whose pm2.5, pm1 and pm10
    are the little-endian 16-bit values at offsets 6, 8 and 10 and whose
    record counter is byte 18. *)
Theorem decode_data_frame_layout (payload : bytes) :
  (List.length payload <> 20%nat -> decode_data_frame payload = Ret None) /\
  (List.length payload = 20%nat ->
   exists d, decode_data_frame payload = Ret (Some d) /\
     pm25 d = little_endian_u16 payload 6 /\
     pm1 d = little_endian_u16 payload 8 /\
     pm10 d = little_endian_u16 payload 10 /\
     counter d = Z_of_byte (nth 18 payload x00)).
Proof.
  split; [ apply decode_data_frame_wrong_length | ].
  intros H. explode_bytes payload H.
  eexists. split; [ apply decode_data_frame_20 | ].
  unfold little_endian_u16. cbn [pm25 pm1 pm10 counter nth Nat.add].
  rewrite !u16_bytes. repeat split; reflexivity.
Qed.

Lemma decode_data_frame_layout_witness :
  decode_data_frame [x01; x02] = Ret None /\
  exists d, decode_data_frame (sample_data x01) = Ret (Some d) /\
    pm25 d = little_endian_u16 (sample_data x01) 6 /\
    pm1 d = little_endian_u16 (sample_data x01) 8 /\
    pm10 d = little_endian_u16 (sample_data x01) 10 /\
    counter d = Z_of_byte (nth 18 (sample_data x01) x00).
Proof.
  split.
  - apply (proj1 (decode_data_frame_layout [x01; x02])). simpl. lia.
  - apply (proj2 (decode_data_frame_layout (sample_data x01))). reflexivity.
Defined.

(** The integer products of the particle formula are exact in binary64. *)
Lemma float_msb_exact (b : byte) :
  float_of_int (Z_of_byte b * 256) = (float_of_int (Z_of_byte b) * 256)%float.
Proof. destruct b; vm_compute; reflexivity. Qed.

Lemma float_lsb_exact (b : byte) :
  float_of_int (Z_of_byte b * 6250)
  = (float_of_int (Z_of_byte b) * 6250)%float.
Proof. destruct b; vm_compute; reflexivity. Qed.

(** C4. For a 20-byte DATA buffer the decoded particle count is
    [msb*256 + (lsb*6250*3.53)/1000.0] in binary64 arithmetic, division
    last, with [msb = pm2.5 >> 8] and [lsb = pm2.5 & 0xFF]; it is a function
    of pm2.5 alone, and for pm2.5 = 0x0105 it is 366.3125. *)
Theorem particle_count_formula (payload : bytes) :
  List.length payload = 20%nat ->
  exists d, decode_data_frame payload = Ret (Some d) /\
    particles d
    = particle_formula (Z.shiftr (pm25 d) 8) (Z.land (pm25 d) 255) /\
    (pm25 d = 261 -> particles d = 366.3125%float) /\
    particle_formula (Z.shiftr 261 8) (Z.land 261 255) = 366.3125%float /\
    Z.shiftr 261 8 = 1 /\ Z.land 261 255 = 5.
Proof.
  intros H. explode_bytes payload H.
  eexists. split; [ apply decode_data_frame_20 | ].
  cbn [particles pm25]. rewrite u16_bytes.
  destruct (u16_split (Z_of_byte b5) (Z_of_byte b6)
              (Z_of_byte_range b5) (Z_of_byte_range b6)) as [Hm Hl].
  rewrite Hm, Hl, land_255_byte, float_msb_exact, float_lsb_exact.
  assert (Hf : particle_formula (Z.shiftr 261 8) (Z.land 261 255)
               = 366.3125%float) by (vm_compute; reflexivity).
  repeat split; try reflexivity; try exact Hf.
  intros E. rewrite <- Hf, <- E, Hm, Hl. reflexivity.
Qed.

Lemma particle_count_formula_witness :
  exists d, decode_data_frame (sample_data x01) = Ret (Some d) /\
    particles d
    = particle_formula (Z.shiftr (pm25 d) 8) (Z.land (pm25 d) 255) /\
    (pm25 d = 261 -> particles d = 366.3125%float) /\
    particle_formula (Z.shiftr 261 8) (Z.land 261 255) = 366.3125%float /\
    Z.shiftr 261 8 = 1 /\ Z.land 261 255 = 5.
Proof. apply (particle_count_formula (sample_data x01)). reflexivity. Defined.

(** ** The decoders return on every input *)

Lemma decode_data_frame_returns (payload : bytes) :
  exists r, decode_data_frame payload = Ret r.
Proof.
  destruct (Nat.eq_dec (List.length payload) 20) as [H | H].
  - explode_bytes payload H. eexists. apply decode_data_frame_20.
  - eexists. apply decode_data_frame_wrong_length. exact H.
Qed.

Lemma decode_status_battery_cons (b : byte) (rest : bytes) :
  decode_status_battery (b :: rest)
  = Ret (Some (mkStatusFrame (Z_of_byte b) (Z_of_byte b))).
Proof.
  unfold decode_status_battery, len. cbn [List.length].
  destruct (Z.ltb_spec (Z.of_nat (S (List.length rest))) 1); [ lia | ].
  reflexivity.
Qed.

Lemma len_cons_nonzero (b : byte) (rest : bytes) : (len (b :: rest) =? 0) = false.
Proof. unfold len. cbn [List.length]. apply Z.eqb_neq. lia. Qed.

Lemma len_eqb (buf : bytes) (n : nat) :
  (len buf =? Z.of_nat n) = Nat.eqb (List.length buf) n.
Proof.
  unfold len. destruct (Nat.eqb_spec (List.length buf) n) as [E | E].
  - apply Z.eqb_eq. lia.
  - apply Z.eqb_neq. lia.
Qed.

Lemma decode_meta_time_mode_returns (payload : bytes) :
  exists r, decode_meta_time_mode payload = Ret r.
Proof.
  destruct (Nat.eq_dec (List.length payload) 8) as [H | H].
  - explode_bytes payload H. eexists. reflexivity.
  - eexists. unfold decode_meta_time_mode, PACKET_SIZE_META.
    change 8 with (Z.of_nat 8). rewrite len_eqb.
    destruct (Nat.eqb_spec (List.length payload) 8); [ contradiction | ].
    reflexivity.
Qed.

(** The three string tests of the handler, in program order. *)
Ltac channel_cases ch :=
  destruct (lower (uuid ch) =? lower UUID_DATA)%string;
  [ | destruct (lower (uuid ch) =? lower UUID_STATUS)%string;
      [ | destruct (lower (uuid ch) =? lower UUID_META)%string;
          [ | destruct (lower (uuid ch) =? lower UUID_SHORT)%string ] ] ].

(** Every path of the handler returns, and what it leaves behind are log
    entries and readings only. *)
Lemma handler_returns
    (cfg : Config) (now : Q) (wall : datetime) (ch : Channel) (data : bytes)
    (st : SensorState) :
  exists st' effs,
    notification_handler cfg now wall ch data st = Ret (st', effs) /\
    forallb (fun e => is_log e || is_reading e) effs = true.
Proof.
  unfold notification_handler.
  channel_cases ch;
    [ destruct (decode_data_frame_returns data) as [[d | ] Hd];
      rewrite Hd; cbn [bind];
      [ destruct ((flag d =? 0) && negb (include_history cfg));
        [ | unfold output_json_data, output_text_data, publish_mqtt;
            destruct (output_format cfg), (mqtt_enabled cfg),
              (mqtt_client cfg) ] | ]
    | destruct data as [ | b rest ];
      [ | rewrite decode_status_battery_cons; cbn [bind] ]
    | destruct data as [ | b rest ];
      [ | rewrite len_cons_nonzero; cbn [getitem nth_error bind];
          destruct (Z_of_byte b =? META_FLAG_TIME_CONFIRMATION);
          [ destruct (negb (len (b :: rest) =? PACKET_SIZE_META_LONG));
            [ | destruct (decode_meta_time_mode_returns (b :: rest))
                  as [[d | ] Hd]; rewrite Hd; cbn [bind] ]
          | destruct (Z_of_byte b =? META_FLAG_SHORT_RESPONSE);
            [ destruct (negb (len (b :: rest) =? PACKET_SIZE_META_SHORT))
            | ] ] ]
    | | ];
    do 2 eexists; split; reflexivity.
Qed.

(** A META frame of another length than eight bytes is not decoded. *)
Lemma decode_meta_time_mode_wrong_length (payload : bytes) :
  negb (len payload =? PACKET_SIZE_META_LONG) = true ->
  decode_meta_time_mode payload = Ret None.
Proof.
  intros H. unfold decode_meta_time_mode.
  change PACKET_SIZE_META with PACKET_SIZE_META_LONG. rewrite H. reflexivity.
Qed.

(** Which frames fail to decode, in terms of the bytes received: a DATA
    frame of another length than twenty bytes, an empty STATUS frame, and a
    META frame that is neither an eight-byte time confirmation nor a
    two-byte short response. *)
Lemma decode_failure_frames (ch : Channel) (data : bytes) :
  (lower (uuid ch) = lower UUID_DATA ->
   decode_failure ch data = negb (Nat.eqb (List.length data) 20)) /\
  (lower (uuid ch) = lower UUID_STATUS ->
   decode_failure ch data = Nat.eqb (List.length data) 0) /\
  (lower (uuid ch) = lower UUID_META ->
   decode_failure ch data
   = match data with
     | [] => true
     | b :: _ =>
         negb ((Z_of_byte b =? 1) && Nat.eqb (List.length data) 8
               || (Z_of_byte b =? 2) && Nat.eqb (List.length data) 2)
     end).
Proof.
  unfold decode_failure. cbv zeta.
  split; [ | split ]; intros E; rewrite E.
  - change (lower UUID_DATA =? lower UUID_DATA)%string with true.
    cbv iota.
    destruct (Nat.eqb_spec (List.length data) 20) as [H | H].
    + explode_bytes data H. rewrite decode_data_frame_20. reflexivity.
    + rewrite (decode_data_frame_wrong_length _ H). reflexivity.
  - change (lower UUID_STATUS =? lower UUID_DATA)%string with false.
    change (lower UUID_STATUS =? lower UUID_STATUS)%string with true.
    cbv iota.
    destruct data as [ | b rest ]; [ reflexivity | ].
    rewrite decode_status_battery_cons. reflexivity.
  - change (lower UUID_META =? lower UUID_DATA)%string with false.
    change (lower UUID_META =? lower UUID_STATUS)%string with false.
    change (lower UUID_META =? lower UUID_META)%string with true.
    cbv iota.
    destruct data as [ | b rest ]; [ reflexivity | ].
    unfold META_FLAG_TIME_CONFIRMATION, META_FLAG_SHORT_RESPONSE,
      PACKET_SIZE_META_SHORT.
    destruct (Z.eqb_spec (Z_of_byte b) 1) as [F1 | F1].
    + rewrite F1. cbn [andb orb Z.eqb Pos.eqb].
      destruct (Nat.eqb_spec (List.length (b :: rest)) 8) as [H | H].
      * explode_bytes rest H. reflexivity.
      * rewrite decode_meta_time_mode_wrong_length; [ reflexivity | ].
        unfold PACKET_SIZE_META_LONG. change 8 with (Z.of_nat 8).
        rewrite len_eqb.
        destruct (Nat.eqb_spec (List.length (b :: rest)) 8);
          [ contradiction | reflexivity ].
    + cbn [andb orb]. change 2 with (Z.of_nat 2) at 2. rewrite len_eqb.
      destruct (Z_of_byte b =? 2); reflexivity.
Qed.

(** One conjunct of the handler's contract, on one path of the handler. *)
Ltac settle_path :=
  first [ reflexivity
        | let W := fresh "W" in intros W; cbn in W; discriminate W
        | intros _; cbn; reflexivity
        | intros _; split; reflexivity
        | intros _; split; [ reflexivity | eexists; reflexivity ] ].

Ltac handler_contract :=
  do 2 eexists; repeat (split; [ settle_path | ]); settle_path.

(** C8. On every frame, whatever the channel (known or not) and the bytes,
    the handler returns without raising, having set the liveness clock to
    the arrival time on every path before it dispatches. A frame that fails
    to decode on its channel is only logged: the handler then leaves exactly
    the DEBUG entry of the notification followed by one WARNING entry, so it
    prints and publishes nothing, and it changes no state but the clock.
    Conversely a WARNING entry appears only for such a frame, and it comes
    with log entries only and an unchanged battery value. *)
Theorem notification_handler_returns
    (cfg : Config) (now : Q) (wall : datetime) (ch : Channel) (data : bytes)
    (st : SensorState) :
  exists st' effs,
    notification_handler cfg now wall ch data st = Ret (st', effs) /\
    last_data_time st' = Some now /\
    notification_handler cfg now wall ch data
      (set_last_data_time st (Some now)) = Ret (st', effs) /\
    (existsb is_warning effs = true ->
     forallb is_log effs = true /\ latest_battery st' = latest_battery st) /\
    (decode_failure ch data = true ->
     st' = set_last_data_time st (Some now) /\
     exists w,
       effs = [Log DEBUG (MsgNotification (handle ch) (uuid ch) data);
               Log WARNING w]) /\
    (decode_failure ch data = false -> existsb is_warning effs = false).
Proof.
  unfold notification_handler, decode_failure.
  change (set_last_data_time (set_last_data_time st (Some now)) (Some now))
    with (set_last_data_time st (Some now)).
  set (st1 := set_last_data_time st (Some now)).
  channel_cases ch.
  - destruct (decode_data_frame_returns data) as [[d | ] Hd];
      rewrite Hd; cbn [bind].
    + destruct ((flag d =? 0) && negb (include_history cfg));
        [ | unfold output_json_data, output_text_data, publish_mqtt;
            destruct (output_format cfg), (mqtt_enabled cfg),
              (mqtt_client cfg) ];
        handler_contract.
    + handler_contract.
  - destruct data as [ | b rest ].
    + handler_contract.
    + rewrite decode_status_battery_cons. cbn [bind]. handler_contract.
  - destruct data as [ | b rest ].
    + handler_contract.
    + rewrite len_cons_nonzero. cbn [getitem nth_error bind].
      destruct (Z_of_byte b =? META_FLAG_TIME_CONFIRMATION).
      * destruct (negb (len (b :: rest) =? PACKET_SIZE_META_LONG)) eqn:L.
        -- rewrite (decode_meta_time_mode_wrong_length _ L).
           handler_contract.
        -- destruct (decode_meta_time_mode_returns (b :: rest))
             as [[d | ] Hd]; rewrite Hd; cbn [bind]; handler_contract.
      * destruct (Z_of_byte b =? META_FLAG_SHORT_RESPONSE).
        -- destruct (negb (len (b :: rest) =? PACKET_SIZE_META_SHORT));
             handler_contract.
        -- handler_contract.
  - handler_contract.
  - handler_contract.
Qed.

Lemma notification_handler_returns_witness :
  (decode_failure ch_data [x01; x02] = true /\
   exists w,
     notification_handler cfg_mqtt 100 wall0 ch_data [x01; x02]
       (mkSensorState 42 None)
     = Ret (mkSensorState 42 (Some 100%Q),
            [Log DEBUG (MsgNotification (handle ch_data) (uuid ch_data)
                          [x01; x02]);
             Log WARNING w])) /\
  (decode_failure ch_status [] = true /\
   exists w,
     notification_handler cfg_mqtt 100 wall0 ch_status []
       (mkSensorState 42 None)
     = Ret (mkSensorState 42 (Some 100%Q),
            [Log DEBUG (MsgNotification (handle ch_status) (uuid ch_status)
                          []);
             Log WARNING w])).
Proof.
  split.
  - split; [ reflexivity | ].
    destruct (notification_handler_returns cfg_mqtt 100%Q wall0 ch_data
                [x01; x02] (mkSensorState 42 None))
      as [st' [effs [R [_ [_ [_ [F _]]]]]]].
    destruct (F eq_refl) as [S [w E]].
    exists w. rewrite R, S, E. reflexivity.
  - split; [ reflexivity | ].
    destruct (notification_handler_returns cfg_mqtt 100%Q wall0 ch_status
                [] (mkSensorState 42 None))
      as [st' [effs [R [_ [_ [_ [F _]]]]]]].
    destruct (F eq_refl) as [S [w E]].
    exists w. rewrite R, S, E. reflexivity.
Defined.

(** ** DATA frames: historical filtering *)

Lemma channel_data_tests (ch : Channel) :
  lower (uuid ch) = lower UUID_DATA ->
  (lower (uuid ch) =? lower UUID_DATA)%string = true.
Proof. intros H. rewrite H. apply String.eqb_refl. Qed.

(** What the handler does with a decoded DATA frame: the record is skipped
    exactly when its flag byte is 0 and history is not requested. *)
Lemma handler_data_decoded
    (cfg : Config) (now : Q) (wall : datetime) (ch : Channel) (data : bytes)
    (st : SensorState) (d : DataFrame) :
  lower (uuid ch) = lower UUID_DATA ->
  decode_data_frame data = Ret (Some d) ->
  notification_handler cfg now wall ch data st
  = let st1 := set_last_data_time st (Some now) in
    let e0 := [Log DEBUG (MsgNotification (handle ch) (uuid ch) data)] in
    if (flag d =? 0) && negb (include_history cfg) then
      Ret (st1, e0 ++ [Log DEBUG (MsgSkipHistorical (counter d))])
    else
      Ret (st1,
           e0 ++ match output_format cfg with
                 | json => output_json_data st1 d
                 | text => output_text_data d
                 end
              ++ (if mqtt_enabled cfg then
                    publish_mqtt cfg
                      (mkMqttData wall (pm1 d) (pm25 d) (pm10 d)
                         (round2 (particles d)) (latest_battery st1)
                         (flag_meaning d))
                      (device_address cfg)
                  else [])).
Proof.
  intros Hch Hd. unfold notification_handler.
  rewrite (channel_data_tests ch Hch), Hd. reflexivity.
Qed.

(** C1. A DATA frame whose flag byte is 2 decodes to a record marked
    [history], yet with historical inclusion disabled the handler emits it:
    only flag byte 0 is skipped. *)
Theorem historical_flag_two_is_emitted :
  include_history config0 = false /\
  (exists d, decode_data_frame (sample_data x02) = Ret (Some d) /\
             flag d = 2 /\ flag_meaning d = history) /\
  notification_handler config0 100 wall0 ch_data (sample_data x02)
    sensor_state0
  = Ret (mkSensorState 0 (Some 100%Q),
         [Log DEBUG (MsgNotification 54 UUID_DATA (sample_data x02));
          Log INFO (MsgData 3 261 7 366.3125%float history)]) /\
  notification_handler config0 100 wall0 ch_data (sample_data x00)
    sensor_state0
  = Ret (mkSensorState 0 (Some 100%Q),
         [Log DEBUG (MsgNotification 54 UUID_DATA (sample_data x00));
          Log DEBUG (MsgSkipHistorical 9)]).
Proof.
  split; [ reflexivity | ].
  split; [ eexists; split; [ vm_compute; reflexivity | split; reflexivity ] | ].
  split; vm_compute; reflexivity.
Qed.

(** ** META frames *)

Lemma channel_meta_tests (ch : Channel) :
  lower (uuid ch) = lower UUID_META ->
  (lower (uuid ch) =? lower UUID_DATA)%string = false /\
  (lower (uuid ch) =? lower UUID_STATUS)%string = false /\
  (lower (uuid ch) =? lower UUID_META)%string = true.
Proof. intros H. rewrite H. repeat split; vm_compute; reflexivity. Qed.

Ltac on_meta ch H :=
  unfold notification_handler;
  destruct (channel_meta_tests ch H) as [-> [-> ->]].

(** C7. On the META channel: an 8-byte frame with flag 0x01 is a device-time
    confirmation with year 2000 + byte 1, the next five bytes verbatim and
    the work mode from byte 7 (so [1,25,6,15,10,30,45,2] is 2025-06-15
    10:30:45, mode 2); a 2-byte frame with flag 0x02 is accepted, without
    warning and without payload; an empty frame, any other flag value, and
    flag 0x01 or 0x02 at another length are decode failures (a WARNING and
    nothing else). *)
Theorem meta_frame_decoding
    (cfg : Config) (now : Q) (wall : datetime) (ch : Channel)
    (st : SensorState) :
  lower (uuid ch) = lower UUID_META ->
  let st1 := set_last_data_time st (Some now) in
  let note b := Log DEBUG (MsgNotification (handle ch) (uuid ch) b) in
  let handler b := notification_handler cfg now wall ch b st in
  (forall b1 b2 b3 b4 b5 b6 b7 : byte,
     handler [x01; b1; b2; b3; b4; b5; b6; b7]
     = Ret (st1,
            [note [x01; b1; b2; b3; b4; b5; b6; b7];
             Log INFO (MsgTimeConfirmed (2000 + Z_of_byte b1) (Z_of_byte b2)
                         (Z_of_byte b3) (Z_of_byte b4) (Z_of_byte b5)
                         (Z_of_byte b6) (Z_of_byte b7))])) /\
  handler [x01; x19; x06; x0f; x0a; x1e; x2d; x02]
  = Ret (st1,
         [note [x01; x19; x06; x0f; x0a; x1e; x2d; x02];
          Log INFO (MsgTimeConfirmed 2025 6 15 10 30 45 2)]) /\
  (forall b1 : byte,
     handler [x02; b1]
     = Ret (st1, [note [x02; b1]; Log DEBUG (MsgMetaShort [x02; b1])])) /\
  handler [] = Ret (st1, [note []; Log WARNING MsgEmptyMeta]) /\
  (forall (b : byte) (rest : bytes),
     Z_of_byte b <> 1 -> Z_of_byte b <> 2 ->
     handler (b :: rest)
     = Ret (st1,
            [note (b :: rest);
             Log WARNING (MsgUnknownMetaFlag (Z_of_byte b) (b :: rest))])) /\
  (forall rest : bytes,
     List.length rest <> 7%nat ->
     handler (x01 :: rest)
     = Ret (st1,
            [note (x01 :: rest);
             Log WARNING (MsgInvalidMetaLong 8 (len (x01 :: rest)))])) /\
  (forall rest : bytes,
     List.length rest <> 1%nat ->
     handler (x02 :: rest)
     = Ret (st1,
            [note (x02 :: rest);
             Log WARNING (MsgInvalidMetaShort 2 (len (x02 :: rest)))])).
Proof.
  intros H st1 note handler. subst handler.
  repeat split.
  - intros. on_meta ch H. reflexivity.
  - on_meta ch H. reflexivity.
  - intros. on_meta ch H. reflexivity.
  - on_meta ch H. reflexivity.
  - intros b rest H1 H2. on_meta ch H.
    rewrite len_cons_nonzero. cbn [getitem nth_error bind].
    unfold META_FLAG_TIME_CONFIRMATION, META_FLAG_SHORT_RESPONSE.
    destruct (Z.eqb_spec (Z_of_byte b) 1); [ contradiction | ].
    destruct (Z.eqb_spec (Z_of_byte b) 2); [ contradiction | ].
    reflexivity.
  - intros rest Hl. on_meta ch H.
    rewrite len_cons_nonzero. cbn [getitem nth_error bind].
    change (Z_of_byte x01 =? META_FLAG_TIME_CONFIRMATION) with true.
    cbv iota. unfold PACKET_SIZE_META_LONG.
    change 8 with (Z.of_nat 8) at 1. rewrite len_eqb. cbn [List.length].
    destruct (Nat.eqb_spec (S (List.length rest)) 8); [ lia | ].
    reflexivity.
  - intros rest Hl. on_meta ch H.
    rewrite len_cons_nonzero. cbn [getitem nth_error bind].
    change (Z_of_byte x02 =? META_FLAG_TIME_CONFIRMATION) with false.
    change (Z_of_byte x02 =? META_FLAG_SHORT_RESPONSE) with true.
    cbv iota. unfold PACKET_SIZE_META_SHORT.
    change 2 with (Z.of_nat 2) at 1. rewrite len_eqb. cbn [List.length].
    destruct (Nat.eqb_spec (S (List.length rest)) 2); [ lia | ].
    reflexivity.
Qed.

Lemma meta_frame_decoding_witness :
  notification_handler config0 100 wall0 ch_meta
    [x01; x19; x06; x0f; x0a; x1e; x2d; x02] sensor_state0
  = Ret (set_last_data_time sensor_state0 (Some 100%Q),
         [Log DEBUG (MsgNotification (handle ch_meta) (uuid ch_meta)
                       [x01; x19; x06; x0f; x0a; x1e; x2d; x02]);
          Log INFO (MsgTimeConfirmed 2025 6 15 10 30 45 2)]) /\
  notification_handler config0 100 wall0 ch_meta [x09] sensor_state0
  = Ret (set_last_data_time sensor_state0 (Some 100%Q),
         [Log DEBUG (MsgNotification (handle ch_meta) (uuid ch_meta) [x09]);
          Log WARNING (MsgUnknownMetaFlag (Z_of_byte x09) [x09])]) /\
  notification_handler config0 100 wall0 ch_meta [x02] sensor_state0
  = Ret (set_last_data_time sensor_state0 (Some 100%Q),
         [Log DEBUG (MsgNotification (handle ch_meta) (uuid ch_meta) [x02]);
          Log WARNING (MsgInvalidMetaShort 2 (len [x02]))]).
Proof.
  pose proof (meta_frame_decoding config0 100 wall0 ch_meta sensor_state0
                eq_refl) as T.
  cbv zeta in T.
  destruct T as [_ [T2 [_ [_ [T5 [_ T7]]]]]].
  split; [ exact T2 | ].
  split.
  - apply (T5 x09 []); intro E; discriminate E.
  - apply (T7 []). intro E; discriminate E.
Defined.

(** ** STATUS frames and the battery value *)

Lemma channel_status_tests (ch : Channel) :
  (lower (uuid ch) =? lower UUID_STATUS)%string = true ->
  (lower (uuid ch) =? lower UUID_DATA)%string = false.
Proof.
  intros H. apply String.eqb_eq in H. rewrite H. vm_compute. reflexivity.
Qed.

















(** ** The battery value along a run of the program *)




Lemma listen_loop_quiet (cfg : Config) (st : SensorState) (t : Q) :
  m_st (fst (listen_loop cfg st t)) = st /\
  existsb is_reading (snd (listen_loop cfg st t)) = false.
Proof.
  unfold listen_loop. destruct (mqtt_fatal_error cfg); [ split; reflexivity | ].
  destruct (last_data_time st) as [ last | ]; [ | split; reflexivity ].
  destruct (negb (Qle_bool (t - last) (inject_Z (response_timeout cfg))));
    split; reflexivity.
Qed.



Lemma step_done (m : machine) (i : input) (e : exn) :
  m_pc m = Done e -> step m i = (m, []).
Proof. intros H. unfold step. rewrite H. reflexivity. Qed.

Lemma run_done (ins : list input) (m : machine) (e : exn) :
  m_pc m = Done e -> run m ins = (m, []).
Proof.
  induction ins as [ | i rest IH ]; intros H; cbn [run]; [ reflexivity | ].
  rewrite (step_done m i e H), (IH H). reflexivity.
Qed.







(** ** The handshake *)

Lemma dec_digits_fuel (f1 : nat) :
  forall (f2 : nat) (n : Z),
    0 <= n < 2 ^ Z.of_nat (S f1) -> 0 <= n < 2 ^ Z.of_nat (S f2) ->
    dec_digits (S f1) n = dec_digits (S f2) n.
Proof.
  induction f1 as [ | f1 IH ]; intros f2 n H1 H2;
    cbn [dec_digits]; destruct (Z.ltb_spec n 10); try reflexivity.
  - change (2 ^ Z.of_nat 1) with 2 in H1. lia.
  - destruct f2 as [ | f2 ]; [ change (2 ^ Z.of_nat 1) with 2 in H2; lia | ].
    f_equal.
    rewrite (Nat2Z.inj_succ (S f1)), Z.pow_succ_r in H1 by lia.
    rewrite (Nat2Z.inj_succ (S f2)), Z.pow_succ_r in H2 by lia.
    apply IH; split; try (apply Z.div_pos; lia);
      apply Z.div_lt_upper_bound; lia.
Qed.

Lemma format_06d_digits (n : Z) :
  0 <= n <= 999999 ->
  format_06d n
  = string_of_list_ascii
      (map digit_char
         [n / 100000 mod 10; n / 10000 mod 10; n / 1000 mod 10;
          n / 100 mod 10; n / 10 mod 10; n mod 10]).
Proof.
  intros H. unfold format_06d.
  assert (F : dec_digits (S (Z.to_nat (Z.log2 n))) n = dec_digits 20 n).
  { apply dec_digits_fuel.
    - rewrite Nat2Z.inj_succ, Z2Nat.id by apply Z.log2_nonneg.
      destruct (Z.eq_dec n 0) as [-> | ]; [ vm_compute; split; congruence | ].
      split; [ lia | ]. apply Z.log2_spec. lia.
    - change (2 ^ Z.of_nat 20) with 1048576. lia. }
  rewrite F. cbn [dec_digits].
  rewrite !Z.div_div by lia. 
  change (10 * 10) with 100. change (100*10) with 1000. change (1000*10) with 10000. change (10000*10) with 100000.
  change (100000*10) with 1000000.
  destruct (Z.ltb_spec n 10);
    [ | destruct (Z.ltb_spec (n / 10) 10);
      [ | destruct (Z.ltb_spec (n / 100) 10);
        [ | destruct (Z.ltb_spec (n / 1000) 10);
          [ | destruct (Z.ltb_spec (n / 10000) 10);
            [ | destruct (Z.ltb_spec (n / 100000) 10) ] ] ] ] ].
  all: cbn [List.length app repeat Nat.sub].
  all: try (exfalso; Z.div_mod_to_equations; lia).
  all: do 2 f_equal; repeat (apply (f_equal2 (@cons Z))); try reflexivity.
  all: Z.div_mod_to_equations; lia.
Qed.

Lemma digit_char_byte (d : Z) :
  0 <= d <= 9 -> byte_of_ascii (digit_char d) = byte_of_Z (48 + d).
Proof.
  intros H.
  assert (C : d = 0 \/ d = 1 \/ d = 2 \/ d = 3 \/ d = 4 \/ d = 5 \/ d = 6
              \/ d = 7 \/ d = 8 \/ d = 9) by lia.
  repeat (destruct C as [-> | C]; [ reflexivity | ]). subst d. reflexivity.
Qed.

Lemma byte_of_Z_inv (z : Z) : 0 <= z <= 255 -> Z_of_byte (byte_of_Z z) = z.
Proof.
  intros H. unfold Z_of_byte, byte_of_Z.
  destruct (Byte.of_N (Z.to_N z)) as [ b | ] eqn:E.
  - apply Byte.to_of_N in E. rewrite E. lia.
  - apply Byte.of_N_None_iff in E. lia.
Qed.

Lemma land_255_small (z : Z) : 0 <= z <= 255 -> Z.land z 255 = z.
Proof.
  intros H. change 255 with (Z.ones 8). rewrite Z.land_ones by lia.
  apply Z.mod_small. change (2 ^ 8) with 256. lia.
Qed.


Lemma build_auth_key_layout (n : Z) :
  0 <= n <= 999999 ->
  exists d1 d2 d3 d4 d5 d6,
    (0 <= d1 <= 9 /\ 0 <= d2 <= 9 /\ 0 <= d3 <= 9 /\
     0 <= d4 <= 9 /\ 0 <= d5 <= 9 /\ 0 <= d6 <= 9) /\
    n = 100000 * d1 + 10000 * d2 + 1000 * d3 + 100 * d4 + 10 * d5 + d6 /\
    fst (build_auth_key n)
    = [x00; x01;
       ascii_digit d1; ascii_digit d2; ascii_digit d3;
       ascii_digit d4; ascii_digit d5; ascii_digit d6;
       x00; x00; x00; x00; x00; x00; x00; x00; x00; x00].
Proof.
  intros H.
  exists (n / 100000 mod 10), (n / 10000 mod 10), (n / 1000 mod 10),
         (n / 100 mod 10), (n / 10 mod 10), (n mod 10).
  split; [ repeat split; Z.div_mod_to_equations; lia | ].
  split; [ Z.div_mod_to_equations; lia | ].
  unfold build_auth_key. cbn [fst]. rewrite (format_06d_digits n H).
  cbn [map string_of_list_ascii list_byte_of_string list_ascii_of_string
       app repeat].
  unfold ascii_digit.
  rewrite !digit_char_byte by (Z.div_mod_to_equations; lia).
  reflexivity.
Qed.

Lemma build_time_sync_layout (d : datetime) :
  valid_datetime d ->
  map Z_of_byte (fst (build_time_sync d))
  = [years_since_2000 d; dt_month d; dt_day d; dt_hour d; dt_minute d;
     dt_second d; 0; 6; 64; 0; 30].
Proof.
  intros [Hy [Hm [Hd [Hh [Hmi Hs]]]]].
  unfold build_time_sync, years_since_2000. cbn [fst app map].
  rewrite negb_if.
  assert (Y : 0 <= (if (0 <=? dt_year d - 2000) && (dt_year d - 2000 <=? 255)
                    then dt_year d - 2000 else 0) <= 255).
  { destruct (Z.leb_spec 0 (dt_year d - 2000));
      destruct (Z.leb_spec (dt_year d - 2000) 255); cbn [andb]; lia. }
  rewrite !land_255_small by lia.
  rewrite !byte_of_Z_inv by lia.
  reflexivity.
Qed.

Lemma filter_none {A : Type} (f : A -> bool) (l : list A) :
  (forall a, In a l -> f a = false) -> filter f l = [].
Proof.
  induction l as [ | a l IH ]; intros H; cbn [filter]; [ reflexivity | ].
  rewrite (H a (or_introl eq_refl)). apply IH.
  intros b Hb. apply H. right. exact Hb.
Qed.

Lemma run_event_no_transport (cfg : Config) (st : SensorState)
    (ev : async_event) :
  filter is_transport (snd (run_event cfg st ev)) = [].
Proof.
  destruct ev as [now wall ch data | rc | rc]; cbn [run_event].
  - destruct (handler_returns cfg now wall ch data st) as [s [e [H F]]].
    rewrite H. cbn [snd]. apply filter_none. intros a Ha.
    rewrite forallb_forall in F. specialize (F a Ha).
    destruct a; try reflexivity; discriminate F.
  - unfold mqtt_on_connect.
    destruct (rc =? 0);
      [ | destruct (mqtt_connection_failed_count cfg + 1
                    >=? mqtt_max_connection_attempts cfg) ]; reflexivity.
  - unfold mqtt_on_disconnect.
    destruct (negb (rc =? 0));
      [ destruct (mqtt_connection_failed_count cfg + 1
                  >=? mqtt_max_connection_attempts cfg) | ]; reflexivity.
Qed.

Lemma run_events_no_transport (evs : list async_event) :
  forall (cfg : Config) (st : SensorState),
  filter is_transport (snd (run_events cfg st evs)) = [].
Proof.
  induction evs as [ | ev rest IH ]; intros cfg st; cbn [run_events];
    [ reflexivity | ].
  pose proof (run_event_no_transport cfg st ev) as H1.
  destruct (run_event cfg st ev) as [[cfg1 st1] e1].
  pose proof (IH cfg1 st1) as H2.
  destruct (run_events cfg1 st1 rest) as [[cfg2 st2] e2].
  cbn [snd] in *. rewrite filter_app, H1, H2. reflexivity.
Qed.

Lemma run_cons (m : machine) (i : input) (rest : list input) :
  fst (run m (i :: rest)) = fst (run (fst (step m i)) rest) /\
  snd (run m (i :: rest))
  = snd (step m i) ++ snd (run (fst (step m i)) rest).
Proof.
  cbn [run]. destruct (step m i) as [m1 e1]. cbn [fst snd].
  destruct (run m1 rest) as [m2 e2]. split; reflexivity.
Qed.

Lemma step_connecting (m : machine) (i : input) :
  m_pc m = Connecting -> in_result i = None -> in_connected i = true ->
  m_pc (fst (step m i)) = Initializing 0 /\
  filter is_transport (snd (step m i)) = [StartNotify UUID_STATUS].
Proof.
  intros Hpc Hr Hc. unfold step. rewrite Hpc.
  pose proof (run_events_no_transport (in_events i) (m_cfg m) (m_st m)) as N.
  destruct (run_events (m_cfg m) (m_st m) (in_events i)) as [[cfg st] e0].
  unfold resume. rewrite Hr, Hc. cbn [negb fst snd m_pc] in *.
  split; [ reflexivity | ]. rewrite filter_app, N. reflexivity.
Qed.

Lemma step_initializing (m : machine) (i : input) (k : nat)
    (c : list effect) :
  m_pc m = Initializing k -> in_result i = None ->
  init_call (S k) i = Some c ->
  m_pc (fst (step m i)) = Initializing (S k) /\
  filter is_transport (snd (step m i)) = filter is_transport c.
Proof.
  intros Hpc Hr Hc. unfold step. rewrite Hpc.
  pose proof (run_events_no_transport (in_events i) (m_cfg m) (m_st m)) as N.
  destruct (run_events (m_cfg m) (m_st m) (in_events i)) as [[cfg st] e0].
  unfold resume. rewrite Hr, Hc. cbn [fst snd m_pc] in *.
  split; [ reflexivity | ]. rewrite filter_app, N. reflexivity.
Qed.

Lemma run_cons_fst (m : machine) (i : input) (rest : list input) :
  fst (run m (i :: rest)) = fst (run (fst (step m i)) rest).
Proof. apply run_cons. Qed.

Lemma run_cons_snd (m : machine) (i : input) (rest : list input) :
  snd (run m (i :: rest))
  = snd (step m i) ++ snd (run (fst (step m i)) rest).
Proof. apply run_cons. Qed.

Lemma run_one (m : machine) (i : input) :
  fst (run m [i]) = fst (step m i) /\ snd (run m [i]) = snd (step m i).
Proof.
  cbn [run]. destruct (step m i) as [m1 e1]. cbn [fst snd].
  rewrite app_nil_r. split; reflexivity.
Qed.

Lemma run_one_fst (m : machine) (i : input) :
  fst (run m [i]) = fst (step m i).
Proof. apply run_one. Qed.

Lemma run_one_snd (m : machine) (i : input) :
  snd (run m [i]) = snd (step m i).
Proof. apply run_one. Qed.

Lemma init_call_auth (i : input) :
  init_call 4 i
  = Some [Log DEBUG (MsgEnabled UUID_DATA);
          Log DEBUG (MsgSendingKey (snd (build_auth_key (in_rand i)))
                       (fst (build_auth_key (in_rand i))));
          WriteGattChar UUID_KEY (fst (build_auth_key (in_rand i))) true].
Proof. reflexivity. Qed.

Lemma init_call_sync (i : input) :
  init_call 6 i
  = Some [Log DEBUG MsgStartAccepted;
          Log INFO (MsgSyncTime (snd (build_time_sync (in_wall i))));
          Log DEBUG (MsgSendingSync (fst (build_time_sync (in_wall i))));
          WriteGattChar UUID_KEY (fst (build_time_sync (in_wall i))) true].
Proof. reflexivity. Qed.

Lemma listen_loop_no_handshake (cfg : Config) (st : SensorState) (t : Q) :
  filter is_handshake_op (snd (listen_loop cfg st t)) = [].
Proof.
  unfold listen_loop. destruct (mqtt_fatal_error cfg); [ reflexivity | ].
  destruct (last_data_time st) as [ last | ]; [ | reflexivity ].
  destruct (negb (Qle_bool (t - last) (inject_Z (response_timeout cfg))));
    reflexivity.
Qed.

(** Once the last write is out, the session issues no further subscription
    or write, whatever happens next. *)
Lemma no_handshake_after_init (p : pc) (cfg : Config) (st : SensorState)
    (i : input) :
  p = Initializing 6 \/ p = Listening \/ (exists how, p = Closing how) ->
  filter is_handshake_op (snd (resume p cfg st i)) = [].
Proof.
  intros [-> | [-> | [how ->]]]; unfold resume;
    destruct (in_result i) as [ e | ]; cbv beta iota.
  - reflexivity.
  - cbn [init_call].
    pose proof (listen_loop_no_handshake cfg
                  (set_last_data_time st (Some (in_time i))) (in_time2 i)) as L.
    destruct (listen_loop cfg (set_last_data_time st (Some (in_time i)))
                (in_time2 i)) as [m1 e2].
    cbn [snd] in *. rewrite !filter_app, L.
    destruct (mqtt_auto_discovery cfg), (mqtt_client cfg); reflexivity.
  - reflexivity.
  - apply listen_loop_no_handshake.
  - destruct how, e; reflexivity.
  - destruct how as [ | e ]; [ reflexivity | destruct e; reflexivity ].
Qed.

(** C6. After the connection is made the program subscribes to the four
    channels and then performs exactly three confirmed writes, in this
    order: to the key characteristic the 18 bytes 00 01, the six ASCII
    digits of the nonce, ten zero bytes; to the command characteristic the
    byte 03; to the key characteristic the 11 bytes (years since 2000, or 0
    outside [0,255]; month; day; hour; minute; second; 00 06 40 00 1e).
    Nothing of the handshake is issued again in the session. *)
Theorem handshake_write_order
    (m : machine) (i0 i1 i2 i3 i4 i5 i6 : input) :
  m_pc m = Connecting ->
  in_connected i0 = true ->
  Forall (fun i => in_result i = None) [i0; i1; i2; i3; i4; i5; i6] ->
  0 <= in_rand i4 <= 999999 ->
  valid_datetime (in_wall i6) ->
  exists d1 d2 d3 d4 d5 d6 sync,
    (0 <= d1 <= 9 /\ 0 <= d2 <= 9 /\ 0 <= d3 <= 9 /\
     0 <= d4 <= 9 /\ 0 <= d5 <= 9 /\ 0 <= d6 <= 9) /\
    in_rand i4
    = 100000 * d1 + 10000 * d2 + 1000 * d3 + 100 * d4 + 10 * d5 + d6 /\
    map Z_of_byte sync
    = [years_since_2000 (in_wall i6); dt_month (in_wall i6);
       dt_day (in_wall i6); dt_hour (in_wall i6); dt_minute (in_wall i6);
       dt_second (in_wall i6); 0; 6; 64; 0; 30] /\
    m_pc (fst (run m [i0; i1; i2; i3; i4; i5; i6])) = Initializing 6 /\
    filter is_transport (snd (run m [i0; i1; i2; i3; i4; i5; i6]))
    = [StartNotify UUID_STATUS; StartNotify UUID_SHORT;
       StartNotify UUID_META; StartNotify UUID_DATA;
       WriteGattChar UUID_KEY
         [x00; x01;
          ascii_digit d1; ascii_digit d2; ascii_digit d3;
          ascii_digit d4; ascii_digit d5; ascii_digit d6;
          x00; x00; x00; x00; x00; x00; x00; x00; x00; x00] true;
       WriteGattChar UUID_CMD [x03] true;
       WriteGattChar UUID_KEY sync true] /\
    (forall (p : pc) (cfg : Config) (st : SensorState) (i : input),
       p = Initializing 6 \/ p = Listening \/ (exists how, p = Closing how) ->
       filter is_handshake_op (snd (resume p cfg st i)) = []).
Proof.
  intros Hpc Hc HF Hrand Hwall.
  apply Forall_cons_iff in HF as [R0 HF]. apply Forall_cons_iff in HF as [R1 HF].
  apply Forall_cons_iff in HF as [R2 HF]. apply Forall_cons_iff in HF as [R3 HF].
  apply Forall_cons_iff in HF as [R4 HF]. apply Forall_cons_iff in HF as [R5 HF].
  apply Forall_cons_iff in HF as [R6 _].
  destruct (build_auth_key_layout _ Hrand)
    as [d1 [d2 [d3 [d4 [d5 [d6 [Hd [Hn Hk]]]]]]]].
  exists d1, d2, d3, d4, d5, d6, (fst (build_time_sync (in_wall i6))).
  split; [ exact Hd | ]. split; [ exact Hn | ].
  split; [ apply build_time_sync_layout; exact Hwall | ].
  destruct (step_connecting m i0 Hpc R0 Hc) as [P0 F0].
  destruct (step_initializing _ i1 0 _ P0 R1 eq_refl) as [P1 F1].
  destruct (step_initializing _ i2 1 _ P1 R2 eq_refl) as [P2 F2].
  destruct (step_initializing _ i3 2 _ P2 R3 eq_refl) as [P3 F3].
  destruct (step_initializing _ i4 3 _ P3 R4 (init_call_auth i4)) as [P4 F4].
  destruct (step_initializing _ i5 4 _ P4 R5 eq_refl) as [P5 F5].
  destruct (step_initializing _ i6 5 _ P5 R6 (init_call_sync i6)) as [P6 F6].
  cbn [filter is_transport] in F1, F2, F3, F4, F5, F6.
  rewrite Hk in F4.
  split; [ repeat (rewrite run_one_fst || rewrite run_cons_fst); exact P6 | ].
  split; [ | intros p cfg st i; apply no_handshake_after_init ].
  repeat (rewrite run_one_snd || rewrite run_one_fst
          || rewrite run_cons_snd || rewrite run_cons_fst).
  rewrite !filter_app, F0, F1, F2, F3, F4, F5, F6. reflexivity.
Qed.

Lemma handshake_write_order_witness :
  exists d1 d2 d3 d4 d5 d6 sync,
    (0 <= d1 <= 9 /\ 0 <= d2 <= 9 /\ 0 <= d3 <= 9 /\
     0 <= d4 <= 9 /\ 0 <= d5 <= 9 /\ 0 <= d6 <= 9) /\
    123456
    = 100000 * d1 + 10000 * d2 + 1000 * d3 + 100 * d4 + 10 * d5 + d6 /\
    map Z_of_byte sync = [25; 6; 15; 10; 30; 45; 0; 6; 64; 0; 30] /\
    m_pc (fst (run (fst (monitor_device cfg_json sensor_state0))
                 (repeat (resumed [] 0) 7))) = Initializing 6 /\
    filter is_transport
      (snd (run (fst (monitor_device cfg_json sensor_state0))
              (repeat (resumed [] 0) 7)))
    = [StartNotify UUID_STATUS; StartNotify UUID_SHORT;
       StartNotify UUID_META; StartNotify UUID_DATA;
       WriteGattChar UUID_KEY
         [x00; x01;
          ascii_digit d1; ascii_digit d2; ascii_digit d3;
          ascii_digit d4; ascii_digit d5; ascii_digit d6;
          x00; x00; x00; x00; x00; x00; x00; x00; x00; x00] true;
       WriteGattChar UUID_CMD [x03] true;
       WriteGattChar UUID_KEY sync true] /\
    (forall (p : pc) (cfg : Config) (st : SensorState) (i : input),
       p = Initializing 6 \/ p = Listening \/ (exists how, p = Closing how) ->
       filter is_handshake_op (snd (resume p cfg st i)) = []).
Proof.
  apply (handshake_write_order (fst (monitor_device cfg_json sensor_state0))
           (resumed [] 0) (resumed [] 0) (resumed [] 0) (resumed [] 0)
           (resumed [] 0) (resumed [] 0) (resumed [] 0)).
  - reflexivity.
  - reflexivity.
  - repeat constructor.
  - cbn. lia.
  - unfold valid_datetime. cbn. lia.
Defined.

(** ** The META decoder on its own *)

(** C10. [decode_meta_time_mode] does not look at the flag byte: on every
    8-byte buffer, whatever byte 0 is, it succeeds with year = 2000 + byte 1
    and the other fields verbatim. The flag policy is the handler's: given
    an 8-byte META frame whose flag is not 0x01, which the decoder accepts,
    the handler does not call it and logs a warning. *)
Theorem decode_meta_time_mode_ignores_flag
    (b0 b1 b2 b3 b4 b5 b6 b7 : byte) :
  decode_meta_time_mode [b0; b1; b2; b3; b4; b5; b6; b7]
  = Ret (Some (mkMetaFrame (Z_of_byte b0) (2000 + Z_of_byte b1)
                 (Z_of_byte b2) (Z_of_byte b3) (Z_of_byte b4)
                 (Z_of_byte b5) (Z_of_byte b6) (Z_of_byte b7))) /\
  forall (cfg : Config) (now : Q) (wall : datetime) (ch : Channel)
         (st : SensorState),
    lower (uuid ch) = lower UUID_META ->
    Z_of_byte b0 <> 1 ->
    let frame := [b0; b1; b2; b3; b4; b5; b6; b7] in
    notification_handler cfg now wall ch frame st
    = Ret (set_last_data_time st (Some now),
           [Log DEBUG (MsgNotification (handle ch) (uuid ch) frame);
            Log WARNING
              (if Z_of_byte b0 =? 2 then MsgInvalidMetaShort 2 8
               else MsgUnknownMetaFlag (Z_of_byte b0) frame)]).
Proof.
  split; [ reflexivity | ].
  intros cfg now wall ch st H N frame. subst frame. on_meta ch H.
  rewrite len_cons_nonzero. cbn [getitem nth_error bind].
  unfold META_FLAG_TIME_CONFIRMATION, META_FLAG_SHORT_RESPONSE.
  destruct (Z.eqb_spec (Z_of_byte b0) 1); [ contradiction | ].
  destruct (Z.eqb_spec (Z_of_byte b0) 2); reflexivity.
Qed.

Lemma decode_meta_time_mode_ignores_flag_witness :
  decode_meta_time_mode [x09; x19; x06; x0f; x0a; x1e; x2d; x02]
  = Ret (Some (mkMetaFrame 9 2025 6 15 10 30 45 2)) /\
  notification_handler config0 100 wall0 ch_meta
    [x09; x19; x06; x0f; x0a; x1e; x2d; x02] sensor_state0
  = Ret (set_last_data_time sensor_state0 (Some 100%Q),
         [Log DEBUG (MsgNotification (handle ch_meta) (uuid ch_meta)
                       [x09; x19; x06; x0f; x0a; x1e; x2d; x02]);
          Log WARNING (MsgUnknownMetaFlag 9
                         [x09; x19; x06; x0f; x0a; x1e; x2d; x02])]).
Proof.
  destruct (decode_meta_time_mode_ignores_flag
              x09 x19 x06 x0f x0a x1e x2d x02) as [T1 T2].
  split; [ exact T1 | ].
  apply (T2 config0 100%Q wall0 ch_meta sensor_state0 eq_refl).
  intro E. discriminate E.
Defined.

(** ** The reconnection loop *)

Lemma step_quiet (m : machine) (i : input) :
  in_events i = [] -> (forall e, m_pc m <> Done e) ->
  step m i = resume (m_pc m) (m_cfg m) (m_st m) i.
Proof.
  intros E ND. unfold step. rewrite E. cbn [run_events app].
  destruct (m_pc m) eqn:Hpc;
    try (destruct (resume _ (m_cfg m) (m_st m) i); reflexivity).
  exfalso. eapply ND. reflexivity.
Qed.

Ltac quiet_step E :=
  match goal with
  | |- context [step (mkMachine ?c ?s ?p) ?i] =>
      rewrite (step_quiet (mkMachine c s p) i E)
        by (intros ?; cbn [m_pc]; discriminate)
  end;
  cbn [m_pc m_cfg m_st]; unfold resume.

(** Silence: when the poll finds the last frame older than the timeout, the
    session is closed and, the broker being reachable, one new connection is
    started after the retry delay. *)
Lemma silence_timeout_reconnects_once
    (cfg : Config) (st : SensorState) (last : Q) (i1 i2 i3 : input) :
  mqtt_fatal_error cfg = false ->
  last_data_time st = Some last ->
  Qle_bool (in_time i1 - last) (inject_Z (response_timeout cfg)) = false ->
  Forall (fun i => in_events i = [] /\ in_result i = None) [i1; i2; i3] ->
  let r := run (mkMachine cfg st Listening) [i1; i2; i3] in
  fst r = mkMachine cfg st Connecting /\
  filter is_action (snd r)
  = [Disconnect; Sleep retry_delay; Connect (device_address cfg)].
Proof.
  intros Hf Hl Ht HF.
  apply Forall_cons_iff in HF as [[E1 R1] HF].
  apply Forall_cons_iff in HF as [[E2 R2] HF].
  apply Forall_cons_iff in HF as [[E3 R3] _].
  cbv zeta. rewrite !run_cons_fst, !run_cons_snd. cbn [run fst snd].
  quiet_step E1. rewrite R1. unfold listen_loop. rewrite Hf, Hl, Ht.
  cbn [negb fst snd].
  quiet_step E2. rewrite R2. unfold connection_returned. cbn [fst snd].
  quiet_step E3. rewrite R3. unfold start_connection. rewrite Hf.
  split; reflexivity.
Qed.

(** Cancellation while listening: the session is closed and the program
    ends, with no sleep and no further connection. *)
Lemma cancellation_stops_at_once
    (cfg : Config) (st : SensorState) (i1 i2 : input) :
  in_events i1 = [] -> in_result i1 = Some CancelledError ->
  in_events i2 = [] -> in_result i2 = None ->
  let r := run (mkMachine cfg st Listening) [i1; i2] in
  fst r = mkMachine cfg st (Done CancelledError) /\
  filter is_action (snd r) = [Disconnect].
Proof.
  intros E1 R1 E2 R2.
  cbv zeta. rewrite !run_cons_fst, !run_cons_snd. cbn [run fst snd].
  quiet_step E1. rewrite R1. cbn [fst snd].
  quiet_step E2. rewrite R2. split; reflexivity.
Qed.

(** Broker lost while listening: the session is closed, but the program
    ends only after it has slept the retry delay. *)
Lemma sink_fatal_stops_after_delay
    (cfg : Config) (st : SensorState) (i1 i2 i3 : input) :
  mqtt_fatal_error cfg = true ->
  Forall (fun i => in_events i = [] /\ in_result i = None) [i1; i2; i3] ->
  let r := run (mkMachine cfg st Listening) [i1; i2; i3] in
  fst r = mkMachine cfg st (Done (SystemExit 1)) /\
  filter is_action (snd r) = [Disconnect; Sleep retry_delay].
Proof.
  intros Hf HF.
  apply Forall_cons_iff in HF as [[E1 R1] HF].
  apply Forall_cons_iff in HF as [[E2 R2] HF].
  apply Forall_cons_iff in HF as [[E3 R3] _].
  cbv zeta. rewrite !run_cons_fst, !run_cons_snd. cbn [run fst snd].
  quiet_step E1. rewrite R1. unfold listen_loop. rewrite Hf. cbn [fst snd].
  quiet_step E2. rewrite R2. unfold connection_returned. cbn [fst snd].
  quiet_step E3. rewrite R3. unfold start_connection. rewrite Hf.
  split; reflexivity.
Qed.

(** C5. When the MQTT client reports its fifth failure while the session
    listens, the session is closed, and then the supervisor announces a
    reconnection and sleeps the retry delay; only the next connection
    attempt, before it reaches the transport, ends the program. The loop
    does not terminate immediately. *)
Theorem sink_fatal_sleeps_before_exit :
  let r0 := run (fst (monitor_device cfg_mqtt sensor_state0)) to_listening in
  let r := run (fst r0) broker_lost in
  m_pc (fst r0) = Listening /\
  mqtt_fatal_error (m_cfg (fst r0)) = false /\
  mqtt_fatal_error (m_cfg (fst r)) = true /\
  m_pc (fst r) = Done (SystemExit 1) /\
  skipn 5 (snd r)
  = [Log ERROR (MsgMqttLost 5); MqttClientDisconnect;
     Log ERROR MsgMqttStop; Disconnect;
     Log INFO (MsgReconnect 5); Sleep 5;
     Log ERROR MsgMqttAbort].
Proof. repeat split; vm_compute; reflexivity. Qed.

(** * Further properties of the code *)

(** ** DATA frames *)

Lemma decode_data_frame_some (payload : bytes) (d : DataFrame) :
  decode_data_frame payload = Ret (Some d) -> List.length payload = 20%nat.
Proof.
  intros H. destruct (Nat.eq_dec (List.length payload) 20) as [E | E];
    [ exact E | ].
  rewrite (decode_data_frame_wrong_length payload E) in H. discriminate H.
Qed.

Lemma u16_range (lo hi : byte) :
  0 <= Z.lor (Z_of_byte lo) (Z.shiftl (Z_of_byte hi) 8) <= 65535.
Proof.
  rewrite u16_bytes.
  pose proof (Z_of_byte_range lo). pose proof (Z_of_byte_range hi). lia.
Qed.

(** X1. Whatever twenty bytes arrive, the decoded record is well formed: the
    timestamp is present with a year in 2000..2255 and byte-sized fields,
    the three PM values and the unknown field are 16-bit, counter and flag
    are bytes, four unused bytes are kept, the two particle bytes recombine
    to pm2.5, and the record is marked current exactly when the flag is 1. *)
Theorem data_frame_well_formed (payload : bytes) (d : DataFrame) :
  decode_data_frame payload = Ret (Some d) ->
  (exists h, header d = Some h /\
     2000 <= year_2000 h <= 2255 /\ year_2000 h = 2000 + year_offset h /\
     0 <= h_month h <= 255 /\ 0 <= h_day h <= 255 /\ 0 <= h_hour h <= 255 /\
     0 <= h_minute h <= 255 /\ 0 <= h_second h <= 255) /\
  0 <= pm25 d <= 65535 /\ 0 <= pm1 d <= 65535 /\ 0 <= pm10 d <= 65535 /\
  0 <= unknown1 d <= 65535 /\ 0 <= counter d <= 255 /\ 0 <= flag d <= 255 /\
  List.length (unused4 d) = 4%nat /\
  0 <= particles_msb d <= 255 /\ 0 <= particles_lsb d <= 255 /\
  pm25 d = 256 * particles_msb d + particles_lsb d /\
  (flag_meaning d = current <-> flag d = 1).
Proof.
  intros H. pose proof (decode_data_frame_some payload d H) as L.
  explode_bytes payload L.
  rewrite decode_data_frame_20 in H.
  apply (f_equal (fun r => match r with Ret (Some x) => x | _ => d end)) in H.
  cbv beta iota zeta in H. subst d.
  cbn [header pm25 pm1 pm10 unknown1 counter flag unused4 particles_msb
       particles_lsb flag_meaning].
  repeat match goal with
         | x : byte |- _ =>
             lazymatch goal with
             | _ : 0 <= Z_of_byte x < 256 |- _ => fail
             | _ => pose proof (Z_of_byte_range x)
             end
         end.
  split.
  { eexists. split; [ reflexivity | ]. cbn [year_2000 year_offset h_month
      h_day h_hour h_minute h_second]. lia. }
  pose proof (u16_range b5 b6). pose proof (u16_range b7 b8).
  pose proof (u16_range b9 b10). pose proof (u16_range b11 b12).
  rewrite (u16_bytes b5 b6) in *.
  destruct (u16_split (Z_of_byte b5) (Z_of_byte b6)) as [Hm Hl]; try lia.
  rewrite Hm, Hl, land_255_byte.
  repeat (split; [ lia || reflexivity | ]).
  destruct (Z.eqb_spec (Z_of_byte b18) 1); split; congruence.
Qed.

Lemma data_frame_well_formed_witness :
  (exists h, header sample_frame = Some h /\
     2000 <= year_2000 h <= 2255 /\ year_2000 h = 2000 + year_offset h /\
     0 <= h_month h <= 255 /\ 0 <= h_day h <= 255 /\ 0 <= h_hour h <= 255 /\
     0 <= h_minute h <= 255 /\ 0 <= h_second h <= 255) /\
  0 <= pm25 sample_frame <= 65535 /\ 0 <= pm1 sample_frame <= 65535 /\
  0 <= pm10 sample_frame <= 65535 /\ 0 <= unknown1 sample_frame <= 65535 /\
  0 <= counter sample_frame <= 255 /\ 0 <= flag sample_frame <= 255 /\
  List.length (unused4 sample_frame) = 4%nat /\
  0 <= particles_msb sample_frame <= 255 /\
  0 <= particles_lsb sample_frame <= 255 /\
  pm25 sample_frame
  = 256 * particles_msb sample_frame + particles_lsb sample_frame /\
  (flag_meaning sample_frame = current <-> flag sample_frame = 1).
Proof.
  apply (data_frame_well_formed (sample_data x01) sample_frame).
  vm_compute. reflexivity.
Defined.

Lemma byte_values_complete (b : byte) : In (Z_of_byte b) byte_values.
Proof.
  pose proof (Z_of_byte_range b) as R. unfold byte_values.
  apply in_map_iff. exists (Z.to_nat (Z_of_byte b)). split.
  - apply Z2Nat.id. lia.
  - apply in_seq. lia.
Qed.

(** The decoded particle count as a function of the two bytes of pm2.5. *)
Lemma particles_of_bytes (payload : bytes) (d : DataFrame) :
  decode_data_frame payload = Ret (Some d) ->
  exists lo hi : byte,
    pm25 d = Z_of_byte lo + 256 * Z_of_byte hi /\
    particles_msb d = Z_of_byte hi /\ particles_lsb d = Z_of_byte lo /\
    particles d = particle_count (Z_of_byte hi) (Z_of_byte lo).
Proof.
  intros H. pose proof (decode_data_frame_some payload d H) as L.
  explode_bytes payload L.
  rewrite decode_data_frame_20 in H.
  apply (f_equal (fun r => match r with Ret (Some x) => x | _ => d end)) in H.
  cbv beta iota zeta in H. subst d.
  exists b5, b6. cbn [pm25 particles particles_msb particles_lsb].
  rewrite u16_bytes.
  destruct (u16_split (Z_of_byte b5) (Z_of_byte b6)
              (Z_of_byte_range b5) (Z_of_byte_range b6)) as [Hm Hl].
  rewrite Hm, Hl, land_255_byte. repeat split; reflexivity.
Qed.

Lemma particle_count_table :
  forallb
    (fun m =>
       forallb
         (fun l =>
            PrimFloat.eqb (particle_count m l)
              (float_of_int (4096 * m + 353 * l) / 16)%float)
         byte_values)
    byte_values = true.
Proof. vm_compute. reflexivity. Qed.

(** X2. The floating-point evaluation of the particle formula loses
    nothing: for every DATA frame the decoded particle count is the exact
    value 256*msb + 22.0625*lsb, that is (4096*msb + 353*lsb)/16 (an integer
    below 2^53 divided by a power of two, so exact in binary64). *)
Theorem particle_count_is_exact (payload : bytes) (d : DataFrame) :
  decode_data_frame payload = Ret (Some d) ->
  PrimFloat.eqb (particles d)
    (float_of_int (4096 * particles_msb d + 353 * particles_lsb d) / 16)%float
  = true.
Proof.
  intros H.
  destruct (particles_of_bytes payload d H) as [lo [hi [_ [-> [-> ->]]]]].
  pose proof particle_count_table as T.
  rewrite forallb_forall in T.
  specialize (T _ (byte_values_complete hi)).
  rewrite forallb_forall in T.
  exact (T _ (byte_values_complete lo)).
Qed.

Lemma particle_count_is_exact_witness :
  PrimFloat.eqb (particles sample_frame)
    (float_of_int (4096 * particles_msb sample_frame
                   + 353 * particles_lsb sample_frame) / 16)%float
  = true.
Proof.
  apply (particle_count_is_exact (sample_data x01) sample_frame).
  vm_compute. reflexivity.
Defined.

Lemma particle_count_drop (hi : byte) :
  Z_of_byte hi < 255 ->
  PrimFloat.ltb (particle_count (Z_of_byte hi + 1) 0)
    (particle_count (Z_of_byte hi) 255) = true.
Proof.
  destruct hi; intros H;
    first [ vm_compute; reflexivity
          | exfalso; vm_compute in H; discriminate H ].
Qed.

(** X3. The particle count is not monotone in pm2.5: when pm2.5 goes from
    256*k + 255 to 256*k + 256 the decoded particle count falls (by
    5369.9375), because a unit of the low byte weighs 22.0625 and a unit of
    the high byte 256. *)
Theorem particle_count_falls_at_byte_boundary
    (p1 p2 : bytes) (d1 d2 : DataFrame) (k : Z) :
  decode_data_frame p1 = Ret (Some d1) ->
  decode_data_frame p2 = Ret (Some d2) ->
  0 <= k < 255 ->
  pm25 d1 = 256 * k + 255 ->
  pm25 d2 = 256 * k + 256 ->
  PrimFloat.ltb (particles d2) (particles d1) = true.
Proof.
  intros H1 H2 Hk E1 E2.
  destruct (particles_of_bytes p1 d1 H1) as [lo1 [hi1 [P1 [_ [_ ->]]]]].
  destruct (particles_of_bytes p2 d2 H2) as [lo2 [hi2 [P2 [_ [_ ->]]]]].
  pose proof (Z_of_byte_range lo1). pose proof (Z_of_byte_range hi1).
  pose proof (Z_of_byte_range lo2). pose proof (Z_of_byte_range hi2).
  assert (A1 : Z_of_byte lo1 = 255) by lia.
  assert (B1 : Z_of_byte hi1 = k) by lia.
  assert (A2 : Z_of_byte lo2 = 0) by lia.
  assert (B2 : Z_of_byte hi2 = Z_of_byte hi1 + 1) by lia.
  rewrite A1, A2, B2. apply particle_count_drop. lia.
Qed.

Lemma particle_count_falls_at_byte_boundary_witness :
  PrimFloat.ltb (particles (decoded (data_with_pm25 x00 x01)))
    (particles (decoded (data_with_pm25 xff x00))) = true.
Proof.
  apply (particle_count_falls_at_byte_boundary
           (data_with_pm25 xff x00) (data_with_pm25 x00 x01)
           (decoded (data_with_pm25 xff x00))
           (decoded (data_with_pm25 x00 x01)) 0).
  - vm_compute. reflexivity.
  - vm_compute. reflexivity.
  - lia.
  - reflexivity.
  - reflexivity.
Defined.

(** ** The notification handler *)

(** Every path of the handler, with the outcome exposed: [tac] is run on
    each, after the result has been substituted. *)
Ltac handler_paths ch data cfg tac :=
  unfold notification_handler;
  destruct (lower (uuid ch) =? lower UUID_DATA)%string eqn:ED;
  [ destruct (decode_data_frame data) as [[d | ] | ex] eqn:Hd; cbn [bind];
    [ destruct ((flag d =? 0) && negb (include_history cfg)) eqn:Hskip;
      [ | unfold output_json_data, output_text_data, publish_mqtt;
          destruct (output_format cfg) eqn:Hfmt,
                   (mqtt_enabled cfg) eqn:Hen,
                   (mqtt_client cfg) eqn:Hcl;
          cbn [negb app] ]
    | | ]
  | destruct (lower (uuid ch) =? lower UUID_STATUS)%string eqn:ES;
    [ destruct data as [ | b rest ];
      [ | rewrite decode_status_battery_cons; cbn [bind] ]
    | destruct (lower (uuid ch) =? lower UUID_META)%string eqn:EM;
      [ destruct data as [ | b rest ];
        [ | rewrite len_cons_nonzero; cbn [getitem nth_error bind];
            destruct (Z_of_byte b =? META_FLAG_TIME_CONFIRMATION);
            [ destruct (negb (len (b :: rest) =? PACKET_SIZE_META_LONG));
              [ | destruct (decode_meta_time_mode (b :: rest))
                    as [[d | ] | ex] eqn:Hd; cbn [bind] ]
            | destruct (Z_of_byte b =? META_FLAG_SHORT_RESPONSE);
              [ destruct (negb (len (b :: rest) =? PACKET_SIZE_META_SHORT))
              | ] ] ]
      | destruct (lower (uuid ch) =? lower UUID_SHORT)%string eqn:EH ] ] ];
  intros E; first [ discriminate E | injection E as <- <- ]; tac.

(** The handler leaves the liveness clock at the arrival time. *)
Lemma handler_clock
    (cfg : Config) (now : Q) (wall : datetime) (ch : Channel) (data : bytes)
    (st st' : SensorState) (effs : list effect) :
  notification_handler cfg now wall ch data st = Ret (st', effs) ->
  last_data_time st' = Some now.
Proof. handler_paths ch data cfg ltac:(reflexivity). Qed.

(** X4. A frame produces at most one JSON line and at most one MQTT state
    message, and produces any only if it is a 20-byte frame on the DATA
    channel that is not skipped (flag byte other than 0, or history
    requested); frames of the other channels and of unknown channels never
    produce a reading. *)
Theorem readings_come_from_data_frames
    (cfg : Config) (now : Q) (wall : datetime) (ch : Channel) (data : bytes)
    (st st' : SensorState) (effs : list effect) :
  notification_handler cfg now wall ch data st = Ret (st', effs) ->
  (List.length (filter is_print effs) <= 1)%nat /\
  (List.length (filter is_publish effs) <= 1)%nat /\
  (existsb is_reading effs = true ->
   lower (uuid ch) = lower UUID_DATA /\
   List.length data = 20%nat /\
   (Z_of_byte (nth 19 data x00) <> 0 \/ include_history cfg = true)).
Proof.
  handler_paths ch data cfg
    ltac:(split; [ cbn; lia | split; [ cbn; lia | ] ];
          cbn; intros W; try discriminate W).
  all: apply String.eqb_eq in ED; split; [ exact ED | ].
  all: pose proof (decode_data_frame_some data d Hd) as L;
    split; [ exact L | ].
  all: explode_bytes data L; rewrite decode_data_frame_20 in Hd;
    apply (f_equal (fun r => match r with Ret (Some x) => x | _ => d end))
      in Hd;
    cbv beta iota zeta in Hd; subst d; cbn [flag nth] in *.
  all: destruct (include_history cfg); [ right; reflexivity | left ].
  all: cbn [negb] in Hskip; rewrite andb_true_r in Hskip;
    apply Z.eqb_neq; exact Hskip.
Qed.

Lemma readings_come_from_data_frames_witness :
  (List.length (filter is_print [Print reading42]) <= 1)%nat /\
  (List.length (filter is_publish [Print reading42]) <= 1)%nat /\
  (existsb is_reading [Print reading42] = true ->
   lower (uuid ch_data) = lower UUID_DATA /\
   List.length (sample_data x01) = 20%nat /\
   (Z_of_byte (nth 19 (sample_data x01) x00) <> 0 \/
    include_history cfg_json = true)).
Proof.
  destruct (readings_come_from_data_frames cfg_json 407 wall0 ch_data
              (sample_data x01) (mkSensorState 42 None)
              (mkSensorState 42 (Some 407%Q))
              [Log DEBUG (MsgNotification 54 UUID_DATA (sample_data x01));
               Print reading42])
    as [A [B C]].
  - vm_compute. reflexivity.
  - split; [ exact A | ]. split; [ exact B | ]. exact C.
Defined.

Lemma run_event_clock
    (cfg : Config) (st : SensorState) (ev : async_event) :
  last_data_time (snd (fst (run_event cfg st ev)))
  = last_notify_time [ev] (last_data_time st).
Proof.
  destruct ev as [now wall ch data | rc | rc]; cbn [run_event last_notify_time
                                                   fold_left].
  - destruct (notification_handler cfg now wall ch data st)
      as [[s e] | ex] eqn:H; [ | reflexivity ].
    exact (handler_clock _ _ _ _ _ _ _ _ H).
  - destruct (mqtt_on_connect cfg rc). reflexivity.
  - destruct (mqtt_on_disconnect cfg rc). reflexivity.
Qed.

(** X5. The liveness clock is the arrival time of the last notification:
    after any sequence of callbacks, [last_data_time] holds the time of the
    last frame delivered, whatever its channel and content (malformed and
    unknown-channel frames count too), and is untouched by MQTT callbacks. *)
Theorem clock_is_last_notification (evs : list async_event) :
  forall (cfg : Config) (st : SensorState),
  last_data_time (snd (fst (run_events cfg st evs)))
  = last_notify_time evs (last_data_time st).
Proof.
  induction evs as [ | ev rest IH ]; intros cfg st; [ reflexivity | ].
  cbn [run_events]. pose proof (run_event_clock cfg st ev) as H1.
  destruct (run_event cfg st ev) as [[cfg1 st1] e1].
  specialize (IH cfg1 st1).
  destruct (run_events cfg1 st1 rest) as [[cfg2 st2] e2].
  cbn [fst snd] in *. rewrite IH, H1. reflexivity.
Qed.

(** X6. Channels are matched on the lower-cased UUID only: two channel
    objects whose UUIDs differ in letter case (or in their handle) are
    handled alike, up to the debug entry that echoes handle and UUID. *)
Theorem channel_match_ignores_case
    (cfg : Config) (now : Q) (wall : datetime) (ch1 ch2 : Channel)
    (data : bytes) (st : SensorState) :
  lower (uuid ch1) = lower (uuid ch2) ->
  exists st' rest,
    notification_handler cfg now wall ch1 data st
    = Ret (st', Log DEBUG (MsgNotification (handle ch1) (uuid ch1) data)
                :: rest) /\
    notification_handler cfg now wall ch2 data st
    = Ret (st', Log DEBUG (MsgNotification (handle ch2) (uuid ch2) data)
                :: rest).
Proof.
  intros H. unfold notification_handler. rewrite H.
  channel_cases ch2;
    [ destruct (decode_data_frame_returns data) as [[d | ] Hd];
      rewrite Hd; cbn [bind];
      [ destruct ((flag d =? 0) && negb (include_history cfg)) | ]
    | destruct data as [ | b rest ];
      [ | rewrite decode_status_battery_cons; cbn [bind] ]
    | destruct data as [ | b rest ];
      [ | rewrite len_cons_nonzero; cbn [getitem nth_error bind];
          destruct (Z_of_byte b =? META_FLAG_TIME_CONFIRMATION);
          [ destruct (negb (len (b :: rest) =? PACKET_SIZE_META_LONG));
            [ | destruct (decode_meta_time_mode_returns (b :: rest))
                  as [[d | ] Hd]; rewrite Hd; cbn [bind] ]
          | destruct (Z_of_byte b =? META_FLAG_SHORT_RESPONSE);
            [ destruct (negb (len (b :: rest) =? PACKET_SIZE_META_SHORT))
            | ] ] ]
    | | ];
    do 2 eexists; split; reflexivity.
Qed.

Lemma channel_match_ignores_case_witness :
  exists st' rest,
    notification_handler cfg_json 407 wall0 ch_data (sample_data x01)
      sensor_state0
    = Ret (st', Log DEBUG (MsgNotification (handle ch_data) (uuid ch_data)
                             (sample_data x01)) :: rest) /\
    notification_handler cfg_json 407 wall0 ch_data_upper (sample_data x01)
      sensor_state0
    = Ret (st', Log DEBUG (MsgNotification (handle ch_data_upper)
                             (uuid ch_data_upper) (sample_data x01))
                :: rest).
Proof.
  apply (channel_match_ignores_case cfg_json 407%Q wall0 ch_data
           ch_data_upper (sample_data x01) sensor_state0).
  reflexivity.
Defined.

(** ** The MQTT connection callbacks *)

Lemma run_event_config (cfg : Config) (st : SensorState) (ev : async_event) :
  let cfg' := fst (fst (run_event cfg st ev)) in
  (mqtt_fatal_error cfg = true -> mqtt_fatal_error cfg' = true) /\
  mqtt_max_connection_attempts cfg' = mqtt_max_connection_attempts cfg /\
  (is_mqtt_failure ev = false ->
   mqtt_fatal_error cfg' = mqtt_fatal_error cfg /\
   (mqtt_connection_failed_count cfg' = mqtt_connection_failed_count cfg \/
    mqtt_connection_failed_count cfg' = 0)) /\
  (is_mqtt_failure ev = true ->
   mqtt_connection_failed_count cfg' = mqtt_connection_failed_count cfg + 1 /\
   (mqtt_fatal_error cfg' = true <->
    mqtt_fatal_error cfg = true \/
    mqtt_max_connection_attempts cfg
    <= mqtt_connection_failed_count cfg + 1)).
Proof.
  destruct ev as [now wall ch data | rc | rc];
    cbn [run_event is_mqtt_failure].
  - destruct (notification_handler cfg now wall ch data st) as [[s e] | ex];
      cbn [fst]; repeat split; try tauto; try discriminate; auto.
  - unfold mqtt_on_connect. destruct (Z.eqb_spec rc 0) as [E | E].
    + cbn [fst set_mqtt_failures mqtt_fatal_error
           mqtt_max_connection_attempts mqtt_connection_failed_count negb].
      repeat split; try tauto; try discriminate; auto.
    + destruct (Z.geb_spec (mqtt_connection_failed_count cfg + 1)
                  (mqtt_max_connection_attempts cfg)) as [G | G];
        cbn [fst set_mqtt_failures mqtt_fatal_error
             mqtt_max_connection_attempts mqtt_connection_failed_count negb];
        repeat split; try tauto; try discriminate; auto; try lia.
      intros [F | F]; [ exact F | lia ].
  - unfold mqtt_on_disconnect. destruct (Z.eqb_spec rc 0) as [E | E];
      cbn [negb].
    + cbn [fst]. repeat split; try tauto; try discriminate; auto.
    + destruct (Z.geb_spec (mqtt_connection_failed_count cfg + 1)
                  (mqtt_max_connection_attempts cfg)) as [G | G];
        cbn [fst set_mqtt_failures mqtt_fatal_error
             mqtt_max_connection_attempts mqtt_connection_failed_count];
        repeat split; try tauto; try discriminate; auto; try lia.
      intros [F | F]; [ exact F | lia ].
Qed.

Lemma run_events_cons (cfg : Config) (st : SensorState) (ev : async_event)
    (rest : list async_event) :
  fst (run_events cfg st (ev :: rest))
  = fst (run_events (fst (fst (run_event cfg st ev)))
           (snd (fst (run_event cfg st ev))) rest).
Proof.
  cbn [run_events]. destruct (run_event cfg st ev) as [[cfg1 st1] e1].
  cbn [fst snd]. destruct (run_events cfg1 st1 rest) as [[cfg2 st2] e2].
  reflexivity.
Qed.

(** X7. Fewer failures than the limit never make the broker connection
    fatal: if the flag is clear, the failure counter is c >= 0 and the
    callbacks report fewer than max - c failures, the flag is still clear
    afterwards, whatever else arrives in between. *)
Theorem mqtt_below_limit_not_fatal (evs : list async_event) :
  forall (cfg : Config) (st : SensorState),
  mqtt_fatal_error cfg = false ->
  0 <= mqtt_connection_failed_count cfg ->
  mqtt_connection_failed_count cfg + failures evs
  < mqtt_max_connection_attempts cfg ->
  mqtt_fatal_error (fst (fst (run_events cfg st evs))) = false.
Proof.
  unfold failures.
  induction evs as [ | ev rest IH ]; intros cfg st F C L; [ exact F | ].
  rewrite run_events_cons.
  destruct (run_event_config cfg st ev) as [_ [M [N Y]]].
  cbn [filter] in L.
  destruct (is_mqtt_failure ev) eqn:Hf.
  - destruct (Y eq_refl) as [C1 F1]. cbn [List.length] in L.
    apply IH.
    + destruct (mqtt_fatal_error (fst (fst (run_event cfg st ev)))) eqn:X;
        [ | reflexivity ].
      destruct (proj1 F1 eq_refl) as [F2 | F2]; [ congruence | lia ].
    + lia.
    + rewrite M, C1. lia.
  - destruct (N eq_refl) as [F1 C1]. apply IH.
    + congruence.
    + lia.
    + rewrite M. lia.
Qed.

Lemma mqtt_below_limit_not_fatal_witness :
  mqtt_fatal_error
    (fst (fst (run_events cfg_mqtt sensor_state0
                 (repeat (MqttOnDisconnect 7) 3
                  ++ [MqttOnConnect 0; MqttOnDisconnect 7]))))
  = false.
Proof.
  apply (mqtt_below_limit_not_fatal
           (repeat (MqttOnDisconnect 7) 3
            ++ [MqttOnConnect 0; MqttOnDisconnect 7])
           cfg_mqtt sensor_state0).
  - reflexivity.
  - cbn. lia.
  - vm_compute. reflexivity.
Defined.

Lemma run_events_fatal_sticky (evs : list async_event) :
  forall (cfg : Config) (st : SensorState),
  mqtt_fatal_error cfg = true ->
  mqtt_fatal_error (fst (fst (run_events cfg st evs))) = true.
Proof.
  induction evs as [ | ev rest IH ]; intros cfg st F; [ exact F | ].
  rewrite run_events_cons. apply IH.
  apply (proj1 (run_event_config cfg st ev)). exact F.
Qed.

(** X8. Failures that add up to the limit, with no successful connect in
    between, make the broker connection fatal: if no callback among [evs]
    is a successful connect and the failure counter plus the failures
    reported reaches the limit, the flag is set afterwards. *)
Theorem mqtt_limit_reached_is_fatal (evs : list async_event) :
  forall (cfg : Config) (st : SensorState),
  forallb (fun ev => negb (is_mqtt_success ev)) evs = true ->
  1 <= failures evs ->
  mqtt_max_connection_attempts cfg
  <= mqtt_connection_failed_count cfg + failures evs ->
  mqtt_fatal_error (fst (fst (run_events cfg st evs))) = true.
Proof.
  unfold failures.
  induction evs as [ | ev rest IH ]; intros cfg st S P L;
    [ cbn in P; lia | ].
  rewrite run_events_cons.
  cbn [forallb] in S. apply andb_prop in S as [S1 S2].
  destruct (run_event_config cfg st ev) as [K [M [N Y]]].
  cbn [filter] in *.
  destruct (is_mqtt_failure ev) eqn:Hf.
  - destruct (Y eq_refl) as [C1 F1]. cbn [List.length] in *.
    destruct (mqtt_fatal_error (fst (fst (run_event cfg st ev)))) eqn:X.
    + apply run_events_fatal_sticky. exact X.
    + assert (NF : mqtt_max_connection_attempts cfg
                   > mqtt_connection_failed_count cfg + 1).
      { destruct (Z_le_gt_dec (mqtt_max_connection_attempts cfg)
                    (mqtt_connection_failed_count cfg + 1)) as [Q | Q];
          [ | exact Q ].
        assert (T : false = true) by (apply F1; right; exact Q).
        discriminate T. }
      apply IH; [ exact S2 | lia | rewrite M, C1; lia ].
  - destruct (N eq_refl) as [F1 [C1 | C1]].
    + apply IH; [ exact S2 | lia | rewrite M, C1; lia ].
    + (* the counter was reset: only a successful connect does that,
         unless it was 0 already *)
      destruct ev as [now wall ch data | rc | rc].
      * cbn [run_event] in C1 |- *.
        destruct (notification_handler cfg now wall ch data st)
          as [[s e] | ex]; cbn [fst snd] in *;
          (apply IH; [ exact S2 | lia | lia ]).
      * cbn [is_mqtt_success is_mqtt_failure] in *.
        destruct (rc =? 0); discriminate.
      * cbn [is_mqtt_failure] in Hf. apply negb_false_iff in Hf.
        cbn [run_event] in C1 |- *. unfold mqtt_on_disconnect in *.
        rewrite Hf in *. cbn [negb fst snd] in *.
        apply IH; [ exact S2 | lia | lia ].
Qed.

Lemma mqtt_limit_reached_is_fatal_witness :
  mqtt_fatal_error
    (fst (fst (run_events cfg_mqtt sensor_state0
                 (repeat (MqttOnDisconnect 7) 5))))
  = true.
Proof.
  apply (mqtt_limit_reached_is_fatal (repeat (MqttOnDisconnect 7) 5)
           cfg_mqtt sensor_state0).
  - reflexivity.
  - vm_compute. discriminate.
  - vm_compute. discriminate.
Defined.

(** ** The program between its awaits *)

Lemma run_event_effects (cfg : Config) (st : SensorState) (ev : async_event) :
  forallb is_callback_effect (snd (run_event cfg st ev)) = true.
Proof.
  destruct ev as [now wall ch data | rc | rc]; cbn [run_event].
  - destruct (handler_returns cfg now wall ch data st) as [s [e [H F]]].
    rewrite H. cbn [snd]. rewrite forallb_forall in *. intros a Ha.
    specialize (F a Ha). destruct a; try reflexivity; discriminate F.
  - unfold mqtt_on_connect.
    destruct (rc =? 0);
      [ | destruct (mqtt_connection_failed_count cfg + 1
                    >=? mqtt_max_connection_attempts cfg) ]; reflexivity.
  - unfold mqtt_on_disconnect.
    destruct (negb (rc =? 0));
      [ destruct (mqtt_connection_failed_count cfg + 1
                  >=? mqtt_max_connection_attempts cfg) | ]; reflexivity.
Qed.

Lemma run_events_effects (evs : list async_event) :
  forall (cfg : Config) (st : SensorState),
  forallb is_callback_effect (snd (run_events cfg st evs)) = true.
Proof.
  induction evs as [ | ev rest IH ]; intros cfg st; cbn [run_events];
    [ reflexivity | ].
  pose proof (run_event_effects cfg st ev) as H1.
  destruct (run_event cfg st ev) as [[cfg1 st1] e1].
  pose proof (IH cfg1 st1) as H2.
  destruct (run_events cfg1 st1 rest) as [[cfg2 st2] e2].
  cbn [snd] in *. rewrite forallb_app, H1, H2. reflexivity.
Qed.

(** Callbacks issue no call that [f] selects, when [f] selects no callback
    effect. *)
Lemma run_events_filter (f : effect -> bool) (evs : list async_event)
    (cfg : Config) (st : SensorState) :
  (forall e, is_callback_effect e = true -> f e = false) ->
  filter f (snd (run_events cfg st evs)) = [].
Proof.
  intros H. apply filter_none. intros a Ha. apply H.
  pose proof (run_events_effects evs cfg st) as F.
  rewrite forallb_forall in F. exact (F a Ha).
Qed.

Ltac callback_free :=
  let e := fresh "e" in
  intros e; destruct e; intros; (reflexivity || discriminate).

(** The program never writes the configuration: only MQTT callbacks do. *)
Lemma resume_cfg (p : pc) (cfg : Config) (st : SensorState) (i : input) :
  m_cfg (fst (resume p cfg st i)) = cfg.
Proof.
  destruct p as [ | k | | how | in_try | e ]; unfold resume;
    destruct (in_result i) as [ e' | ]; cbv beta iota.
  - destruct e'; reflexivity.
  - destruct (negb (in_connected i)); reflexivity.
  - reflexivity.
  - destruct (init_call (S k) i); [ reflexivity | ].
    unfold listen_loop. destruct (mqtt_fatal_error cfg); [ reflexivity | ].
    cbn [last_data_time set_last_data_time].
    destruct (negb (Qle_bool (in_time2 i - in_time i)
                      (inject_Z (response_timeout cfg)))); reflexivity.
  - reflexivity.
  - unfold listen_loop. destruct (mqtt_fatal_error cfg); [ reflexivity | ].
    destruct (last_data_time st); [ | reflexivity ].
    destruct (negb (Qle_bool (in_time i - q)
                      (inject_Z (response_timeout cfg)))); reflexivity.
  - destruct how, e'; reflexivity.
  - destruct how as [ | e ]; [ reflexivity | destruct e; reflexivity ].
  - destruct in_try, e'; reflexivity.
  - unfold start_connection. destruct (mqtt_fatal_error cfg); reflexivity.
  - reflexivity.
  - reflexivity.
Qed.

Lemma init_call_no_connect (k : nat) (i : input) (c : list effect) :
  init_call k i = Some c ->
  filter is_connect c = [] /\ filter is_sleep c = [] /\
  filter is_disconnect c = [].
Proof.
  do 7 (destruct k as [ | k ];
        [ cbn [init_call];
          try destruct (build_auth_key (in_rand i));
          try destruct (build_time_sync (in_wall i));
          intros E; injection E as <-; repeat split; reflexivity | ]).
  discriminate.
Qed.

Lemma resume_no_connect_when_fatal (p : pc) (cfg : Config) (st : SensorState)
    (i : input) :
  mqtt_fatal_error cfg = true ->
  filter is_connect (snd (resume p cfg st i)) = [].
Proof.
  intros F.
  destruct p as [ | k | | how | in_try | e ]; unfold resume;
    destruct (in_result i) as [ e' | ]; cbv beta iota.
  - destruct e'; reflexivity.
  - destruct (negb (in_connected i)); reflexivity.
  - reflexivity.
  - destruct (init_call (S k) i) as [ c | ] eqn:Hc.
    + exact (proj1 (init_call_no_connect _ _ _ Hc)).
    + unfold listen_loop. rewrite F. cbn [snd].
      destruct (mqtt_auto_discovery cfg), (mqtt_client cfg); reflexivity.
  - reflexivity.
  - unfold listen_loop. rewrite F. reflexivity.
  - destruct how, e'; reflexivity.
  - destruct how as [ | e ]; [ reflexivity | destruct e; reflexivity ].
  - destruct in_try, e'; reflexivity.
  - unfold start_connection. rewrite F. reflexivity.
  - reflexivity.
  - reflexivity.
Qed.

Lemma step_unfold (m : machine) (i : input) :
  (forall e, m_pc m <> Done e) ->
  step m i
  = (fst (resume (m_pc m)
            (fst (fst (run_events (m_cfg m) (m_st m) (in_events i))))
            (snd (fst (run_events (m_cfg m) (m_st m) (in_events i)))) i),
     snd (run_events (m_cfg m) (m_st m) (in_events i))
     ++ snd (resume (m_pc m)
               (fst (fst (run_events (m_cfg m) (m_st m) (in_events i))))
               (snd (fst (run_events (m_cfg m) (m_st m) (in_events i)))) i)).
Proof.
  intros ND. unfold step.
  destruct (m_pc m) as [ | k | | how | in_try | e ] eqn:Hpc;
    [ .. | exfalso; eapply ND; reflexivity ].
  all: destruct (run_events (m_cfg m) (m_st m) (in_events i))
         as [[cfg st] e0]; cbn [fst snd];
    match goal with
    | |- context [resume ?p ?c ?s ?j] => destruct (resume p c s j)
    end; reflexivity.
Qed.

Lemma pc_done_dec (m : machine) :
  (exists e, m_pc m = Done e) \/ (forall e, m_pc m <> Done e).
Proof.
  destruct (m_pc m); try (right; intros ?; discriminate).
  left. eexists. reflexivity.
Qed.

(** X9. Once the broker connection is fatal it stays fatal, and the program
    never again starts a BLE connection: along any continuation of the run,
    whatever the callbacks and the awaited calls do, the flag remains set
    and no connect is issued. *)
Theorem no_connection_after_fatal (ins : list input) :
  forall m : machine,
  mqtt_fatal_error (m_cfg m) = true ->
  mqtt_fatal_error (m_cfg (fst (run m ins))) = true /\
  filter is_connect (snd (run m ins)) = [].
Proof.
  induction ins as [ | i rest IH ]; intros m F; [ split; [ exact F | reflexivity ] | ].
  rewrite run_cons_fst, run_cons_snd.
  destruct (pc_done_dec m) as [[e D] | ND].
  - rewrite (step_done m i e D). cbn [fst snd app]. apply IH. exact F.
  - rewrite (step_unfold m i ND). cbn [fst snd].
    set (cfg := fst (fst (run_events (m_cfg m) (m_st m) (in_events i)))).
    set (st := snd (fst (run_events (m_cfg m) (m_st m) (in_events i)))).
    assert (F1 : mqtt_fatal_error cfg = true)
      by (apply run_events_fatal_sticky; exact F).
    destruct (IH (fst (resume (m_pc m) cfg st i))) as [A B].
    { rewrite resume_cfg. exact F1. }
    split; [ exact A | ].
    rewrite !filter_app, B, (resume_no_connect_when_fatal _ _ _ _ F1).
    rewrite run_events_filter by callback_free. reflexivity.
Qed.

Lemma no_connection_after_fatal_witness :
  mqtt_fatal_error (m_cfg (fst (run fatal_machine calls_return))) = true /\
  filter is_connect (snd (run fatal_machine calls_return)) = [].
Proof.
  apply (no_connection_after_fatal calls_return fatal_machine).
  reflexivity.
Defined.

(** ** Exceptions at the await points *)

Ltac first_step ND :=
  rewrite (step_unfold _ _ ND); cbn [fst snd m_pc m_cfg m_st];
  unfold resume.

Ltac next_step :=
  match goal with
  | |- context [step (mkMachine ?c ?s (Done ?e)) ?i] =>
      rewrite (step_done (mkMachine c s (Done e)) i e eq_refl)
  | |- context [step (mkMachine ?c ?s ?p) ?i] =>
      rewrite (step_unfold (mkMachine c s p) i)
        by (intros ?; cbn [m_pc]; discriminate)
  end;
  cbn [fst snd m_pc m_cfg m_st]; unfold resume.

(** X10. An exception outside the five classes [monitor_device] retries
    (cancellation, a keyboard interrupt, [SystemExit], an [IndexError], ...)
    ends the program from any await: it leaves [monitor_device] at once, or
    after the disconnect when a session is open; the program does not sleep
    and does not connect again. *)
Theorem unhandled_exception_ends_program
    (m : machine) (i1 i2 : input) (e : exn) :
  retryable e = false ->
  (forall x, m_pc m <> Done x) ->
  in_result i1 = Some e -> in_result i2 = None ->
  let r := run m [i1; i2] in
  m_pc (fst r) = Done e /\
  filter is_sleep (snd r) = [] /\
  filter is_connect (snd r) = [] /\
  filter is_disconnect (snd r)
  = (if in_session (m_pc m) then [Disconnect] else []).
Proof.
  intros He ND R1 R2. cbv zeta.
  rewrite run_cons_fst, run_cons_snd, run_one_fst, run_one_snd.
  first_step ND. rewrite R1.
  destruct m as [cfg0 st0 p]. cbn [m_pc m_cfg m_st] in *.
  set (cfg := fst (fst (run_events cfg0 st0 (in_events i1)))).
  set (st := snd (fst (run_events cfg0 st0 (in_events i1)))).
  destruct p as [ | k | | how | in_try | x ];
    [ | | | destruct how | destruct in_try | exfalso; eapply ND; reflexivity ];
    destruct e; try discriminate He;
    cbn [fst snd in_session connection_except supervisor_except negb app];
    next_step; try rewrite R2;
    cbn [fst snd connection_except supervisor_except negb app];
    rewrite ?filter_app, ?run_events_filter by callback_free;
    repeat split; reflexivity.
Qed.

Lemma unhandled_exception_ends_program_witness :
  let r := run (mkMachine cfg_json sensor_state0 Listening)
             [mkInput [] (Some CancelledError) true 0 wall0 5 5;
              resumed [] 6] in
  m_pc (fst r) = Done CancelledError /\
  filter is_sleep (snd r) = [] /\
  filter is_connect (snd r) = [] /\
  filter is_disconnect (snd r) = [Disconnect].
Proof.
  apply (unhandled_exception_ends_program
           (mkMachine cfg_json sensor_state0 Listening)
           (mkInput [] (Some CancelledError) true 0 wall0 5 5)
           (resumed [] 6) CancelledError).
  - reflexivity.
  - intros x. discriminate.
  - reflexivity.
  - reflexivity.
Defined.

Lemma run_event_address (cfg : Config) (st : SensorState) (ev : async_event) :
  device_address (fst (fst (run_event cfg st ev))) = device_address cfg.
Proof.
  destruct ev as [now wall ch data | rc | rc]; cbn [run_event].
  - destruct (notification_handler cfg now wall ch data st) as [[s e] | ex];
      reflexivity.
  - unfold mqtt_on_connect.
    destruct (rc =? 0);
      [ | destruct (mqtt_connection_failed_count cfg + 1
                    >=? mqtt_max_connection_attempts cfg) ]; reflexivity.
  - unfold mqtt_on_disconnect.
    destruct (negb (rc =? 0));
      [ destruct (mqtt_connection_failed_count cfg + 1
                  >=? mqtt_max_connection_attempts cfg) | ]; reflexivity.
Qed.

Lemma run_events_address (evs : list async_event) :
  forall (cfg : Config) (st : SensorState),
  device_address (fst (fst (run_events cfg st evs))) = device_address cfg.
Proof.
  induction evs as [ | ev rest IH ]; intros cfg st; [ reflexivity | ].
  rewrite run_events_cons, IH. apply run_event_address.
Qed.

(** X11. An error of a retried class inside an open session (a handshake
    call or the listening sleep raises it) aborts the session: the
    transport is disconnected, nothing more of the handshake is sent, and,
    provided the broker connection has not become fatal meanwhile, the
    program sleeps the retry delay and then makes one new connection
    attempt to the same address. *)
Theorem session_error_is_retried
    (m : machine) (i1 i2 i3 : input) (e : exn) :
  in_session (m_pc m) = true ->
  retryable e = true ->
  in_result i1 = Some e -> in_result i2 = None -> in_result i3 = None ->
  let r := run m [i1; i2; i3] in
  mqtt_fatal_error (m_cfg (fst r)) = false ->
  m_pc (fst r) = Connecting /\
  filter is_action (snd r)
  = [Disconnect; Sleep retry_delay; Connect (device_address (m_cfg m))] /\
  filter is_handshake_op (snd r) = [].
Proof.
  intros Hs He R1 R2 R3. cbv zeta.
  repeat (rewrite run_one_fst || rewrite run_one_snd
          || rewrite run_cons_fst || rewrite run_cons_snd).
  destruct m as [cfg0 st0 p]. cbn [m_pc m_cfg m_st] in *.
  assert (ND : forall x, p <> Done x)
    by (intros x ->; discriminate Hs).
  rewrite (step_unfold (mkMachine cfg0 st0 p) i1 ND).
  cbn [fst snd m_pc m_cfg m_st]. unfold resume. rewrite R1.
  pose proof (run_events_address (in_events i1) cfg0 st0) as A1.
  set (cfg1 := fst (fst (run_events cfg0 st0 (in_events i1)))) in *.
  set (st1 := snd (fst (run_events cfg0 st0 (in_events i1)))).
  destruct p as [ | k | | how | in_try | x ]; try discriminate Hs;
    cbn [fst snd].
  all: next_step; rewrite R2.
  all: pose proof (run_events_address (in_events i2) cfg1 st1) as A2.
  all: set (cfg2 := fst (fst (run_events cfg1 st1 (in_events i2)))) in *.
  all: set (st2 := snd (fst (run_events cfg1 st1 (in_events i2)))).
  all: destruct e; try discriminate He.
  all: cbn [fst snd connection_except supervisor_except negb app].
  all: next_step; rewrite R3.
  all: pose proof (run_events_address (in_events i3) cfg2 st2) as A3.
  all: set (cfg3 := fst (fst (run_events cfg2 st2 (in_events i3)))) in *.
  all: set (st3 := snd (fst (run_events cfg2 st2 (in_events i3)))).
  all: unfold start_connection.
  all: destruct (mqtt_fatal_error cfg3) eqn:F3;
    cbn [fst snd m_cfg m_pc supervisor_except negb];
    intros F; [ congruence | ].
  all: rewrite ?filter_app, ?run_events_filter by callback_free.
  all: rewrite A3, A2, A1.
  all: repeat split; reflexivity.
Qed.

Lemma session_error_is_retried_witness :
  let r := run (mkMachine cfg_json sensor_state0 (Initializing 4))
             [raises (BleakError "write failed"); resumed [] 6;
              resumed [] 11] in
  m_pc (fst r) = Connecting /\
  filter is_action (snd r)
  = [Disconnect; Sleep retry_delay; Connect (device_address cfg_json)] /\
  filter is_handshake_op (snd r) = [].
Proof.
  apply (session_error_is_retried
           (mkMachine cfg_json sensor_state0 (Initializing 4))
           (raises (BleakError "write failed")) (resumed [] 6)
           (resumed [] 11) (BleakError "write failed"));
    reflexivity.
Defined.

(** X12. A connection attempt that fails is retried after the delay, and
    nothing is disconnected because nothing was connected: when the connect
    raises an error of a retried class, and the broker connection is not
    fatal afterwards, the program sleeps the retry delay and connects
    again. When the connect returns but the client is not connected, the
    program disconnects first and then does the same. *)
Theorem failed_connect_is_retried (m : machine) (i1 i2 i3 : input) (e : exn) :
  m_pc m = Connecting ->
  retryable e = true ->
  in_result i2 = None -> in_result i3 = None ->
  (in_result i1 = Some e ->
   let r := run m [i1; i2] in
   mqtt_fatal_error (m_cfg (fst r)) = false ->
   m_pc (fst r) = Connecting /\
   filter is_action (snd r)
   = [Sleep retry_delay; Connect (device_address (m_cfg m))]) /\
  (in_result i1 = None -> in_connected i1 = false ->
   let r := run m [i1; i2; i3] in
   mqtt_fatal_error (m_cfg (fst r)) = false ->
   m_pc (fst r) = Connecting /\
   filter is_action (snd r)
   = [Disconnect; Sleep retry_delay; Connect (device_address (m_cfg m))]).
Proof.
  intros Hp He R2 R3.
  destruct m as [cfg0 st0 p]. cbn [m_pc m_cfg m_st] in *. subst p.
  pose proof (run_events_address (in_events i1) cfg0 st0) as A1.
  split.
  - intros R1. cbv zeta.
    repeat (rewrite run_one_fst || rewrite run_one_snd
            || rewrite run_cons_fst || rewrite run_cons_snd).
    next_step. rewrite R1.
    set (cfg1 := fst (fst (run_events cfg0 st0 (in_events i1)))) in *.
    set (st1 := snd (fst (run_events cfg0 st0 (in_events i1)))).
    destruct e; try discriminate He;
      cbn [fst snd connection_except supervisor_except negb app];
      next_step; rewrite R2;
      pose proof (run_events_address (in_events i2) cfg1 st1) as A2;
      set (cfg2 := fst (fst (run_events cfg1 st1 (in_events i2)))) in *;
      set (st2 := snd (fst (run_events cfg1 st1 (in_events i2))));
      unfold start_connection;
      (destruct (mqtt_fatal_error cfg2) eqn:F2;
       cbn [fst snd m_cfg m_pc supervisor_except negb];
       intros F; [ congruence | ]);
      rewrite ?filter_app, ?run_events_filter by callback_free;
      rewrite A2, A1; repeat split; reflexivity.
  - intros R1 C1. cbv zeta.
    repeat (rewrite run_one_fst || rewrite run_one_snd
            || rewrite run_cons_fst || rewrite run_cons_snd).
    next_step. rewrite R1, C1.
    set (cfg1 := fst (fst (run_events cfg0 st0 (in_events i1)))) in *.
    set (st1 := snd (fst (run_events cfg0 st0 (in_events i1)))).
    cbn [negb fst snd].
    next_step. rewrite R2.
    pose proof (run_events_address (in_events i2) cfg1 st1) as A2.
    set (cfg2 := fst (fst (run_events cfg1 st1 (in_events i2)))) in *.
    set (st2 := snd (fst (run_events cfg1 st1 (in_events i2)))).
    unfold connection_returned. cbn [fst snd].
    next_step. rewrite R3.
    pose proof (run_events_address (in_events i3) cfg2 st2) as A3.
    set (cfg3 := fst (fst (run_events cfg2 st2 (in_events i3)))) in *.
    set (st3 := snd (fst (run_events cfg2 st2 (in_events i3)))).
    unfold start_connection.
    destruct (mqtt_fatal_error cfg3) eqn:F3;
      cbn [fst snd m_cfg m_pc supervisor_except negb];
      intros F; [ congruence | ].
    rewrite ?filter_app, ?run_events_filter by callback_free.
    rewrite A3, A2, A1. repeat split; reflexivity.
Qed.

Lemma failed_connect_is_retried_witness :
  (let r := run (mkMachine cfg_json sensor_state0 Connecting)
              [raises TimeoutError; resumed [] 11] in
   m_pc (fst r) = Connecting /\
   filter is_action (snd r)
   = [Sleep retry_delay; Connect (device_address cfg_json)]) /\
  (let r := run (mkMachine cfg_json sensor_state0 Connecting)
              [mkInput [] None false 0 wall0 5 5; resumed [] 6;
               resumed [] 11] in
   m_pc (fst r) = Connecting /\
   filter is_action (snd r)
   = [Disconnect; Sleep retry_delay; Connect (device_address cfg_json)]).
Proof.
  split.
  - apply (proj1 (failed_connect_is_retried
                    (mkMachine cfg_json sensor_state0 Connecting)
                    (raises TimeoutError) (resumed [] 11) (resumed [] 11)
                    TimeoutError eq_refl eq_refl eq_refl eq_refl));
      reflexivity.
  - apply (proj2 (failed_connect_is_retried
                    (mkMachine cfg_json sensor_state0 Connecting)
                    (mkInput [] None false 0 wall0 5 5) (resumed [] 6)
                    (resumed [] 11) TimeoutError
                    eq_refl eq_refl eq_refl eq_refl));
      reflexivity.
Defined.

(** ** Sessions *)

Lemma step_in_session (m : machine) (i : input) :
  in_session (m_pc m) = true ->
  in_session (m_pc (fst (step m i))) = true \/
  In Disconnect (snd (step m i)).
Proof.
  intros Hs.
  assert (ND : forall x, m_pc m <> Done x)
    by (intros x E; rewrite E in Hs; discriminate Hs).
  rewrite (step_unfold m i ND). cbn [fst snd].
  set (cfg := fst (fst (run_events (m_cfg m) (m_st m) (in_events i)))).
  set (st := snd (fst (run_events (m_cfg m) (m_st m) (in_events i)))).
  assert (L : forall s t,
             in_session (m_pc (fst (listen_loop cfg s t))) = true \/
             In Disconnect (snd (listen_loop cfg s t))).
  { intros s t. unfold listen_loop.
    destruct (mqtt_fatal_error cfg); [ right; cbn; auto | ].
    destruct (last_data_time s); [ | left; reflexivity ].
    destruct (negb (Qle_bool (t - q) (inject_Z (response_timeout cfg))));
      [ right; cbn; auto | left; reflexivity ]. }
  destruct (m_pc m) as [ | k | | how | in_try | x ]; try discriminate Hs;
    unfold resume; destruct (in_result i) as [ e | ]; cbv beta iota.
  - right. apply in_or_app. right. cbn. auto.
  - destruct (init_call (S k) i); [ left; reflexivity | ].
    destruct (L (set_last_data_time st (Some (in_time i))) (in_time2 i))
      as [H | H];
      destruct (listen_loop cfg (set_last_data_time st (Some (in_time i)))
                  (in_time2 i)) as [m1 e2]; cbn [fst snd] in *.
    + left. exact H.
    + right. apply in_or_app. right.
      apply in_or_app. right. apply in_or_app. right.
      apply in_or_app. right. exact H.
  - right. apply in_or_app. right. cbn. auto.
  - destruct (L st (in_time i)) as [H | H]; [ left; exact H | ].
    right. apply in_or_app. right. exact H.
Qed.

(** X13. No session is left without releasing the transport: if the
    program is inside a session and the run takes it out of the session
    (into the retry sleep, into a new attempt, or to its end), a disconnect
    was issued on the way, whatever made the session end. *)
Theorem session_exit_disconnects (ins : list input) :
  forall m : machine,
  in_session (m_pc m) = true ->
  in_session (m_pc (fst (run m ins))) = false ->
  In Disconnect (snd (run m ins)).
Proof.
  induction ins as [ | i rest IH ]; intros m Hs Hf.
  - cbn [run fst] in Hf. congruence.
  - rewrite run_cons_fst in Hf. rewrite run_cons_snd.
    apply in_or_app.
    destruct (step_in_session m i Hs) as [H | H].
    + right. apply IH; assumption.
    + left. exact H.
Qed.

Lemma session_exit_disconnects_witness :
  In Disconnect
    (snd (run (mkMachine cfg_json sensor_state0 (Initializing 2))
            [resumed [] 1; raises OSError; resumed [] 6])).
Proof.
  apply (session_exit_disconnects
           [resumed [] 1; raises OSError; resumed [] 6]
           (mkMachine cfg_json sensor_state0 (Initializing 2)));
    reflexivity.
Defined.

(** X14. Any frame keeps the session alive: when a notification arrives
    during the listening sleep, on whatever channel and with whatever
    bytes, the next poll measures the silence from its arrival time. The
    session goes on listening if at most [response_timeout] seconds have
    passed since then (the comparison is strict: exactly [response_timeout]
    is not a timeout) and is closed otherwise. *)
Theorem any_frame_keeps_session_alive
    (m : machine) (i : input) (now : Q) (wall : datetime) (ch : Channel)
    (data : bytes) :
  m_pc m = Listening ->
  mqtt_fatal_error (m_cfg m) = false ->
  in_events i = [Notify now wall ch data] ->
  in_result i = None ->
  last_data_time (m_st (fst (step m i))) = Some now /\
  m_pc (fst (step m i))
  = (if Qle_bool (in_time i - now) (inject_Z (response_timeout (m_cfg m)))
     then Listening else Closing Returned).
Proof.
  intros Hp Hf He Hr.
  rewrite (step_unfold m i) by (intros x E; rewrite E in Hp; discriminate Hp).
  rewrite Hp, He. cbn [fst run_events run_event].
  destruct (handler_returns (m_cfg m) now wall ch data (m_st m))
    as [s [e [H _]]].
  rewrite H. cbn [fst snd]. pose proof (handler_clock _ _ _ _ _ _ _ _ H) as C.
  unfold resume. rewrite Hr. unfold listen_loop. rewrite Hf, C.
  destruct (Qle_bool (in_time i - now)
              (inject_Z (response_timeout (m_cfg m))));
    cbn [negb fst m_st m_pc]; split; try reflexivity; exact C.
Qed.

Lemma any_frame_keeps_session_alive_witness :
  let m := mkMachine cfg_json (mkSensorState 0 (Some 0%Q)) Listening in
  let i := resumed [Notify 1000 wall0 ch_other [xff]] 1300 in
  last_data_time (m_st (fst (step m i))) = Some 1000%Q /\
  m_pc (fst (step m i))
  = (if Qle_bool (in_time i - 1000)
          (inject_Z (response_timeout (m_cfg m)))
     then Listening else Closing Returned).
Proof.
  apply (any_frame_keeps_session_alive
           (mkMachine cfg_json (mkSensorState 0 (Some 0%Q)) Listening)
           (resumed [Notify 1000 wall0 ch_other [xff]] 1300)
           1000%Q wall0 ch_other [xff]); reflexivity.
Defined.

Lemma step_remaining (m : machine) (i : input) :
  mqtt_fatal_error (m_cfg m) = true ->
  in_result i = None ->
  (forall x, m_pc m <> Done x) ->
  (remaining (m_pc (fst (step m i))) < remaining (m_pc m))%nat.
Proof.
  intros F R ND. rewrite (step_unfold m i ND). cbn [fst].
  assert (F1 : mqtt_fatal_error
                 (fst (fst (run_events (m_cfg m) (m_st m) (in_events i))))
               = true) by (apply run_events_fatal_sticky; exact F).
  set (cfg := fst (fst (run_events (m_cfg m) (m_st m) (in_events i)))) in *.
  set (st := snd (fst (run_events (m_cfg m) (m_st m) (in_events i)))).
  destruct (m_pc m) as [ | k | | how | in_try | x ];
    unfold resume; try rewrite R; cbv beta iota.
  - destruct (negb (in_connected i)); cbn; lia.
  - do 7 (destruct k as [ | k ];
          [ cbn [init_call];
            try destruct (build_auth_key (in_rand i));
            try destruct (build_time_sync (in_wall i));
            try (cbn; lia);
            unfold listen_loop; rewrite F1; cbn; lia | ]).
    cbn [init_call]. unfold listen_loop. rewrite F1. cbn. lia.
  - unfold listen_loop. rewrite F1. cbn. lia.
  - destruct how as [ | e ]; [ cbn; lia | destruct e; cbn; lia ].
  - unfold start_connection. rewrite F1. cbn. lia.
  - exfalso. eapply ND. reflexivity.
Qed.

(** X15. Once the broker connection is fatal the program ends: if every
    awaited call returns, it raises out of [monitor_device] within ten
    resumptions (it still completes a connect and handshake in progress,
    polls once, disconnects and sleeps the retry delay before it does). *)
Theorem fatal_program_ends (ins : list input) :
  forall m : machine,
  mqtt_fatal_error (m_cfg m) = true ->
  Forall (fun i => in_result i = None) ins ->
  (remaining (m_pc m) <= List.length ins)%nat ->
  exists e, m_pc (fst (run m ins)) = Done e.
Proof.
  induction ins as [ | i rest IH ]; intros m F HF L.
  - destruct (m_pc m) as [ | k | | how | in_try | x ] eqn:Hp;
      cbn in L; try lia.
    + exists x. exact Hp.
  - rewrite run_cons_fst.
    apply Forall_cons_iff in HF as [R HF].
    destruct (pc_done_dec m) as [[e D] | ND].
    + rewrite (step_done m i e D). cbn [fst].
      rewrite (run_done rest m e D). exists e. exact D.
    + pose proof (step_remaining m i F R ND) as S.
      apply IH.
      * rewrite (step_unfold m i ND). cbn [fst]. rewrite resume_cfg.
        apply run_events_fatal_sticky. exact F.
      * exact HF.
      * cbn [List.length] in L. lia.
Qed.

Lemma fatal_program_ends_witness :
  exists e, m_pc (fst (run fatal_machine calls_return)) = Done e.
Proof.
  apply (fatal_program_ends calls_return fatal_machine).
  - reflexivity.
  - repeat constructor.
  - cbn. lia.
Defined.

(** ** The handshake packets *)

Lemma time_sync_byte (z : Z) :
  0 <= z <= 255 -> Z_of_byte (byte_of_Z (Z.land z 255)) = z.
Proof. intros H. rewrite land_255_small, byte_of_Z_inv by lia. reflexivity. Qed.

Lemma years_since_2000_range (d : datetime) : 0 <= years_since_2000 d <= 255.
Proof.
  unfold years_since_2000.
  destruct (Z.leb_spec 0 (dt_year d - 2000));
    destruct (Z.leb_spec (dt_year d - 2000) 255); cbn [andb]; lia.
Qed.

Lemma build_time_sync_bytes (d : datetime) :
  fst (build_time_sync d)
  = [byte_of_Z (Z.land (years_since_2000 d) 255);
     byte_of_Z (Z.land (dt_month d) 255);
     byte_of_Z (Z.land (dt_day d) 255);
     byte_of_Z (Z.land (dt_hour d) 255);
     byte_of_Z (Z.land (dt_minute d) 255);
     byte_of_Z (Z.land (dt_second d) 255);
     x00; x06; x40; x00; x1e].
Proof.
  unfold build_time_sync, years_since_2000. cbn [fst app].
  rewrite negb_if. reflexivity.
Qed.

(** X16. The time-synchronisation packet reads back as the time it was
    built from: its first six bytes decode, with the DATA header decoder and
    (behind a flag byte and before a mode byte) with the META decoder, to
    the month, day, hour, minute and second of the clock and to the year
    2000 + offset, which is the clock's year when that lies in 2000..2255
    and is 2000 otherwise. The packet is 11 bytes long. *)
Theorem time_sync_reads_back (now : datetime) (mode : byte) :
  valid_datetime now ->
  let pkt := fst (build_time_sync now) in
  let year := if (2000 <=? dt_year now) && (dt_year now <=? 2255)
              then dt_year now else 2000 in
  List.length pkt = 11%nat /\
  decode_header_datetime (slice pkt 0 6)
  = Ret (Some (mkHeader (year - 2000) year (dt_month now) (dt_day now)
                 (dt_hour now) (dt_minute now) (dt_second now))) /\
  decode_meta_time_mode (x01 :: slice pkt 0 6 ++ [mode])
  = Ret (Some (mkMetaFrame 1 year (dt_month now) (dt_day now)
                 (dt_hour now) (dt_minute now) (dt_second now)
                 (Z_of_byte mode))).
Proof.
  intros [Hy [Hm [Hd [Hh [Hmi Hs]]]]]. cbv zeta.
  rewrite build_time_sync_bytes.
  pose proof (years_since_2000_range now) as Y.
  assert (E : (if (2000 <=? dt_year now) && (dt_year now <=? 2255)
               then dt_year now else 2000) = 2000 + years_since_2000 now).
  { unfold years_since_2000.
    destruct (Z.leb_spec 2000 (dt_year now));
      destruct (Z.leb_spec (dt_year now) 2255);
      destruct (Z.leb_spec 0 (dt_year now - 2000));
      destruct (Z.leb_spec (dt_year now - 2000) 255); cbn [andb]; lia. }
  rewrite E.
  replace (2000 + years_since_2000 now - 2000) with (years_since_2000 now)
    by lia.
  split; [ reflexivity | ].
  unfold decode_header_datetime, decode_meta_time_mode, slice, getitem.
  cbn [skipn firstn app Nat.sub len List.length nth_error bind].
  rewrite !time_sync_byte by lia.
  split; reflexivity.
Qed.

Lemma time_sync_reads_back_witness :
  let pkt := fst (build_time_sync wall0) in
  let year := if (2000 <=? dt_year wall0) && (dt_year wall0 <=? 2255)
              then dt_year wall0 else 2000 in
  List.length pkt = 11%nat /\
  decode_header_datetime (slice pkt 0 6)
  = Ret (Some (mkHeader (year - 2000) year (dt_month wall0) (dt_day wall0)
                 (dt_hour wall0) (dt_minute wall0) (dt_second wall0))) /\
  decode_meta_time_mode (x01 :: slice pkt 0 6 ++ [x02])
  = Ret (Some (mkMetaFrame 1 year (dt_month wall0) (dt_day wall0)
                 (dt_hour wall0) (dt_minute wall0) (dt_second wall0)
                 (Z_of_byte x02))).
Proof.
  apply (time_sync_reads_back wall0 x02).
  unfold valid_datetime. cbn. lia.
Defined.

Lemma ascii_digit_value (d : Z) :
  0 <= d <= 9 -> Z_of_byte (ascii_digit d) = 48 + d.
Proof. intros H. unfold ascii_digit. apply byte_of_Z_inv. lia. Qed.

(** X17. The authentication packet determines the nonce: for nonces in
    0..999999 the packet is 18 bytes long, its bytes 2..7 are ASCII digits
    ('0'..'9') whose decimal value is the nonce, and two different nonces
    give two different packets. *)
Theorem auth_key_determines_nonce (n1 n2 : Z) :
  0 <= n1 <= 999999 -> 0 <= n2 <= 999999 ->
  List.length (fst (build_auth_key n1)) = 18%nat /\
  Forall (fun b => 48 <= Z_of_byte b <= 57)
    (slice (fst (build_auth_key n1)) 2 8) /\
  fold_left (fun acc b => 10 * acc + (Z_of_byte b - 48))
    (slice (fst (build_auth_key n1)) 2 8) 0 = n1 /\
  (fst (build_auth_key n1) = fst (build_auth_key n2) -> n1 = n2).
Proof.
  intros H1 H2.
  destruct (build_auth_key_layout n1 H1)
    as [a1 [a2 [a3 [a4 [a5 [a6 [Ha [Hn Hk]]]]]]]].
  destruct (build_auth_key_layout n2 H2)
    as [b1 [b2 [b3 [b4 [b5 [b6 [Hb [Hm Hl]]]]]]]].
  rewrite Hk, Hl.
  split; [ reflexivity | ].
  unfold slice. cbn [skipn firstn Nat.sub fold_left].
  split.
  { repeat constructor; rewrite ascii_digit_value by lia; lia. }
  split.
  { rewrite !ascii_digit_value by lia. lia. }
  intros E. injection E as E1 E2 E3 E4 E5 E6.
  apply (f_equal Z_of_byte) in E1, E2, E3, E4, E5, E6.
  rewrite !ascii_digit_value in * by lia. lia.
Qed.

Lemma auth_key_determines_nonce_witness :
  List.length (fst (build_auth_key 42)) = 18%nat /\
  Forall (fun b => 48 <= Z_of_byte b <= 57)
    (slice (fst (build_auth_key 42)) 2 8) /\
  fold_left (fun acc b => 10 * acc + (Z_of_byte b - 48))
    (slice (fst (build_auth_key 42)) 2 8) 0 = 42 /\
  (fst (build_auth_key 42) = fst (build_auth_key 999999) -> 42 = 999999).
Proof. apply (auth_key_determines_nonce 42 999999); lia. Defined.

(** ** The hex dump *)

Lemma Z_of_byte_inj (a b : byte) : Z_of_byte a = Z_of_byte b -> a = b.
Proof.
  unfold Z_of_byte. intros H. apply N2Z.inj in H.
  pose proof (Byte.of_to_N a) as A. pose proof (Byte.of_to_N b) as B.
  rewrite H in A. congruence.
Qed.

Lemma hex_value_digit (n : Z) : 0 <= n < 16 -> hex_value (hex_digit n) = n.
Proof.
  intros H. unfold hex_value, hex_digit.
  rewrite nat_ascii_embedding by (destruct (n <? 10); lia).
  rewrite Z2Nat.id by (destruct (n <? 10); lia).
  destruct (Z.ltb_spec n 10) as [L | L].
  - destruct (Z.ltb_spec (48 + n) 58); lia.
  - destruct (Z.ltb_spec (87 + n) 58); lia.
Qed.

Lemma hex_digit_inj (n m : Z) :
  0 <= n < 16 -> 0 <= m < 16 -> hex_digit n = hex_digit m -> n = m.
Proof.
  intros Hn Hm E. apply (f_equal hex_value) in E.
  rewrite !hex_value_digit in E by assumption. exact E.
Qed.

Lemma format_02x_inj (a b : byte) :
  format_02x (Z_of_byte a) = format_02x (Z_of_byte b) -> a = b.
Proof.
  unfold format_02x. intros E. injection E as E1 E2.
  pose proof (Z_of_byte_range a). pose proof (Z_of_byte_range b).
  apply hex_digit_inj in E1; [ | Z.div_mod_to_equations; lia .. ].
  apply hex_digit_inj in E2; [ | Z.div_mod_to_equations; lia .. ].
  apply Z_of_byte_inj. Z.div_mod_to_equations. lia.
Qed.

Lemma hex_str_cons (x y : byte) (r : bytes) :
  hex_str (x :: y :: r)
  = String (hex_digit (Z_of_byte x / 16))
      (String (hex_digit (Z_of_byte x mod 16))
         (String " " (hex_str (y :: r)))).
Proof. reflexivity. Qed.

Lemma hex_str_one (x : byte) :
  hex_str [x]
  = String (hex_digit (Z_of_byte x / 16))
      (String (hex_digit (Z_of_byte x mod 16)) EmptyString).
Proof. reflexivity. Qed.

(** X18. The hex dump used in the log identifies the bytes: it is empty for
    no bytes and otherwise 3n - 1 characters long (two digits per byte, one
    space between bytes), and two different byte strings never have the
    same dump. *)
Theorem hex_str_faithful (a : bytes) :
  String.length (hex_str a) = (3 * List.length a - 1)%nat /\
  forall b : bytes, hex_str a = hex_str b -> a = b.
Proof.
  split.
  - induction a as [ | x [ | y r ] IH ]; [ reflexivity | reflexivity | ].
    rewrite hex_str_cons. cbn [String.length]. rewrite IH.
    cbn [List.length]. lia.
  - induction a as [ | x [ | y r ] IH ]; intros b E.
    + destruct b as [ | x' [ | y' r' ] ]; [ reflexivity | .. ];
        discriminate E.
    + destruct b as [ | x' [ | y' r' ] ]; [ discriminate E | | ].
      * apply format_02x_inj in E. congruence.
      * rewrite hex_str_one, hex_str_cons in E. discriminate E.
    + destruct b as [ | x' [ | y' r' ] ]; [ discriminate E | | ].
      * rewrite hex_str_one, hex_str_cons in E. discriminate E.
      * rewrite !hex_str_cons in E. injection E as E1 E2 E3.
        assert (X : x = x').
        { apply format_02x_inj. unfold format_02x. congruence. }
        rewrite (IH _ E3). congruence.
Qed.

(** ** Home Assistant discovery *)

Lemma append_inv_head (s a b : string) :
  (s ++ a)%string = (s ++ b)%string -> a = b.
Proof.
  induction s as [ | c s IH ]; cbn [String.append]; intros E;
    [ exact E | ].
  injection E as E. apply IH. exact E.
Qed.

Lemma list_ascii_of_append (a b : string) :
  list_ascii_of_string (a ++ b)
  = list_ascii_of_string a ++ list_ascii_of_string b.
Proof.
  induction a as [ | c a IH ]; cbn [String.append list_ascii_of_string app];
    [ reflexivity | ].
  rewrite IH. reflexivity.
Qed.

Lemma append_inv_tail (s a b : string) :
  (a ++ s)%string = (b ++ s)%string -> a = b.
Proof.
  intros E. apply (f_equal list_ascii_of_string) in E.
  rewrite !list_ascii_of_append in E. apply app_inv_tail in E.
  apply (f_equal string_of_list_ascii) in E.
  rewrite !string_of_list_ascii_of_string in E. exact E.
Qed.

Lemma NoDup_map_injective {A B : Type} (f : A -> B) (l : list A) :
  (forall a b, f a = f b -> a = b) -> NoDup l -> NoDup (map f l).
Proof.
  intros Inj. induction 1 as [ | x l Hx Hl IH ]; cbn [map]; constructor.
  - intros Hin. apply in_map_iff in Hin as [y [E Hy]].
    apply Inj in E. subst y. contradiction.
  - exact IH.
Qed.

(** X19. The discovery messages agree with what is published afterwards:
    with a client and discovery enabled there are five of them, all
    retained, with pairwise different topics and unique ids; each announces
    as state topic exactly the topic [publish_mqtt] publishes the readings
    of that device to, and as value template a key that the state payload
    has. *)
Theorem discovery_matches_state (cfg : Config) (mac : string) :
  mqtt_client cfg = true -> mqtt_auto_discovery cfg = true ->
  let msgs := publish_home_assistant_discovery cfg mac in
  List.length msgs = 5%nat /\
  Forall
    (fun m =>
       snd m = true /\
       (forall data, exists rest,
          publish_mqtt cfg data mac
          = MqttPublish (c_state_topic (snd (fst m))) data :: rest) /\
       (exists key,
          c_value_template (snd (fst m))
          = ("{{ value_json." ++ key ++ " }}")%string /\
          In key state_payload_keys))
    msgs /\
  NoDup (map (fun m => c_unique_id (snd (fst m))) msgs) /\
  NoDup (map (fun m => fst (fst m)) msgs).
Proof.
  intros Hc Ha. unfold publish_home_assistant_discovery.
  rewrite Hc, Ha. cbn [negb orb]. cbv zeta.
  set (id := lower (remove_colons mac)).
  split; [ reflexivity | ].
  split.
  { unfold sensors.
    repeat (apply Forall_cons || apply Forall_nil);
      (split; [ reflexivity | ]);
      (split;
       [ intros data; unfold publish_mqtt; rewrite Hc; cbn [negb];
         eexists; reflexivity
       | eexists; split; [ reflexivity | cbn; tauto ] ]). }
  assert (K : NoDup (map (fun k => (id ++ "_" ++ k)%string)
                       (map s_key sensors))).
  { apply NoDup_map_injective.
    - intros a b E. apply append_inv_head in E. injection E as E. exact E.
    - unfold sensors. cbn [map s_key].
      repeat constructor; cbn [In]; intros H;
        repeat (destruct H as [H | H]; [ discriminate H | ]); exact H. }
  split.
  - change (NoDup (map (fun s => ("vson_" ++ s)%string)
                     (map (fun k => (id ++ "_" ++ k)%string)
                        (map s_key sensors)))).
    apply NoDup_map_injective; [ | exact K ].
    intros a b E. apply append_inv_head in E. exact E.
  - change (NoDup (map (fun s => ("homeassistant/sensor/vson_"
                                  ++ s ++ "/config")%string)
                     (map (fun k => (id ++ "_" ++ k)%string)
                        (map s_key sensors)))).
    apply NoDup_map_injective; [ | exact K ].
    intros a b E. apply append_inv_head in E.
    apply append_inv_tail in E. exact E.
Qed.

Lemma discovery_matches_state_witness :
  let cfg := mkConfig "20:C3:8F:DA:96:DE" text false true
               "homeassistant/sensor/vson" true true 0 5 false 300 in
  let msgs := publish_home_assistant_discovery cfg "20:C3:8F:DA:96:DE" in
  List.length msgs = 5%nat /\
  Forall
    (fun m =>
       snd m = true /\
       (forall data, exists rest,
          publish_mqtt cfg data "20:C3:8F:DA:96:DE"
          = MqttPublish (c_state_topic (snd (fst m))) data :: rest) /\
       (exists key,
          c_value_template (snd (fst m))
          = ("{{ value_json." ++ key ++ " }}")%string /\
          In key state_payload_keys))
    msgs /\
  NoDup (map (fun m => c_unique_id (snd (fst m))) msgs) /\
  NoDup (map (fun m => fst (fst m)) msgs).
Proof.
  apply (discovery_matches_state
           (mkConfig "20:C3:8F:DA:96:DE" text false true
              "homeassistant/sensor/vson" true true 0 5 false 300)
           "20:C3:8F:DA:96:DE"); reflexivity.
Defined.

Lemma hex_str_faithful_witness :
  String.length (hex_str [x00; x06; x40; x00; x1e]) = 14%nat /\
  (hex_str [x00; x06; x40; x00; x1e] = hex_str [x00; x06; x40; x00; x1e] ->
   [x00; x06; x40; x00; x1e] = [x00; x06; x40; x00; x1e]).
Proof.
  destruct (hex_str_faithful [x00; x06; x40; x00; x1e]) as [A B].
  split; [ exact A | apply B ].
Defined.

(** ** From the frame to the output *)

(** The fields of a decoded DATA frame in terms of the bytes received. *)
Lemma decode_data_frame_fields (data : bytes) (d : DataFrame) :
  decode_data_frame data = Ret (Some d) ->
  pm25 d = little_endian_u16 data 6 /\
  pm1 d = little_endian_u16 data 8 /\
  pm10 d = little_endian_u16 data 10 /\
  flag d = Z_of_byte (nth 19 data x00) /\
  (flag_meaning d = current <-> Z_of_byte (nth 19 data x00) = 1) /\
  header d
  = Some (mkHeader (Z_of_byte (nth 0 data x00))
            (2000 + Z_of_byte (nth 0 data x00))
            (Z_of_byte (nth 1 data x00)) (Z_of_byte (nth 2 data x00))
            (Z_of_byte (nth 3 data x00)) (Z_of_byte (nth 4 data x00))
            (Z_of_byte (nth 5 data x00))).
Proof.
  intros H. pose proof (decode_data_frame_some data d H) as L.
  explode_bytes data L.
  rewrite decode_data_frame_20 in H.
  apply (f_equal (fun r => match r with Ret (Some x) => x | _ => d end)) in H.
  cbv beta iota zeta in H. subst d.
  unfold little_endian_u16.
  cbn [pm25 pm1 pm10 flag flag_meaning header nth Nat.add].
  rewrite !u16_bytes.
  repeat (split; [ reflexivity | ]).
  split; [ | reflexivity ].
  destruct (Z.eqb_spec (Z_of_byte b18) 1); split; congruence.
Qed.

(** X20. What is emitted is what the frame says: a JSON line printed for a
    DATA frame carries the little-endian pm2.5, pm1 and pm10 of the frame,
    the stored battery value and the device timestamp of the frame (year
    2000 + byte 0); an MQTT state message carries the same PM values and
    battery, the record's current/history mark, the host's clock (not the
    device timestamp), and goes to the topic
    <mqtt_topic>/<address without colons, lower-cased>/state. *)
Theorem emitted_reading_matches_frame
    (cfg : Config) (now : Q) (wall : datetime) (ch : Channel) (data : bytes)
    (st st' : SensorState) (effs : list effect) :
  notification_handler cfg now wall ch data st = Ret (st', effs) ->
  (forall j, In (Print j) effs ->
     j_pm25 j = little_endian_u16 data 6 /\
     j_pm1 j = little_endian_u16 data 8 /\
     j_pm10 j = little_endian_u16 data 10 /\
     j_battery j = latest_battery st /\
     j_timestamp j
     = Some (mkHeader (Z_of_byte (nth 0 data x00))
               (2000 + Z_of_byte (nth 0 data x00))
               (Z_of_byte (nth 1 data x00)) (Z_of_byte (nth 2 data x00))
               (Z_of_byte (nth 3 data x00)) (Z_of_byte (nth 4 data x00))
               (Z_of_byte (nth 5 data x00)))) /\
  (forall t p, In (MqttPublish t p) effs ->
     q_pm25 p = little_endian_u16 data 6 /\
     q_pm1 p = little_endian_u16 data 8 /\
     q_pm10 p = little_endian_u16 data 10 /\
     q_battery p = latest_battery st /\
     q_timestamp p = wall /\
     (q_flag_meaning p = current <-> Z_of_byte (nth 19 data x00) = 1) /\
     t = (mqtt_topic cfg ++ "/"
          ++ lower (remove_colons (device_address cfg)) ++ "/state")%string).
Proof.
  handler_paths ch data cfg
    ltac:(split; intros; cbn [In app] in *;
          repeat match goal with
                 | H : _ \/ _ |- _ => destruct H
                 | H : False |- _ => destruct H
                 end;
          try discriminate).
  all: destruct (decode_data_frame_fields data d Hd)
         as [F1 [F2 [F3 [F4 [F5 F6]]]]].
  all: match goal with
       | H : Print _ = Print _ |- _ => injection H as <-
       | H : MqttPublish _ _ = MqttPublish _ _ |- _ => injection H as <- <-
       end.
  all: cbn [j_pm25 j_pm1 j_pm10 j_battery j_timestamp q_pm25 q_pm1 q_pm10
            q_battery q_timestamp q_flag_meaning latest_battery
            set_last_data_time].
  all: repeat (split; [ assumption || reflexivity | ]);
    assumption || reflexivity.
Qed.

Lemma emitted_reading_matches_frame_witness :
  j_pm25 reading42 = little_endian_u16 (sample_data x01) 6 /\
  j_pm1 reading42 = little_endian_u16 (sample_data x01) 8 /\
  j_pm10 reading42 = little_endian_u16 (sample_data x01) 10 /\
  j_battery reading42 = 42 /\
  j_timestamp reading42
  = Some (mkHeader (Z_of_byte (nth 0 (sample_data x01) x00))
            (2000 + Z_of_byte (nth 0 (sample_data x01) x00))
            (Z_of_byte (nth 1 (sample_data x01) x00))
            (Z_of_byte (nth 2 (sample_data x01) x00))
            (Z_of_byte (nth 3 (sample_data x01) x00))
            (Z_of_byte (nth 4 (sample_data x01) x00))
            (Z_of_byte (nth 5 (sample_data x01) x00))).
Proof.
  destruct (emitted_reading_matches_frame cfg_json 407 wall0 ch_data
              (sample_data x01) (mkSensorState 42 None)
              (mkSensorState 42 (Some 407%Q))
              [Log DEBUG (MsgNotification 54 UUID_DATA (sample_data x01));
               Print reading42]) as [A _].
  - vm_compute. reflexivity.
  - apply (A reading42). right. left. reflexivity.
Defined.

(** ** The silence check *)

Lemma run_events_clock_set (evs : list async_event) :
  forall (cfg : Config) (st : SensorState),
  last_data_time st <> None ->
  last_data_time (snd (fst (run_events cfg st evs))) <> None.
Proof.
  induction evs as [ | ev rest IH ]; intros cfg st H; [ exact H | ].
  rewrite run_events_cons. apply IH. rewrite run_event_clock.
  destruct ev; cbn [last_notify_time fold_left]; [ discriminate | exact H .. ].
Qed.

Lemma listen_loop_state (cfg : Config) (st : SensorState) (t : Q) :
  m_st (fst (listen_loop cfg st t)) = st.
Proof. apply listen_loop_quiet. Qed.

Lemma step_keeps_clock_set (m : machine) (i : input) :
  (m_pc m = Listening -> last_data_time (m_st m) <> None) ->
  m_pc (fst (step m i)) = Listening ->
  last_data_time (m_st (fst (step m i))) <> None.
Proof.
  intros I.
  destruct (pc_done_dec m) as [[e D] | ND].
  - rewrite (step_done m i e D). cbn [fst]. exact I.
  - rewrite (step_unfold m i ND). cbn [fst].
    pose proof (run_events_clock_set (in_events i) (m_cfg m) (m_st m)) as C.
    set (cfg := fst (fst (run_events (m_cfg m) (m_st m) (in_events i)))).
    set (st := snd (fst (run_events (m_cfg m) (m_st m) (in_events i)))) in *.
    destruct (m_pc m) as [ | k | | how | in_try | x ]; unfold resume;
      destruct (in_result i) as [ e | ]; cbv beta iota.
    + destruct e; cbn; discriminate.
    + destruct (negb (in_connected i)); cbn; discriminate.
    + cbn. discriminate.
    + destruct (init_call (S k) i); [ cbn; discriminate | ].
      pose proof (listen_loop_state cfg
                    (set_last_data_time st (Some (in_time i))) (in_time2 i))
        as S.
      destruct (listen_loop cfg (set_last_data_time st (Some (in_time i)))
                  (in_time2 i)) as [m1 e2].
      cbn [fst] in *. rewrite S. cbn. discriminate.
    + cbn. discriminate.
    + rewrite listen_loop_state. intros _. apply C. apply I. reflexivity.
    + destruct how, e; cbn; discriminate.
    + destruct how as [ | e ]; [ cbn; discriminate | ].
      destruct e; cbn; discriminate.
    + destruct in_try, e; cbn; discriminate.
    + unfold start_connection. destruct (mqtt_fatal_error cfg); cbn;
        discriminate.
    + cbn. discriminate.
    + cbn. discriminate.
Qed.

(** X21. The silence check is never skipped: whenever the program, started
    by [monitor_device] from any state of the globals, is in the listening
    sleep, [last_data_time] is set, so the guard [last_data_time is not
    None] of the polling loop holds at every poll. *)
Theorem silence_check_always_armed
    (cfg : Config) (st : SensorState) (ins : list input) :
  let m := fst (run (fst (monitor_device cfg st)) ins) in
  m_pc m = Listening -> last_data_time (m_st m) <> None.
Proof.
  cbv zeta.
  assert (G : forall (l : list input) (m : machine),
             (m_pc m = Listening -> last_data_time (m_st m) <> None) ->
             m_pc (fst (run m l)) = Listening ->
             last_data_time (m_st (fst (run m l))) <> None).
  { induction l as [ | i rest IH ]; intros m I; [ exact I | ].
    rewrite run_cons_fst. apply IH. apply step_keeps_clock_set. exact I. }
  apply G. unfold monitor_device, start_connection.
  destruct (mqtt_fatal_error cfg); cbn; discriminate.
Qed.

Lemma silence_check_always_armed_witness :
  last_data_time
    (m_st (fst (run (fst (monitor_device cfg_json sensor_state0))
                  (repeat (resumed [] 0) 8)))) <> None.
Proof.
  apply (silence_check_always_armed cfg_json sensor_state0
           (repeat (resumed [] 0) 8)).
  reflexivity.
Defined.

(** ** Validated arguments *)

Lemma match_groups_inv (n : nat) (l r : list ascii) :
  match_groups (S n) l = Some r ->
  exists a b c rest,
    l = a :: b :: c :: rest /\
    is_hex_char a = true /\ is_hex_char b = true /\
    is_mac_separator c = true /\ match_groups n rest = Some r.
Proof.
  cbn [match_groups].
  destruct l as [ | a [ | b [ | c rest ] ] ]; try discriminate.
  destruct (is_hex_char a) eqn:Ha; [ | discriminate ].
  destruct (is_hex_char b) eqn:Hb; [ | discriminate ].
  destruct (is_mac_separator c) eqn:Hc; [ | discriminate ].
  cbn [andb]. intros H. exists a, b, c, rest. repeat split; assumption.
Qed.

Lemma hex_char_facts (a : ascii) :
  is_hex_char a = true ->
  Ascii.eqb a ":" = false /\ Ascii.eqb (lower_ascii a) "-" = false /\
  Ascii.eqb (lower_ascii a) "010" = false /\
  is_lower_hex (lower_ascii a) = true.
Proof.
  destruct a as [[] [] [] [] [] [] [] []]; intros H;
    first [ discriminate H | repeat split; reflexivity ].
Qed.

Lemma mac_separator_cases (c : ascii) :
  is_mac_separator c = true -> c = ":"%char \/ c = "-"%char.
Proof.
  unfold is_mac_separator. intros H. apply orb_prop in H as [H | H];
    apply Ascii.eqb_eq in H; auto.
Qed.

Lemma mac_pattern_shape (s : string) :
  mac_pattern_match s = true ->
  exists a1 b1 c1 a2 b2 c2 a3 b3 c3 a4 b4 c4 a5 b5 c5 a6 b6 tail,
    list_ascii_of_string s
    = [a1; b1; c1; a2; b2; c2; a3; b3; c3; a4; b4; c4; a5; b5; c5; a6; b6]
      ++ tail /\
    (tail = [] \/ tail = ["010"%char]) /\
    Forall (fun a => is_hex_char a = true)
      [a1; b1; a2; b2; a3; b3; a4; b4; a5; b5; a6; b6] /\
    Forall (fun c => c = ":"%char \/ c = "-"%char) [c1; c2; c3; c4; c5].
Proof.
  unfold mac_pattern_match.
  destruct (match_groups 5 (list_ascii_of_string s)) as [ r | ] eqn:G;
    [ | discriminate ].
  apply match_groups_inv in G as [a1 [b1 [c1 [r1 [E1 [A1 [B1 [C1 G]]]]]]]].
  apply match_groups_inv in G as [a2 [b2 [c2 [r2 [E2 [A2 [B2 [C2 G]]]]]]]].
  apply match_groups_inv in G as [a3 [b3 [c3 [r3 [E3 [A3 [B3 [C3 G]]]]]]]].
  apply match_groups_inv in G as [a4 [b4 [c4 [r4 [E4 [A4 [B4 [C4 G]]]]]]]].
  apply match_groups_inv in G as [a5 [b5 [c5 [r5 [E5 [A5 [B5 [C5 G]]]]]]]].
  cbn [match_groups] in G. injection G as <-. subst r1 r2 r3 r4.
  intros H.
  destruct r5 as [ | a6 [ | b6 [ | nl [ | x r ] ] ] ]; try discriminate H.
  - apply andb_prop in H as [A6 B6].
    exists a1, b1, c1, a2, b2, c2, a3, b3, c3, a4, b4, c4, a5, b5, c5,
           a6, b6, [].
    split; [ exact E1 | ]. split; [ left; reflexivity | ].
    split;
      repeat (apply Forall_cons;
              [ solve [ auto using mac_separator_cases ] | ]);
      apply Forall_nil.
  - apply andb_prop in H as [H N]. apply andb_prop in H as [A6 B6].
    apply Ascii.eqb_eq in N. subst nl.
    exists a1, b1, c1, a2, b2, c2, a3, b3, c3, a4, b4, c4, a5, b5, c5,
           a6, b6, ["010"%char].
    split; [ exact E1 | ]. split; [ right; reflexivity | ].
    split;
      repeat (apply Forall_cons;
              [ solve [ auto using mac_separator_cases ] | ]);
      apply Forall_nil.
Qed.

Lemma device_id_chars (s : string) :
  string_forallb
    (fun c => is_hex_char c || Ascii.eqb c ":" || Ascii.eqb c "-"
              || Ascii.eqb c "010") s = true ->
  string_forallb
    (fun c => is_lower_hex c || Ascii.eqb c "-" || Ascii.eqb c "010")
    (lower (remove_colons s)) = true.
Proof.
  induction s as [ | c s IH ]; cbn [string_forallb remove_colons];
    [ reflexivity | ].
  intros H. apply andb_prop in H as [H1 H2].
  destruct (Ascii.eqb_spec c ":") as [-> | N]; [ apply IH; exact H2 | ].
  cbn [lower string_forallb]. rewrite (IH H2), andb_true_r.
  destruct (is_hex_char c) eqn:Hc.
  - destruct (hex_char_facts c Hc) as [_ [_ [_ ->]]]. reflexivity.
  - cbn [orb] in H1. apply orb_prop in H1 as [H1 | H1];
      apply Ascii.eqb_eq in H1; subst c; reflexivity.
Qed.

Lemma remove_colons_keep (a : ascii) (r : string) :
  Ascii.eqb a ":" = false ->
  remove_colons (String a r) = String a (remove_colons r).
Proof. intros H. cbn [remove_colons]. rewrite H. reflexivity. Qed.

Lemma remove_colons_drop (r : string) :
  remove_colons (String ":" r) = remove_colons r.
Proof. reflexivity. Qed.

(** Lower-casing maps no character to a dash or a line feed. *)
Lemma lower_ascii_separator (c : ascii) :
  Ascii.eqb (lower_ascii c) "-" = Ascii.eqb c "-" /\
  Ascii.eqb (lower_ascii c) "010" = Ascii.eqb c "010".
Proof.
  destruct c as [[] [] [] [] [] [] [] []]; split; reflexivity.
Qed.

(** What is not a colon stays in the device id: a dash or a line feed
    occurs in the id exactly when it occurs in the address. *)
Lemma separator_kept (x : ascii) (s : string) :
  x = "-"%char \/ x = "010"%char ->
  string_existsb (fun c => Ascii.eqb c x) (lower (remove_colons s))
  = string_existsb (fun c => Ascii.eqb c x) s.
Proof.
  intros X. induction s as [ | c s IH ]; [ reflexivity | ].
  cbn [remove_colons string_existsb].
  destruct (Ascii.eqb_spec c ":") as [-> | N].
  - rewrite IH. destruct X as [-> | ->]; reflexivity.
  - cbn [lower string_existsb]. rewrite IH. f_equal.
    destruct (lower_ascii_separator c) as [D L].
    destruct X as [-> | ->]; assumption.
Qed.

(** The pattern accepts an accepted address followed by a line feed: [$]
    matches before a final line feed. *)
Lemma mac_pattern_newline (s : string) :
  mac_pattern_match s = true ->
  string_existsb (fun c => Ascii.eqb c "010") s = false ->
  mac_pattern_match (s ++ newline) = true.
Proof.
  intros M N.
  destruct (mac_pattern_shape _ M)
    as [a1 [b1 [c1 [a2 [b2 [c2 [a3 [b3 [c3 [a4 [b4 [c4 [a5 [b5 [c5
        [a6 [b6 [tail [L [T [Hh Hs]]]]]]]]]]]]]]]]]]]]].
  assert (S : s = string_of_list_ascii
                    ([a1; b1; c1; a2; b2; c2; a3; b3; c3; a4; b4; c4;
                      a5; b5; c5; a6; b6] ++ tail)).
  { rewrite <- L. symmetry. apply string_of_list_ascii_of_string. }
  subst s. clear L M.
  repeat match goal with
         | H : Forall _ (_ :: _) |- _ =>
             apply Forall_cons_iff in H; destruct H as [? H]
         | H : Forall _ [] |- _ => clear H
         end.
  destruct T as [-> | ->].
  - clear N.
    repeat match goal with
           | H : ?c = ":"%char \/ ?c = "-"%char |- _ =>
               assert (is_mac_separator c = true)
                 by (destruct H; subst c; reflexivity);
               clear H
           end.
    unfold mac_pattern_match, newline.
    cbn [app string_of_list_ascii String.append list_ascii_of_string
         match_groups].
    repeat match goal with
           | H : is_hex_char _ = true |- _ => rewrite H
           | H : is_mac_separator _ = true |- _ => rewrite H
           end.
    cbn [andb].
    repeat match goal with
           | H : is_hex_char _ = true |- _ => rewrite H
           end.
    reflexivity.
  - exfalso.
    cbn [app string_of_list_ascii string_existsb] in N.
    repeat match goal with
           | H : _ || _ = false |- _ =>
               apply orb_false_elim in H; destruct H
           end.
    discriminate.
Qed.

(** X22. What the argument checks guarantee downstream. Accepted arguments
    are returned as given, the timeout is at least one second and discovery
    implies MQTT. The device id used in every MQTT topic (the address
    without colons, lower-cased) consists of lower-case hex digits, dashes
    and line feeds only; when the address holds no dash and no line feed it
    is exactly twelve lower-case hex digits. Dashes and line feeds are not
    removed: the id holds one exactly when the address does. An accepted
    address without a line feed is still accepted with a line feed after
    it. *)
Theorem accepted_arguments (args args' : Args) :
  parse_arguments args = Ret args' ->
  let id := lower (remove_colons (a_device args')) in
  args' = args /\
  1 <= a_timeout args' /\
  (a_mqtt_auto_home_assistant args' = true -> a_mqtt args' = true) /\
  string_forallb
    (fun c => is_lower_hex c || Ascii.eqb c "-" || Ascii.eqb c "010") id
  = true /\
  (string_existsb (fun c => Ascii.eqb c "-" || Ascii.eqb c "010")
     (a_device args') = false ->
   String.length id = 12%nat /\ string_forallb is_lower_hex id = true) /\
  string_existsb (fun c => Ascii.eqb c "-") id
  = string_existsb (fun c => Ascii.eqb c "-") (a_device args') /\
  string_existsb (fun c => Ascii.eqb c "010") id
  = string_existsb (fun c => Ascii.eqb c "010") (a_device args') /\
  (string_existsb (fun c => Ascii.eqb c "010") (a_device args') = false ->
   parse_arguments (set_device args' (a_device args' ++ newline))
   = Ret (set_device args' (a_device args' ++ newline))).
Proof.
  unfold parse_arguments.
  destruct (a_mqtt_auto_home_assistant args && negb (a_mqtt args)) eqn:H1;
    [ discriminate | ].
  destruct (Z.ltb_spec (a_timeout args) 1) as [H2 | H2]; [ discriminate | ].
  destruct (mac_pattern_match (a_device args)) eqn:H3; [ | discriminate ].
  cbn [negb]. intros E. injection E as <-. cbv zeta.
  split; [ reflexivity | ]. split; [ exact H2 | ].
  split.
  { intros A. rewrite A in H1. destruct (a_mqtt args);
      [ reflexivity | discriminate H1 ]. }
  apply and_assoc.
  split; [ | split; [ apply separator_kept; left; reflexivity | ];
             split; [ apply separator_kept; right; reflexivity | ];
             intros N; unfold set_device;
             cbn [a_device a_mqtt a_mqtt_auto_home_assistant a_timeout];
             rewrite H1, (mac_pattern_newline _ H3 N);
             destruct (Z.ltb_spec (a_timeout args) 1);
             [ lia | reflexivity ] ].
  destruct (mac_pattern_shape _ H3)
    as [a1 [b1 [c1 [a2 [b2 [c2 [a3 [b3 [c3 [a4 [b4 [c4 [a5 [b5 [c5
        [a6 [b6 [tail [L [T [Hh Hs]]]]]]]]]]]]]]]]]]]]].
  assert (S : a_device args
              = string_of_list_ascii
                  ([a1; b1; c1; a2; b2; c2; a3; b3; c3; a4; b4; c4;
                    a5; b5; c5; a6; b6] ++ tail)).
  { rewrite <- L. symmetry. apply string_of_list_ascii_of_string. }
  rewrite S. clear S L H3.
  repeat match goal with
         | H : Forall _ (_ :: _) |- _ =>
             apply Forall_cons_iff in H; destruct H as [? H]
         | H : Forall _ [] |- _ => clear H
         end.
  repeat match goal with
         | H : is_hex_char ?a = true |- _ =>
             let F := fresh "F" in
             pose proof (hex_char_facts a H) as F;
             destruct F as [? [? [? ?]]]; revert H
         end.
  intros.
  split.
  - apply device_id_chars.
    repeat match goal with
           | H : ?c = ":"%char \/ ?c = "-"%char |- _ =>
               assert (is_hex_char c || Ascii.eqb c ":" || Ascii.eqb c "-"
                       || Ascii.eqb c "010" = true)
                 by (destruct H; subst c; reflexivity);
               clear H
           end.
    destruct T as [-> | ->];
      cbn [app string_of_list_ascii string_forallb];
      repeat match goal with
             | H : is_hex_char ?a = true |- _ => rewrite H; clear H
             | H : _ || _ || _ || _ = true |- _ => rewrite H; clear H
             end; reflexivity.
  - intros N.
    destruct T as [-> | ->];
      cbn [app string_of_list_ascii string_existsb] in N;
      repeat match goal with
             | H : _ || _ = false |- _ =>
                 apply orb_false_elim in H; destruct H
             end;
      try discriminate.
    repeat match goal with
           | H : _ = ":"%char \/ _ = "-"%char |- _ =>
               destruct H; [ | subst; discriminate ]
           end.
    subst. cbn [app string_of_list_ascii].
    repeat first [ rewrite remove_colons_keep by assumption
                 | rewrite remove_colons_drop ].
    cbn [remove_colons lower String.length string_forallb].
    repeat match goal with
           | H : is_lower_hex _ = true |- _ => rewrite H; clear H
           end.
    split; reflexivity.
Qed.

Lemma accepted_arguments_witness :
  (parse_arguments args_colons = Ret args_colons /\
   String.length (lower (remove_colons (a_device args_colons))) = 12%nat /\
   string_forallb is_lower_hex (lower (remove_colons (a_device args_colons)))
   = true /\
   parse_arguments (set_device args_colons (a_device args_colons ++ newline))
   = Ret (set_device args_colons (a_device args_colons ++ newline))) /\
  (parse_arguments args_dashed = Ret args_dashed /\
   string_existsb (fun c => Ascii.eqb c "-")
     (lower (remove_colons (a_device args_dashed))) = true) /\
  (parse_arguments (set_device args_colons (a_device args_colons ++ newline))
   = Ret (set_device args_colons (a_device args_colons ++ newline)) /\
   string_existsb (fun c => Ascii.eqb c "010")
     (lower (remove_colons (a_device args_colons ++ newline))) = true).
Proof.
  split; [ | split ].
  - split; [ reflexivity | ].
    pose proof (accepted_arguments args_colons args_colons eq_refl) as P.
    cbv zeta in P.
    destruct P as [_ [_ [_ [_ [P5 [_ [_ P8]]]]]]].
    destruct (P5 eq_refl) as [A B].
    split; [ exact A | ]. split; [ exact B | ]. exact (P8 eq_refl).
  - split; [ reflexivity | ].
    pose proof (accepted_arguments args_dashed args_dashed eq_refl) as P.
    cbv zeta in P.
    destruct P as [_ [_ [_ [_ [_ [P6 _]]]]]].
    rewrite P6. reflexivity.
  - split; [ reflexivity | ].
    pose proof (accepted_arguments
                  (set_device args_colons (a_device args_colons ++ newline))
                  (set_device args_colons (a_device args_colons ++ newline))
                  eq_refl) as P.
    cbv zeta in P.
    destruct P as [_ [_ [_ [_ [_ [_ [P7 _]]]]]]].
    exact (eq_trans P7 eq_refl).
Defined.
